(** * Corey: the Slack channel adapter and the outbound router

    A shallow embedding of [src/channels/slack.ts] (class [SlackChannel]) and
    of [src/router.ts], with the properties of the adapter's specification
    stated over it.

    Conventions of the embedding.
    - A JavaScript string is a [string]: a sequence of code units.  The
      character classes used by the source ([\s], [trim]) are modelled on
      code units below 256.
    - [x || y], [!x] and [if (x)] on strings follow JavaScript truthiness:
      the empty string and [undefined] are falsy.  An optional field is an
      [option]; [truthy] decides its truthiness.
    - An [async] method is a state transformer returning an [Outcome]:
      [Ok v] for a resolved promise, [Throw e] for a rejected one.  Awaits
      are sequential: interleaving with other handlers is not modelled.
    - Built-ins that throw are modelled with their error: [toISOString] of
      an invalid date ([RangeError]) and [new RegExp] of a malformed
      pattern ([SyntaxError]).
    - The Slack Web API, [fetch], the file system, the clock and the
      callbacks of [SlackChannelOpts] are the environment [Env]; the calls
      of [onMessage] and [onChatMetadata] are recorded in the world's log. *)

From Stdlib Require Import ZArith Ascii String List Lia Bool.
From stdpp Require Import gmap strings list.

Set Default Proof Using "Type".

#[global] Arguments String.append !_ _ / : simpl nomatch.
#[global] Arguments Ascii.eqb : simpl never.

(** ** JavaScript strings *)

Module JS.

Definition LF : ascii := "010"%char.

(** [s.slice(0, n)] for [0 <= n]. *)
Fixpoint take (n : nat) (s : string) : string :=
  match n, s with
  | S k, String c t => String c (take k t)
  | _, _ => ""
  end.

(** [s.slice(n)] for [0 <= n]. *)
Fixpoint drop (n : nat) (s : string) : string :=
  match n, s with
  | S k, String _ t => drop k t
  | _, _ => s
  end.

(** [!s] is false: the string is not empty. *)
Definition nonEmpty (s : string) : bool :=
  match s with "" => false | _ => true end.

(** [p] occurs at the start of [s]. *)
Fixpoint startsWith (p s : string) : bool :=
  match p, s with
  | "", _ => true
  | String a p', String b s' => Ascii.eqb a b && startsWith p' s'
  | String _ _, "" => false
  end.

(** [s.includes(p)]. *)
Fixpoint includes (p s : string) : bool :=
  startsWith p s ||
  match s with
  | "" => false
  | String _ t => includes p t
  end.

(** The text after the first occurrence of [p] in [s], if there is one. *)
Fixpoint afterFirst (p s : string) : option string :=
  if startsWith p s then Some (drop (String.length p) s)
  else match s with
       | "" => None
       | String _ t => afterFirst p t
       end.

(** The text before the first occurrence of [p] in [s]; all of [s] when
    [p] does not occur. *)
Fixpoint beforeFirst (p s : string) : string :=
  if startsWith p s then ""
  else match s with
       | "" => ""
       | String c t => String c (beforeFirst p t)
       end.

(** Index of the last occurrence of [c] in [s], [-1] when there is none;
    [i] is the index of the head of [s]. *)
Fixpoint lastIndexFrom (c : ascii) (i : nat) (s : string) (found : Z) : Z :=
  match s with
  | "" => found
  | String a t =>
      lastIndexFrom c (S i) t (if Ascii.eqb a c then Z.of_nat i else found)
  end.

(** [s.lastIndexOf(c, from)]: the last index [i <= from] with
    [s[i] = c], or [-1]. *)
Definition lastIndexOf (c : ascii) (from : nat) (s : string) : Z :=
  lastIndexFrom c 0 (take (S from) s) (-1).

(** White space and line terminators, as [\s] and [trim] see them. *)
Definition isWhite (c : ascii) : bool :=
  let n := nat_of_ascii c in
  ((9 <=? n) && (n <=? 13)) || (n =? 32) || (n =? 160).

Fixpoint trimStart (s : string) : string :=
  match s with
  | String c t => if isWhite c then trimStart t else s
  | "" => ""
  end.

Fixpoint trimEnd (s : string) : string :=
  match s with
  | "" => ""
  | String c t =>
      let t' := trimEnd t in
      if isWhite c && negb (nonEmpty t') then "" else String c t'
  end.

(** [s.trim()]. *)
Definition trim (s : string) : string := trimEnd (trimStart s).

(** White space only. *)
Fixpoint allWhite (s : string) : bool :=
  match s with
  | "" => true
  | String c t => isWhite c && allWhite t
  end.

(** [c] occurs in [s]. *)
Fixpoint occurs (c : ascii) (s : string) : bool :=
  match s with
  | "" => false
  | String a t => Ascii.eqb a c || occurs c t
  end.

(** [c.repeat(n)]. *)
Fixpoint repeat (c : ascii) (n : nat) : string :=
  match n with
  | 0 => ""
  | S k => String c (repeat c k)
  end.

(** A decimal digit. *)
Definition isDigit (c : ascii) : bool :=
  let n := nat_of_ascii c in (48 <=? n) && (n <=? 57).

(** A letter of [A-Za-z] or a digit: a character that stands for itself
    in a regular expression. *)
Definition isAlnum (c : ascii) : bool :=
  let n := nat_of_ascii c in
  ((65 <=? n) && (n <=? 90)) || ((97 <=? n) && (n <=? 122)) || isDigit c.

Fixpoint allAlnum (s : string) : bool :=
  match s with
  | "" => true
  | String c t => isAlnum c && allAlnum t
  end.

(** [parseFloat(s)] finds a decimal literal: after leading white space
    and an optional sign, [s] goes on with a digit, or with a dot and a
    digit.  Otherwise [parseFloat(s)] is [NaN], or an infinity when [s]
    goes on with [Infinity]. *)
Definition startsDecimal (s : string) : bool :=
  let unsigned :=
    match trimStart s with
    | String c t => if Ascii.eqb c "+" || Ascii.eqb c "-" then t else String c t
    | "" => ""
    end in
  match unsigned with
  | String c t =>
      isDigit c
      || (Ascii.eqb c "."
          && match t with String d _ => isDigit d | "" => false end)
  | "" => false
  end.

(** Truthiness of an optional string: present and not empty. *)
Definition truthy (o : option string) : bool :=
  match o with
  | Some s => nonEmpty s
  | None => false
  end.

(** [a || b] on optional strings. *)
Definition orElse (a b : option string) : option string :=
  if truthy a then a else b.

(** [a || undefined]. *)
Definition orUndefined (a : option string) : option string :=
  if truthy a then a else None.

(** [a || d] with a string default. *)
Definition orDefault (a : option string) (d : string) : string :=
  match a with
  | Some s => if nonEmpty s then s else d
  | None => d
  end.

End JS.

(** ** [splitMessage] (slack.ts) *)

Definition MAX_MESSAGE_LENGTH : nat := Z.to_nat 39000.

(** The [while] loop of [splitMessage], for a limit [limit].  Every
    iteration removes at least one code unit from [remaining], so
    [String.length remaining] iterations are enough. *)
Fixpoint splitLoop (limit fuel : nat) (remaining : string)
    (chunks : list string) : list string * string :=
  match fuel with
  | 0 => (chunks, remaining)
  | S fuel' =>
      if limit <? String.length remaining then
        let found := JS.lastIndexOf JS.LF limit remaining in
        let splitIdx := if (found <=? 0)%Z then limit else Z.to_nat found in
        splitLoop limit fuel' (JS.drop (splitIdx + 1) remaining)
                  (chunks ++ [JS.take splitIdx remaining])
      else (chunks, remaining)
  end.

Definition splitMessageAt (limit : nat) (text : string) : list string :=
  if String.length text <=? limit then [text]
  else
    let '(chunks, remaining) := splitLoop limit (String.length text) text [] in
    if JS.nonEmpty remaining then chunks ++ [remaining] else chunks.

Definition splitMessage (text : string) : list string :=
  splitMessageAt MAX_MESSAGE_LENGTH text.

(** Putting chunks back together: between two consecutive chunks the flag
    says whether the cut was taken at a newline, which is then put back. *)
Fixpoint reassemble (chunks : list string) (atNewline : list bool) : string :=
  match chunks with
  | [] => ""
  | [c] => c
  | c :: rest =>
      match atNewline with
      | true :: flags => c +:+ String JS.LF (reassemble rest flags)
      | false :: flags => c +:+ reassemble rest flags
      | [] => c +:+ reassemble rest []
      end
  end.

(** ** [stripInternalTags] and [formatOutbound] (router.ts) *)

Definition openTag : string := "<internal>".
Definition closeTag : string := "</internal>".

(** [text.replace(/<internal>[\s\S]*?<\/internal>/g, '')]: scanning from
    the left, an opening tag that has a closing tag to its right is
    removed together with everything up to and including the nearest
    closing tag; the scan resumes after it.  An opening tag with no closing
    tag to its right ends the scan: no later position can match either. *)
Fixpoint removeClosedBlocks (fuel : nat) (s : string) : string :=
  match fuel with
  | 0 => s
  | S fuel' =>
      match s with
      | "" => ""
      | String c t =>
          if JS.startsWith openTag s then
            match JS.afterFirst closeTag (JS.drop (String.length openTag) s) with
            | Some rest => removeClosedBlocks fuel' rest
            | None => s
            end
          else String c (removeClosedBlocks fuel' t)
      end
  end.

(** [result.replace(/<internal>[\s\S]*/g, '')]. *)
Definition removeUnclosedBlock (s : string) : string :=
  JS.beforeFirst openTag s.

Definition stripInternalTags (text : string) : string :=
  let result := removeClosedBlocks (String.length text) text in
  let result := removeUnclosedBlock result in
  JS.trim result.

Definition formatOutbound (rawText : string) : string :=
  let text := stripInternalTags rawText in
  if negb (JS.nonEmpty text) then "" else text.


(** * The Slack channel adapter (slack.ts) *)

(** ** Data *)

(** An entry of [outgoingQueue]. *)
Record OutboundItem := {
  item_jid : string;
  item_text : string;
  item_threadTs : option string
}.

(** An entry of [userInfoCache]. *)
Record UserInfo := { info_name : string; info_tz : string }.

Record MessageFile := {
  file_name : string;
  file_mimetype : string;
  file_size : N;
  file_localPath : string
}.

(** The object handed to [opts.onMessage]; [msg_is_reaction] is [None]
    where the source leaves [is_reaction] out. *)
Record NewMessage := {
  msg_id : string;
  msg_chat_jid : string;
  msg_sender : string;
  msg_sender_name : string;
  msg_sender_tz : option string;
  msg_content : string;
  msg_timestamp : string;
  msg_is_from_me : bool;
  msg_is_bot_message : bool;
  msg_thread_ts : option string;
  msg_files : option (list MessageFile);
  msg_is_reaction : option bool
}.

Record RegisteredGroup := { group_name : string; group_folder : string }.

(** What [opts.lookupMessage] returns for a stored message. *)
Record DbMessage := {
  db_content : string;
  db_thread_ts : option string;
  db_is_bot_message : bool
}.

(** A call of one of the callbacks of [SlackChannelOpts]. *)
Inductive Callback :=
| OnChatMetadata (jid timestamp : string)
| OnMessage (jid : string) (m : NewMessage)
| OnMessageDelete (jid ts : string).

(** ** The Slack platform *)

(** A message as the Web API returns it ([conversations.history],
    [conversations.replies]). *)
Record SlackMessage := {
  sm_ts : option string;
  sm_user : option string;
  sm_text : option string;
  sm_bot_id : option string;
  sm_subtype : option string;
  sm_thread_ts : option string;
  sm_reply_count : option nat
}.

(** An entry of an event's [files]. *)
Record SlackFile := {
  sf_id : string;
  sf_name : option string;
  sf_url_private_download : option string;
  sf_url_private : option string;
  sf_size : option N;
  sf_mimetype : option string
}.

(** [result.user] of [users.info]. *)
Record SlackUser := {
  su_display_name : option string;
  su_real_name : option string;
  su_name : option string;
  su_tz : option string
}.

(** An entry of [result.channels] of [conversations.list]. *)
Record SlackConversation := {
  sc_id : option string;
  sc_name : option string;
  sc_is_im : bool;
  sc_user : option string
}.

Record ListPage := {
  page_channels : list SlackConversation;
  page_next_cursor : option string
}.

(** The [reaction_added] event. *)
Record ReactionEvent := {
  re_user : option string;
  re_item_type : string;
  re_item_channel : string;
  re_item_ts : string;
  re_reaction : string;
  re_event_ts : string
}.

(** A promise of the platform: resolved with a value or rejected. *)
Inductive Api (A : Type) :=
| Resolved (a : A)
| Rejected (err : string).
Arguments Resolved {A} a.
Arguments Rejected {A} err.

Record PostArgs := {
  post_channel : string;
  post_text : string;
  post_thread_ts : option string
}.

Record HistoryArgs := {
  hist_channel : string;
  hist_oldest : option string;
  hist_latest : option string;
  hist_inclusive : bool;
  hist_limit : nat
}.

Record RepliesArgs := {
  rep_channel : string;
  rep_ts : string;
  rep_oldest : string;
  rep_limit : nat;
  rep_inclusive : bool
}.

Record UploadArgs := {
  up_filePath : string;
  up_filename : string;
  up_title : string;
  up_initial_comment : option string;
  up_channel_id : string;
  up_thread_ts : option string
}.

(** [fetch(url, ...)]: rejected, or a response with its [ok] flag and the
    outcome of [arrayBuffer()], of which the byte length is kept. *)
Inductive FetchResult :=
| FetchRejected (err : string)
| FetchResponse (ok : bool) (status : nat) (body : Api N).

(** The environment of the adapter: the options it is built with, the
    process environment, the Slack client, [fetch], the file system and
    the clock.  [chat_postMessage] is given the number of earlier calls,
    so that the same send can fail once and succeed later. *)
Record Env := {
  registeredGroups : gmap string RegisteredGroup;
  lookupMessage : option (string -> string -> option DbMessage);
  SLACK_BOT_TOKEN : option string;
  SLACK_APP_TOKEN : option string;
  DATA_DIR : string;
  app_start : Api unit;
  auth_test : Api (option string);
  chat_postMessage : nat -> PostArgs -> Api (option string);
  users_info : string -> Api (option SlackUser);
  conversations_history : HistoryArgs -> Api (option (list SlackMessage));
  conversations_replies : RepliesArgs -> Api (option (list SlackMessage));
  conversations_list : option string -> Api ListPage;
  reactions_add : string -> string -> string -> Api unit;
  reactions_remove : string -> string -> string -> Api unit;
  files_uploadV2 : UploadArgs -> Api unit;
  fetch : string -> FetchResult;
  mkdirSync : string -> bool;
  writeFileSync : string -> bool;
  path_join : list string -> string;
  path_relative : string -> string;
  path_basename : string -> string;
  (** [new Date(parseFloat(ts) * 1000).toISOString()] for a [ts] in which
      [parseFloat] finds a decimal literal: the text, or nothing when the
      date is out of range and [toISOString] throws a [RangeError] *)
  toISOString : string -> option string;
  (** [text.replace(new RegExp(source, 'g'), '')] for a [source] that this
      development does not interpret: the text left, or nothing when
      [new RegExp] throws a [SyntaxError] *)
  regExpReplace : string -> string -> option string;
  (** [String(Date.now() / 1000 - 12 * 60 * 60)] *)
  twelveHoursAgo : string;
  (** [resolveMentions], as a function of the cache and the text *)
  resolveMentions : gmap string UserInfo -> string -> string
}.

(** ** The adapter's state and what it has done *)

(** The fields of [SlackChannel], the part of the database it writes
    ([syncedRecently]: a group sync is recorded and younger than
    [CHANNEL_SYNC_INTERVAL_MS]; [chatNames]: the calls of
    [updateChatName]), and the record of its calls: [postAttempts] counts
    the calls of [chat.postMessage], [posted] lists the ones that
    resolved, [callbacks] lists the calls of the [opts] callbacks. *)
Record World := {
  connected : bool;
  botUserId : string;
  botToken : string;
  outgoingQueue : list OutboundItem;
  flushing : bool;
  channelSyncTimerStarted : bool;
  userInfoCache : gmap string UserInfo;
  syncedRecently : bool;
  chatNames : list (string * string);
  postAttempts : nat;
  posted : list PostArgs;
  callbacks : list Callback
}.

Definition set_connected (b : bool) (w : World) : World :=
  {| connected := b; botUserId := botUserId w; botToken := botToken w;
     outgoingQueue := outgoingQueue w; flushing := flushing w;
     channelSyncTimerStarted := channelSyncTimerStarted w;
     userInfoCache := userInfoCache w; syncedRecently := syncedRecently w;
     chatNames := chatNames w; postAttempts := postAttempts w;
     posted := posted w; callbacks := callbacks w |}.

Definition set_botUserId (s : string) (w : World) : World :=
  {| connected := connected w; botUserId := s; botToken := botToken w;
     outgoingQueue := outgoingQueue w; flushing := flushing w;
     channelSyncTimerStarted := channelSyncTimerStarted w;
     userInfoCache := userInfoCache w; syncedRecently := syncedRecently w;
     chatNames := chatNames w; postAttempts := postAttempts w;
     posted := posted w; callbacks := callbacks w |}.

Definition set_botToken (s : string) (w : World) : World :=
  {| connected := connected w; botUserId := botUserId w; botToken := s;
     outgoingQueue := outgoingQueue w; flushing := flushing w;
     channelSyncTimerStarted := channelSyncTimerStarted w;
     userInfoCache := userInfoCache w; syncedRecently := syncedRecently w;
     chatNames := chatNames w; postAttempts := postAttempts w;
     posted := posted w; callbacks := callbacks w |}.

Definition set_outgoingQueue (q : list OutboundItem) (w : World) : World :=
  {| connected := connected w; botUserId := botUserId w; botToken := botToken w;
     outgoingQueue := q; flushing := flushing w;
     channelSyncTimerStarted := channelSyncTimerStarted w;
     userInfoCache := userInfoCache w; syncedRecently := syncedRecently w;
     chatNames := chatNames w; postAttempts := postAttempts w;
     posted := posted w; callbacks := callbacks w |}.

Definition set_flushing (b : bool) (w : World) : World :=
  {| connected := connected w; botUserId := botUserId w; botToken := botToken w;
     outgoingQueue := outgoingQueue w; flushing := b;
     channelSyncTimerStarted := channelSyncTimerStarted w;
     userInfoCache := userInfoCache w; syncedRecently := syncedRecently w;
     chatNames := chatNames w; postAttempts := postAttempts w;
     posted := posted w; callbacks := callbacks w |}.

Definition set_channelSyncTimerStarted (b : bool) (w : World) : World :=
  {| connected := connected w; botUserId := botUserId w; botToken := botToken w;
     outgoingQueue := outgoingQueue w; flushing := flushing w;
     channelSyncTimerStarted := b;
     userInfoCache := userInfoCache w; syncedRecently := syncedRecently w;
     chatNames := chatNames w; postAttempts := postAttempts w;
     posted := posted w; callbacks := callbacks w |}.

Definition set_userInfoCache (c : gmap string UserInfo) (w : World) : World :=
  {| connected := connected w; botUserId := botUserId w; botToken := botToken w;
     outgoingQueue := outgoingQueue w; flushing := flushing w;
     channelSyncTimerStarted := channelSyncTimerStarted w;
     userInfoCache := c; syncedRecently := syncedRecently w;
     chatNames := chatNames w; postAttempts := postAttempts w;
     posted := posted w; callbacks := callbacks w |}.

Definition set_syncedRecently (b : bool) (w : World) : World :=
  {| connected := connected w; botUserId := botUserId w; botToken := botToken w;
     outgoingQueue := outgoingQueue w; flushing := flushing w;
     channelSyncTimerStarted := channelSyncTimerStarted w;
     userInfoCache := userInfoCache w; syncedRecently := b;
     chatNames := chatNames w; postAttempts := postAttempts w;
     posted := posted w; callbacks := callbacks w |}.

Definition set_chatNames (l : list (string * string)) (w : World) : World :=
  {| connected := connected w; botUserId := botUserId w; botToken := botToken w;
     outgoingQueue := outgoingQueue w; flushing := flushing w;
     channelSyncTimerStarted := channelSyncTimerStarted w;
     userInfoCache := userInfoCache w; syncedRecently := syncedRecently w;
     chatNames := l; postAttempts := postAttempts w;
     posted := posted w; callbacks := callbacks w |}.

(** One more call of [chat.postMessage]; [sent] is the call when it
    resolved. *)
Definition record_post (sent : option PostArgs) (w : World) : World :=
  {| connected := connected w; botUserId := botUserId w; botToken := botToken w;
     outgoingQueue := outgoingQueue w; flushing := flushing w;
     channelSyncTimerStarted := channelSyncTimerStarted w;
     userInfoCache := userInfoCache w; syncedRecently := syncedRecently w;
     chatNames := chatNames w; postAttempts := S (postAttempts w);
     posted := match sent with
               | Some a => posted w ++ [a]
               | None => posted w
               end;
     callbacks := callbacks w |}.

Definition record_callback (c : Callback) (w : World) : World :=
  {| connected := connected w; botUserId := botUserId w; botToken := botToken w;
     outgoingQueue := outgoingQueue w; flushing := flushing w;
     channelSyncTimerStarted := channelSyncTimerStarted w;
     userInfoCache := userInfoCache w; syncedRecently := syncedRecently w;
     chatNames := chatNames w; postAttempts := postAttempts w;
     posted := posted w; callbacks := callbacks w ++ [c] |}.

(** The adapter as the constructor leaves it. *)
Definition initial : World :=
  {| connected := false; botUserId := ""; botToken := "";
     outgoingQueue := []; flushing := false;
     channelSyncTimerStarted := false; userInfoCache := ∅;
     syncedRecently := false; chatNames := []; postAttempts := 0;
     posted := []; callbacks := [] |}.

(** ** Asynchronous methods *)

(** How a call ends: it returns, it throws (its promise is rejected), or
    the model's loop bound was reached before it ended. *)
Inductive Outcome (A : Type) :=
| Ok (a : A)
| Throw (err : string)
| OutOfFuel.
Arguments Ok {A} a.
Arguments Throw {A} err.
Arguments OutOfFuel {A}.

(** An asynchronous computation on a state [S]; the methods of the
    adapter run on the [World]. *)
Definition Async (S A : Type) : Type := S -> Outcome A * S.

Abbreviation M := (Async World).

Definition ret {S A : Type} (a : A) : Async S A := fun s => (Ok a, s).

Definition throw {S A : Type} (err : string) : Async S A :=
  fun s => (Throw err, s).

Definition outOfFuel {S A : Type} : Async S A := fun s => (OutOfFuel, s).

Definition bind {S A B : Type} (m : Async S A) (k : A -> Async S B)
  : Async S B := fun s =>
  match m s with
  | (Ok a, s') => k a s'
  | (Throw err, s') => (Throw err, s')
  | (OutOfFuel, s') => (OutOfFuel, s')
  end.

Declare Scope async_scope.
Delimit Scope async_scope with async.
Notation "x <- m ;; k" := (bind m (fun x => k))
  (at level 100, m at next level, right associativity) : async_scope.
Notation "m ;;; k" := (bind m (fun _ => k))
  (at level 100, right associativity) : async_scope.
Open Scope async_scope.

(** [try { m } catch (err) { handler }] *)
Definition tryCatch {S A : Type} (m : Async S A)
    (handler : string -> Async S A) : Async S A :=
  fun s =>
    match m s with
    | (Throw err, s') => handler err s'
    | r => r
    end.

(** [try { m } finally { fin }], for a [fin] that only assigns. *)
Definition tryFinally {A : Type} (m : M A) (fin : World -> World) : M A :=
  fun w => let '(r, w') := m w in (r, fin w').

(** [m.catch(log)] on a promise that is not awaited: the caller goes on
    whatever becomes of [m]. *)
Definition detached {A : Type} (m : M A) : M unit :=
  fun w => (Ok tt, snd (m w)).

Definition modify {S : Type} (f : S -> S) : Async S unit :=
  fun s => (Ok tt, f s).

Definition read {S A : Type} (f : S -> A) : Async S A :=
  fun s => (Ok (f s), s).

Definition await {S A : Type} (r : Api A) : Async S A :=
  fun s =>
    match r with
    | Resolved a => (Ok a, s)
    | Rejected err => (Throw err, s)
    end.

(** ** The methods of [SlackChannel] *)

Definition MAX_FILE_SIZE : N := 20 * 1024 * 1024.

(** [if (x?.length)] on an optional array. *)
Definition hasLength {A : Type} (l : option (list A)) : bool :=
  match l with
  | Some (_ :: _) => true
  | _ => false
  end.

(** [s || undefined] for a string. *)
Definition orUndefinedStr (s : string) : option string :=
  if JS.nonEmpty s then Some s else None.

(** [ts.replace(/\./g, '-')] *)
Fixpoint safeTs (ts : string) : string :=
  match ts with
  | "" => ""
  | String c t => String (if Ascii.eqb c "." then "-"%char else c) (safeTs t)
  end.

(** [text.replace(new RegExp(`<@${botUserId}>\\s*`, 'g'), '')] for a
    [token] = [<@botUserId>] whose id is made of letters and digits, which
    stand for themselves in the pattern: every occurrence of the token
    goes, with the white space behind it. *)
Fixpoint removeMentions (fuel : nat) (token s : string) : string :=
  match fuel with
  | 0 => s
  | S fuel' =>
      match s with
      | "" => ""
      | String c t =>
          if JS.startsWith token s then
            removeMentions fuel' token
              (JS.trimStart (JS.drop (String.length token) s))
          else String c (removeMentions fuel' token t)
      end
  end.

Definition mentionToken (botUserId : string) : string :=
  "<@" +:+ botUserId +:+ ">".

(** The source text of the pattern. *)
Definition mentionPattern (botUserId : string) : string :=
  "<@" +:+ botUserId +:+ ">\s*".

(** The replacement and the [trim] behind it, for an id made of letters
    and digits. *)
Definition stripBotMention (botUserId text : string) : string :=
  JS.trim (removeMentions (String.length text) (mentionToken botUserId) text).

(** The text of a live event when the bot's id is made of letters and
    digits: the bot's mention is stripped from a mention event once the
    bot's id is known. *)
Definition eventText (bot : string) (isMention : bool) (rawText : string)
  : string :=
  if isMention && JS.nonEmpty bot then stripBotMention bot rawText
  else rawText.

(** The thread rule of the specification (section 4.5): the explicit
    parent reference when there is one and it is not the message's own id;
    else the own id for a mention of the bot or a message with replies;
    else no thread. *)
Definition threadKeyRule (parent : option string) (ownId : string)
    (isMention hasReplies : bool) : option string :=
  match parent with
  | Some p =>
      if JS.nonEmpty p && negb (String.eqb p ownId) then Some p
      else if isMention || hasReplies then Some ownId else None
  | None => if isMention || hasReplies then Some ownId else None
  end.

(** [msg.reply_count && msg.reply_count > 0] *)
Definition hasReplies (msg : SlackMessage) : bool :=
  match sm_reply_count msg with
  | Some n => 0 <? n
  | None => false
  end.

(** [msg.bot_id || (msg.subtype && msg.subtype !== 'file_share')] *)
Definition isBotOrSubtype (msg : SlackMessage) : bool :=
  JS.truthy (sm_bot_id msg)
  || (JS.truthy (sm_subtype msg)
      && negb (bool_decide (sm_subtype msg = Some "file_share"))).

(** The snippet and the content of a reaction message. *)
Definition reactionSnippet (reactedContent : string) : string :=
  if JS.nonEmpty reactedContent && (200 <? String.length reactedContent)
  then JS.take 200 reactedContent +:+ "..."
  else reactedContent.

Definition quote : string := String (ascii_of_nat 34) EmptyString.

Definition reactionContent (reaction reactedContent : string) : string :=
  let snippet := reactionSnippet reactedContent in
  if JS.nonEmpty snippet
  then "[reacted with :" +:+ reaction +:+ ": to: " +:+ quote +:+ snippet
       +:+ quote +:+ "]"
  else "[reacted with :" +:+ reaction +:+ ":]".

Section Adapter.
Variable E : Env.

(** [groups[channel]] is there. *)
Definition isRegistered (channel : string) : bool :=
  match registeredGroups E !! channel with
  | Some _ => true
  | None => false
  end.

Definition resolveUserInfo (userId : string) : M UserInfo := fun w =>
  match userInfoCache w !! userId with
  | Some cached => (Ok cached, w)
  | None =>
      match users_info E userId with
      | Resolved user =>
          let name :=
            JS.orDefault
              (JS.orElse (JS.orElse (user ≫= su_display_name)
                                    (user ≫= su_real_name))
                         (user ≫= su_name))
              userId in
          let tz := JS.orDefault (user ≫= su_tz) "" in
          let info := {| info_name := name; info_tz := tz |} in
          (Ok info, set_userInfoCache (<[userId := info]> (userInfoCache w)) w)
      | Rejected _ => (Ok {| info_name := userId; info_tz := "" |}, w)
      end
  end.

Definition resolveDisplayName (userId : string) : M string :=
  info <- resolveUserInfo userId ;; ret (info_name info).

(** [new Date(parseFloat(ts) * 1000).toISOString()], when it returns: the
    date of [NaN] and of an infinity is invalid. *)
Definition timestampOf (ts : string) : option string :=
  if JS.startsDecimal ts then toISOString E ts else None.

Definition isoTimestamp (ts : string) : M string :=
  match timestampOf ts with
  | Some timestamp => ret timestamp
  | None => throw "RangeError: Invalid time value"
  end.

(** [text.replace(new RegExp(`<@${botUserId}>\\s*`, 'g'), '').trim()].
    The id goes into the pattern as it is.  Made of letters and digits, as
    the platform's ids are, it stands for itself; what the pattern of
    another id matches, and whether it is a pattern at all, is left to
    [regExpReplace]. *)
Definition stripMention (botUserId text : string) : M string :=
  if JS.allAlnum botUserId then ret (stripBotMention botUserId text)
  else
    match regExpReplace E (mentionPattern botUserId) text with
    | Some replaced => ret (JS.trim replaced)
    | None => throw "SyntaxError: Invalid regular expression"
    end.

(** The body of the [for] loop of [downloadFiles]; [result] is the array
    being filled. *)
Fixpoint downloadLoop (dir : string) (slackFiles : list SlackFile)
    (result : list MessageFile) : list MessageFile :=
  match slackFiles with
  | [] => result
  | file :: rest =>
      let url := JS.orElse (sf_url_private_download file) (sf_url_private file) in
      if negb (JS.truthy url) then downloadLoop dir rest result
      else
        let size := default 0%N (sf_size file) in
        if (MAX_FILE_SIZE <? size)%N then downloadLoop dir rest result
        else
          match fetch E (JS.orDefault url "") with
          | FetchRejected _ => downloadLoop dir rest result
          | FetchResponse ok _ body =>
              if negb ok then downloadLoop dir rest result
              else
                match body with
                | Rejected _ => downloadLoop dir rest result
                | Resolved length =>
                    let name :=
                      JS.orDefault (sf_name file) ("file-" +:+ sf_id file) in
                    let localPath := path_join E [dir; name] in
                    if writeFileSync E localPath then
                      downloadLoop dir rest
                        (result ++
                         [{| file_name := name;
                             file_mimetype :=
                               JS.orDefault (sf_mimetype file)
                                            "application/octet-stream";
                             file_size := length;
                             file_localPath := path_relative E localPath |}])
                    else downloadLoop dir rest result
                end
          end
  end.

Definition filesDir (channel ts : string) : string :=
  path_join E [DATA_DIR E; "files"; channel; safeTs ts].

Definition downloadFiles (channel ts : string) (slackFiles : list SlackFile)
  : M (list MessageFile) :=
  let dir := filesDir channel ts in
  if mkdirSync E dir then ret (downloadLoop dir slackFiles [])
  else throw "mkdirSync".

Definition handleEvent (channel userId rawText ts : string) (isMention : bool)
    (threadTs : option string) (eventFiles : option (list SlackFile))
  : M unit :=
  bot <- read botUserId ;;
  text <- (if isMention && JS.nonEmpty bot then stripMention bot rawText
           else ret rawText) ;;
  if negb (JS.nonEmpty text) && negb (hasLength eventFiles) then ret tt
  else
    timestamp <- isoTimestamp ts ;;
    userInfo <- resolveUserInfo userId ;;
    modify (record_callback (OnChatMetadata channel timestamp)) ;;;
    if isRegistered channel then
      detached (await (reactions_add E channel "eyes" ts)) ;;;
      files <- (if hasLength eventFiles
                then fs <- downloadFiles channel ts (default [] eventFiles) ;;
                     ret (Some fs)
                else ret None) ;;
      modify (record_callback (OnMessage channel
        {| msg_id := ts;
           msg_chat_jid := channel;
           msg_sender := userId;
           msg_sender_name := info_name userInfo;
           msg_sender_tz := orUndefinedStr (info_tz userInfo);
           msg_content :=
             if JS.nonEmpty text then text
             else if hasLength files then "[file attachment]" else "";
           msg_timestamp := timestamp;
           msg_is_from_me := false;
           msg_is_bot_message := false;
           msg_thread_ts := threadTs;
           msg_files := files;
           msg_is_reaction := None |}))
    else ret tt.

(** The handler of [app_mention]. *)
Definition onAppMention (channel : string) (user : option string)
    (text ts : string) (thread_ts : option string)
    (files : option (list SlackFile)) : M unit :=
  if negb (JS.truthy user) then ret tt
  else
    handleEvent channel (JS.orDefault user "") text ts true
                (Some (JS.orDefault thread_ts ts)) files.

(** What the [reaction_added] handler finds out about the message reacted
    to: nothing to process, or its content and thread. *)
Definition lookupReacted (bot channel messageTs : string)
  : option (string * option string) :=
  let fromDb :=
    match lookupMessage E with
    | Some lookup =>
        match lookup channel messageTs with
        | Some dbMsg =>
            if negb (db_is_bot_message dbMsg) then None
            else Some (Some (db_content dbMsg),
                       JS.orUndefined (db_thread_ts dbMsg))
        | None => Some (None, None)
        end
    | None => Some (None, None)
    end in
  match fromDb with
  | None => None
  | Some (reactedContent, threadTs) =>
      if negb (JS.truthy reactedContent) then
        match conversations_history E
                {| hist_channel := channel; hist_oldest := None;
                   hist_latest := Some messageTs; hist_inclusive := true;
                   hist_limit := 1 |} with
        | Resolved history =>
            match head (default [] history) with
            | Some msg =>
                if negb (bool_decide (sm_user msg = Some bot)) then None
                else Some (JS.orDefault (sm_text msg) "",
                           JS.orUndefined (sm_thread_ts msg))
            | None => None
            end
        | Rejected _ => None
        end
      else Some (JS.orDefault reactedContent "", threadTs)
  end.

(** The handler of [reaction_added]. *)
Definition onReactionAdded (event : ReactionEvent) : M unit :=
  bot <- read botUserId ;;
  if negb (JS.truthy (re_user event))
     || bool_decide (re_user event = Some bot) then ret tt
  else if negb (String.eqb (re_item_type event) "message") then ret tt
  else
    let user := JS.orDefault (re_user event) "" in
    let channel := re_item_channel event in
    let messageTs := re_item_ts event in
    if negb (isRegistered channel) then ret tt
    else
      match lookupReacted bot channel messageTs with
      | None => ret tt
      | Some (reactedContent, threadTs) =>
          let threadTs :=
            if negb (JS.truthy threadTs) then messageTs
            else JS.orDefault threadTs "" in
          userInfo <- resolveUserInfo user ;;
          timestamp <- isoTimestamp (re_event_ts event) ;;
          modify (record_callback (OnMessage channel
            {| msg_id := "reaction-" +:+ re_event_ts event;
               msg_chat_jid := channel;
               msg_sender := user;
               msg_sender_name := info_name userInfo;
               msg_sender_tz := orUndefinedStr (info_tz userInfo);
               msg_content :=
                 reactionContent (re_reaction event) reactedContent;
               msg_timestamp := timestamp;
               msg_is_from_me := false;
               msg_is_bot_message := false;
               msg_thread_ts := Some threadTs;
               msg_files := None;
               msg_is_reaction := Some true |}))
      end.

(** *** Outbound delivery *)

(** The argument of [chat.postMessage]: [thread_ts] is passed only for a
    truthy [threadTs]. *)
Definition postArgs (jid chunk : string) (threadTs : option string) : PostArgs :=
  {| post_channel := jid; post_text := chunk;
     post_thread_ts := JS.orUndefined threadTs |}.

(** [await this.app.client.chat.postMessage(args)]; gives [result.ts]. *)
Definition postMessage (args : PostArgs) : M (option string) := fun w =>
  match chat_postMessage E (postAttempts w) args with
  | Resolved ts => (Ok ts, record_post (Some args) w)
  | Rejected err => (Throw err, record_post None w)
  end.

(** [for (const chunk of chunks) { ... lastTs = result.ts }] *)
Fixpoint sendChunks (jid : string) (threadTs : option string)
    (chunks : list string) (lastTs : option string) : M (option string) :=
  match chunks with
  | [] => ret lastTs
  | chunk :: rest =>
      ts <- postMessage (postArgs jid chunk threadTs) ;;
      sendChunks jid threadTs rest ts
  end.

Definition enqueue (item : OutboundItem) : M unit :=
  modify (fun w => set_outgoingQueue (outgoingQueue w ++ [item]) w).

Definition sendMessage (jid text : string) (threadTs : option string)
  : M (option string) :=
  isConnected <- read connected ;;
  if negb isConnected then
    enqueue {| item_jid := jid; item_text := text; item_threadTs := threadTs |} ;;;
    ret None
  else
    cache <- read userInfoCache ;;
    let text := resolveMentions E cache text in
    tryCatch
      (sendChunks jid threadTs (splitMessage text) None)
      (fun _ =>
         enqueue {| item_jid := jid; item_text := text;
                    item_threadTs := threadTs |} ;;;
         ret None).

(** The [while] loop of [flushOutgoingQueue].  The body only removes
    items, so as many iterations as there are items are enough. *)
Fixpoint flushLoop (fuel : nat) : M unit := fun w =>
  match outgoingQueue w with
  | [] => (Ok tt, w)
  | item :: rest =>
      match fuel with
      | 0 => (OutOfFuel, w)
      | S fuel' =>
          (sendChunks (item_jid item) (item_threadTs item)
                      (splitMessage (item_text item)) None ;;;
           flushLoop fuel')
            (set_outgoingQueue rest w)
      end
  end.

Definition flushOutgoingQueue : M unit := fun w =>
  if flushing w || (length (outgoingQueue w) =? 0) then (Ok tt, w)
  else
    tryFinally (flushLoop (length (outgoingQueue w))) (set_flushing false)
               (set_flushing true w).

(** *** Reactions and uploads *)

Definition addReaction (channel emoji messageTs : string) : M unit :=
  tryCatch (await (reactions_add E channel emoji messageTs))
           (fun err => throw err).

Definition removeReaction (channel emoji messageTs : string) : M unit :=
  tryCatch (await (reactions_remove E channel emoji messageTs))
           (fun err => throw err).

(** The argument of [files.uploadV2]. *)
Definition uploadArgs (jid filePath : string)
    (filename title comment threadTs : option string) : UploadArgs :=
  let actualFilename := JS.orDefault filename (path_basename E filePath) in
  {| up_filePath := filePath;
     up_filename := actualFilename;
     up_title := JS.orDefault title actualFilename;
     up_initial_comment := comment;
     up_channel_id := jid;
     up_thread_ts := JS.orUndefined threadTs |}.

Definition sendFile (jid filePath : string)
    (filename title comment threadTs : option string) : M unit :=
  tryCatch
    (await (files_uploadV2 E
              (uploadArgs jid filePath filename title comment threadTs)))
    (fun err => throw err).

(** *** Catching up *)

(** [catchUpMessages] counts in [totalCaughtUp], a variable declared
    outside its [try] blocks: what it has counted stands when a step
    throws.  Its loops run on that variable together with the adapter. *)
Definition CatchUp (A : Type) : Type := Async (nat * World) A.

(** A step of the adapter inside [catchUpMessages]. *)
Definition onAdapter {A : Type} (m : M A) : CatchUp A := fun s =>
  let '(r, w') := m (snd s) in (r, (fst s, w')).

(** [totalCaughtUp++] *)
Definition countUp : CatchUp unit := modify (fun s => (S (fst s), snd s)).

(** [let text = msg.text || ''], bot mention stripped. *)
Definition catchUpText (bot : string) (text : option string) : M string :=
  let text := JS.orDefault text "" in
  if JS.nonEmpty bot then stripMention bot text else ret text.

(** [text || '[message]'] *)
Definition orPlaceholder (text : string) : string :=
  if JS.nonEmpty text then text else "[message]".

(** A turn of the loop over the replies, for a reply that is kept, up to
    the call of [onMessage]. *)
Definition recoverReply (jid parentTs : string) (reply : SlackMessage)
  : M unit :=
  let ts := JS.orDefault (sm_ts reply) "" in
  let user := JS.orDefault (sm_user reply) "" in
  replyUserInfo <- resolveUserInfo user ;;
  bot <- read botUserId ;;
  replyText <- catchUpText bot (sm_text reply) ;;
  replyTimestamp <- isoTimestamp ts ;;
  modify (record_callback (OnMessage jid
    {| msg_id := ts;
       msg_chat_jid := jid;
       msg_sender := user;
       msg_sender_name := info_name replyUserInfo;
       msg_sender_tz := orUndefinedStr (info_tz replyUserInfo);
       msg_content := orPlaceholder replyText;
       msg_timestamp := replyTimestamp;
       msg_is_from_me := false;
       msg_is_bot_message := false;
       msg_thread_ts := Some parentTs;
       msg_files := None;
       msg_is_reaction := None |})).

(** The loop over [repliesResult.messages]; [parentTs] is [msg.ts]. *)
Fixpoint catchUpReplies (jid parentTs : string) (replies : list SlackMessage)
  : CatchUp unit :=
  match replies with
  | [] => ret tt
  | reply :: rest =>
      if bool_decide (sm_ts reply = Some parentTs)
      then catchUpReplies jid parentTs rest
      else if isBotOrSubtype reply
      then catchUpReplies jid parentTs rest
      else if negb (JS.truthy (sm_ts reply)) || negb (JS.truthy (sm_user reply))
      then catchUpReplies jid parentTs rest
      else
        onAdapter (recoverReply jid parentTs reply) ;;;
        countUp ;;;
        catchUpReplies jid parentTs rest
  end.

(** The thread of a recovered channel message, as the source computes
    it. *)
Definition catchUpThreadTs (bot : string) (msg : SlackMessage) (ts : string)
  : option string :=
  let isMention :=
    JS.includes (mentionToken bot) (JS.orDefault (sm_text msg) "") in
  if JS.truthy (sm_thread_ts msg)
     && negb (bool_decide (sm_thread_ts msg = Some ts))
  then sm_thread_ts msg
  else if isMention || hasReplies msg then Some ts
  else None.

(** A turn of the loop over the recovered messages of a channel, for a
    message that is kept, up to the call of [onMessage]. *)
Definition recoverMessage (jid : string) (msg : SlackMessage) : M unit :=
  let ts := JS.orDefault (sm_ts msg) "" in
  let user := JS.orDefault (sm_user msg) "" in
  userInfo <- resolveUserInfo user ;;
  bot <- read botUserId ;;
  text <- catchUpText bot (sm_text msg) ;;
  timestamp <- isoTimestamp ts ;;
  modify (record_callback (OnChatMetadata jid timestamp)) ;;;
  modify (record_callback (OnMessage jid
    {| msg_id := ts;
       msg_chat_jid := jid;
       msg_sender := user;
       msg_sender_name := info_name userInfo;
       msg_sender_tz := orUndefinedStr (info_tz userInfo);
       msg_content := orPlaceholder text;
       msg_timestamp := timestamp;
       msg_is_from_me := false;
       msg_is_bot_message := false;
       msg_thread_ts := catchUpThreadTs bot msg ts;
       msg_files := None;
       msg_is_reaction := None |})).

(** One turn of the loop over the recovered messages of a channel. *)
Definition catchUpMessage (jid oldest : string) (msg : SlackMessage)
  : CatchUp unit :=
  if isBotOrSubtype msg then ret tt
  else if negb (JS.truthy (sm_ts msg)) || negb (JS.truthy (sm_user msg))
  then ret tt
  else
    let ts := JS.orDefault (sm_ts msg) "" in
    onAdapter (recoverMessage jid msg) ;;;
    countUp ;;;
    if hasReplies msg then
      tryCatch
        (repliesResult <- await (conversations_replies E
                            {| rep_channel := jid; rep_ts := ts;
                               rep_oldest := oldest; rep_limit := 200;
                               rep_inclusive := false |}) ;;
         match repliesResult with
         | Some replies => catchUpReplies jid ts replies
         | None => ret tt
         end)
        (fun _ => ret tt)
    else ret tt.

Fixpoint catchUpLoop (jid oldest : string) (msgs : list SlackMessage)
  : CatchUp unit :=
  match msgs with
  | [] => ret tt
  | msg :: rest =>
      catchUpMessage jid oldest msg ;;;
      catchUpLoop jid oldest rest
  end.

(** The body of the loop over the channels. *)
Definition catchUpChannel (jid : string) (latestTs : option string)
  : CatchUp unit :=
  tryCatch
    (let oldest := JS.orDefault latestTs (twelveHoursAgo E) in
     result <- await (conversations_history E
                 {| hist_channel := jid; hist_oldest := Some oldest;
                    hist_latest := None; hist_inclusive := false;
                    hist_limit := 200 |}) ;;
     match result with
     | None | Some [] => ret tt
     | Some messages => catchUpLoop jid oldest (rev messages)
     end)
    (fun _ => ret tt).

Fixpoint catchUpChannels (channels : list (string * option string))
  : CatchUp unit :=
  match channels with
  | [] => ret tt
  | (jid, latestTs) :: rest =>
      catchUpChannel jid latestTs ;;;
      catchUpChannels rest
  end.

(** [let totalCaughtUp = 0; ...; return totalCaughtUp] *)
Definition catchUpMessages (channels : list (string * option string)) : M nat :=
  fun w =>
    let '(r, (totalCaughtUp, w')) := catchUpChannels channels (0, w) in
    match r with
    | Ok _ => (Ok totalCaughtUp, w')
    | Throw err => (Throw err, w')
    | OutOfFuel => (OutOfFuel, w')
    end.

(** *** Channel metadata *)

Definition updateChatName (id name : string) : M unit :=
  modify (fun w => set_chatNames (chatNames w ++ [(id, name)]) w).

Fixpoint syncChannels (channels : list SlackConversation) : M unit :=
  match channels with
  | [] => ret tt
  | ch :: rest =>
      (if JS.truthy (sc_id ch) && JS.truthy (sc_name ch) then
         updateChatName (JS.orDefault (sc_id ch) "") (JS.orDefault (sc_name ch) "")
       else if JS.truthy (sc_id ch) && sc_is_im ch then
         if JS.truthy (sc_user ch) then
           name <- resolveDisplayName (JS.orDefault (sc_user ch) "") ;;
           updateChatName (JS.orDefault (sc_id ch) "") ("DM: " +:+ name)
         else ret tt
       else ret tt) ;;;
      syncChannels rest
  end.

(** The [do ... while (cursor)] loop: one page per iteration, for as long
    as the platform hands out a next cursor. *)
Fixpoint syncPages (fuel : nat) (cursor : option string) : M unit :=
  match fuel with
  | 0 => outOfFuel
  | S fuel' =>
      result <- await (conversations_list E cursor) ;;
      syncChannels (page_channels result) ;;;
      let cursor := JS.orUndefined (page_next_cursor result) in
      if JS.truthy cursor then syncPages fuel' cursor else ret tt
  end.

Definition syncChannelMetadata (fuel : nat) (force : bool) : M unit :=
  recent <- read syncedRecently ;;
  if negb force && recent then ret tt
  else
    tryCatch
      (syncPages fuel None ;;; modify (set_syncedRecently true))
      (fun _ => ret tt).

(** *** Connection *)

Definition connect (fuel : nat) : M unit :=
  let botToken := SLACK_BOT_TOKEN E in
  let appToken := SLACK_APP_TOKEN E in
  if negb (JS.truthy botToken) || negb (JS.truthy appToken) then
    throw "Missing SLACK_BOT_TOKEN or SLACK_APP_TOKEN. Add them to .env and re-run."
  else
    modify (set_botToken (JS.orDefault botToken "")) ;;;
    await (app_start E) ;;;
    authResult <- await (auth_test E) ;;
    modify (set_botUserId (JS.orDefault authResult "")) ;;;
    modify (set_connected true) ;;;
    detached (syncChannelMetadata fuel false) ;;;
    modify (set_channelSyncTimerStarted true) ;;;
    detached flushOutgoingQueue.

Definition disconnect : M unit := modify (set_connected false).

End Adapter.

(** ** Vocabulary of the properties *)

(** The sends that deliver [chunks] to [jid]. *)
Definition chunkPosts (jid : string) (threadTs : option string)
    (chunks : list string) : list PostArgs :=
  map (fun chunk => postArgs jid chunk threadTs) chunks.

(** The sends that deliver a queued item: its text is split when it is
    sent. *)
Definition itemPosts (item : OutboundItem) : list PostArgs :=
  chunkPosts (item_jid item) (item_threadTs item)
             (splitMessage (item_text item)).

Definition resolves {A : Type} (r : Api A) : Prop := exists a, r = Resolved a.

(** The messages handed to [opts.onMessage], in order. *)
Definition delivered (w : World) : list NewMessage :=
  omap (fun c => match c with OnMessage _ m => Some m | _ => None end)
       (callbacks w).

(** The conversations announced through [opts.onChatMetadata], in order. *)
Definition seen (w : World) : list string :=
  omap (fun c => match c with OnChatMetadata jid _ => Some jid | _ => None end)
       (callbacks w).

(** The stored copy of a message, when the adapter has a lookup and the
    lookup knows the message. *)
Definition storedMessage (E : Env) (channel ts : string) : option DbMessage :=
  match lookupMessage E with
  | Some lookup => lookup channel ts
  | None => None
  end.

(** The message the platform's history gives for a timestamp. *)
Definition platformMessage (E : Env) (channel ts : string)
  : option SlackMessage :=
  match conversations_history E
          {| hist_channel := channel; hist_oldest := None;
             hist_latest := Some ts; hist_inclusive := true;
             hist_limit := 1 |} with
  | Resolved (Some (msg :: _)) => Some msg
  | _ => None
  end.

(** The message at [ts] is the bot's when its stored copy says so or,
    without a stored copy, when the platform's history holds the message
    of that timestamp and names the bot as its author. *)
Definition botAuthored (E : Env) (bot channel ts : string) : bool :=
  match storedMessage E channel ts with
  | Some dbMsg => db_is_bot_message dbMsg
  | None =>
      match platformMessage E channel ts with
      | Some msg =>
          bool_decide (sm_ts msg = Some ts)
          && bool_decide (sm_user msg = Some bot)
      | None => false
      end
  end.


(** What identifies a delivery: the message id and its thread. *)
Definition keyOf (m : NewMessage) : string * option string :=
  (msg_id m, msg_thread_ts m).

(** A message of the history that catch-up keeps: not a bot's, no subtype
    but [file_share], with a timestamp and a user. *)
Definition recoverable (msg : SlackMessage) : bool :=
  negb (isBotOrSubtype msg)
  && JS.truthy (sm_ts msg) && JS.truthy (sm_user msg).

(** [msg.text] names the bot. *)
Definition mentionsBot (bot : string) (msg : SlackMessage) : bool :=
  JS.includes (mentionToken bot) (JS.orDefault (sm_text msg) "").

(** The delivery of a recovered channel message, by the thread rule. *)
Definition recoveredKey (bot : string) (msg : SlackMessage)
  : string * option string :=
  let ts := JS.orDefault (sm_ts msg) "" in
  (ts, threadKeyRule (sm_thread_ts msg) ts (mentionsBot bot msg)
                     (hasReplies msg)).

(** The deliveries made for the thread below a recovered message: the
    recoverable replies the platform returns, the parent left out, all in
    the parent's thread; none when the message has no replies or the fetch
    fails. *)
Definition replyKeys (E : Env) (jid oldest : string) (msg : SlackMessage)
  : list (string * option string) :=
  let ts := JS.orDefault (sm_ts msg) "" in
  if hasReplies msg then
    match conversations_replies E
            {| rep_channel := jid; rep_ts := ts; rep_oldest := oldest;
               rep_limit := 200; rep_inclusive := false |} with
    | Resolved (Some replies) =>
        map (fun reply => (JS.orDefault (sm_ts reply) "", Some ts))
            (List.filter
               (fun reply =>
                  negb (bool_decide (sm_ts reply = Some ts))
                  && recoverable reply)
               replies)
    | _ => []
    end
  else [].

(** The timestamp of a message of the platform is a date. *)
Definition timed (E : Env) (msg : SlackMessage) : bool :=
  match timestampOf E (JS.orDefault (sm_ts msg) "") with
  | Some _ => true
  | None => false
  end.

(** A message that is not kept, or one whose timestamp is a date. *)
Definition timedIfKept (E : Env) (msg : SlackMessage) : bool :=
  negb (recoverable msg) || timed E msg.

(** The replies the platform returns for the thread below [msg], when it
    is asked for them, have timestamps that are dates where they are
    kept. *)
Definition repliesTimed (E : Env) (jid oldest : string) (msg : SlackMessage)
  : bool :=
  negb (hasReplies msg)
  || match conversations_replies E
             {| rep_channel := jid; rep_ts := JS.orDefault (sm_ts msg) "";
                rep_oldest := oldest; rep_limit := 200;
                rep_inclusive := false |} with
     | Resolved (Some replies) => forallb (timedIfKept E) replies
     | _ => true
     end.

(** What every step of catch-up keeps: the bot's id, and the count in
    step with the deliveries. *)
Definition inStep (s s' : nat * World) : Prop :=
  botUserId (snd s') = botUserId (snd s)
  /\ length (delivered (snd s')) + fst s
     = length (delivered (snd s)) + fst s'.

(** All the deliveries made for one message of the history. *)
Definition recoveredKeys (E : Env) (bot jid oldest : string)
    (msg : SlackMessage) : list (string * option string) :=
  if recoverable msg
  then recoveredKey bot msg :: replyKeys E jid oldest msg
  else [].

(** ** Environments and states used as examples *)

Definition exampleEnv
    (groups : gmap string RegisteredGroup)
    (lookup : option (string -> string -> option DbMessage))
    (post : nat -> PostArgs -> Api (option string))
    (history : HistoryArgs -> Api (option (list SlackMessage)))
    (replies : RepliesArgs -> Api (option (list SlackMessage)))
    (reactions : string -> string -> string -> Api unit)
    (fetchUrl : string -> FetchResult) : Env :=
  {| registeredGroups := groups;
     lookupMessage := lookup;
     SLACK_BOT_TOKEN := Some "xoxb-test";
     SLACK_APP_TOKEN := Some "xapp-test";
     DATA_DIR := "data";
     app_start := Resolved tt;
     auth_test := Resolved (Some "UBOT");
     chat_postMessage := post;
     users_info := fun _ => Resolved None;
     conversations_history := history;
     conversations_replies := replies;
     conversations_list := fun _ =>
       Resolved {| page_channels := []; page_next_cursor := None |};
     reactions_add := reactions;
     reactions_remove := reactions;
     files_uploadV2 := fun _ => Resolved tt;
     fetch := fetchUrl;
     mkdirSync := fun _ => true;
     writeFileSync := fun _ => true;
     path_join := String.concat "/";
     path_relative := fun p => p;
     path_basename := fun p => p;
     toISOString := fun ts => Some ts;
     regExpReplace := fun _ _ => None;
     twelveHoursAgo := "0";
     resolveMentions := fun _ text => text |}.

Definition oneGroup : gmap string RegisteredGroup :=
  {[ "C1" := {| group_name := "main"; group_folder := "main" |} ]}.

(** A platform on which everything succeeds and nothing is stored. *)
Definition quietEnv (groups : gmap string RegisteredGroup) : Env :=
  exampleEnv groups None
    (fun _ _ => Resolved (Some "1.0"))
    (fun _ => Resolved None) (fun _ => Resolved None)
    (fun _ _ _ => Resolved tt)
    (fun _ => FetchRejected "offline").

(** A platform that rejects the first send and accepts the later ones. *)
Definition firstSendFails : Env :=
  exampleEnv oneGroup None
    (fun n _ => if n =? 0 then Rejected "ratelimited" else Resolved (Some "1.0"))
    (fun _ => Resolved None) (fun _ => Resolved None)
    (fun _ _ _ => Resolved tt)
    (fun _ => FetchRejected "offline").

(** A platform that rejects reactions. *)
Definition reactionsFail : Env :=
  exampleEnv oneGroup None
    (fun _ _ => Resolved (Some "1.0"))
    (fun _ => Resolved None) (fun _ => Resolved None)
    (fun _ _ _ => Rejected "already_reacted")
    (fun _ => FetchRejected "offline").

(** A connected adapter, known to the platform as [UBOT]. *)
Definition online : World :=
  set_connected true (set_botUserId "UBOT" initial).

Definition itemA : OutboundItem :=
  {| item_jid := "C1"; item_text := "first"; item_threadTs := None |}.

Definition itemB : OutboundItem :=
  {| item_jid := "C2"; item_text := "second"; item_threadTs := Some "7.1" |}.

(** A store that knows a long bot message at [50.1] and a user's message at
    [60.1], both in [C1]. *)
Definition exampleStore (channel ts : string) : option DbMessage :=
  if String.eqb channel "C1" && String.eqb ts "50.1" then
    Some {| db_content := JS.repeat "x" 250; db_thread_ts := None;
            db_is_bot_message := true |}
  else if String.eqb channel "C1" && String.eqb ts "60.1" then
    Some {| db_content := "lunch?"; db_thread_ts := None;
            db_is_bot_message := false |}
  else None.

Definition storeEnv : Env :=
  exampleEnv oneGroup (Some exampleStore)
    (fun _ _ => Resolved (Some "1.0"))
    (fun _ => Resolved None) (fun _ => Resolved None)
    (fun _ _ _ => Resolved tt)
    (fun _ => FetchRejected "offline").

Definition thumbsUp (channel ts : string) : ReactionEvent :=
  {| re_user := Some "U1"; re_item_type := "message";
     re_item_channel := channel; re_item_ts := ts;
     re_reaction := "+1"; re_event_ts := "70.5" |}.

(** A thread in [C1]: a message of the bot at [40.0] and a user's reply
    to it at [45.5]. *)
Definition botParent : SlackMessage :=
  {| sm_ts := Some "40.0"; sm_user := Some "UBOT";
     sm_text := Some "Deploy finished"; sm_bot_id := Some "B1";
     sm_subtype := None; sm_thread_ts := Some "40.0";
     sm_reply_count := Some 1 |}.

Definition userReply : SlackMessage :=
  {| sm_ts := Some "45.5"; sm_user := Some "U2"; sm_text := Some "thanks";
     sm_bot_id := None; sm_subtype := None; sm_thread_ts := Some "40.0";
     sm_reply_count := None |}.

(** The platform with that thread and a store that does not know it.  A
    reply is not part of the channel's history: up to [45.5] the newest
    message of the history is the bot's. *)
Definition threadEnv : Env :=
  exampleEnv oneGroup (Some exampleStore)
    (fun _ _ => Resolved (Some "1.0"))
    (fun args =>
       if String.eqb (hist_channel args) "C1"
       then Resolved (Some [botParent])
       else Resolved None)
    (fun args =>
       if String.eqb (rep_channel args) "C1"
          && String.eqb (rep_ts args) "40.0"
       then Resolved (Some [botParent; userReply])
       else Resolved None)
    (fun _ _ _ => Resolved tt)
    (fun _ => FetchRejected "offline").

(** The thread of [40.0] as the platform lists it. *)
Definition threadOf40 : RepliesArgs :=
  {| rep_channel := "C1"; rep_ts := "40.0"; rep_oldest := "0";
     rep_limit := 200; rep_inclusive := true |}.

(** Four attachment references: no URL, declared too large, downloadable,
    and one whose download fails. *)
Definition exampleFiles : list SlackFile :=
  [ {| sf_id := "F1"; sf_name := Some "a.txt";
       sf_url_private_download := None; sf_url_private := None;
       sf_size := Some 10%N; sf_mimetype := Some "text/plain" |};
    {| sf_id := "F2"; sf_name := Some "b.bin";
       sf_url_private_download := Some "https://files/b"; sf_url_private := None;
       sf_size := Some 20971521%N; sf_mimetype := None |};
    {| sf_id := "F3"; sf_name := Some "c.png";
       sf_url_private_download := Some "https://files/c"; sf_url_private := None;
       sf_size := Some 2048%N; sf_mimetype := Some "image/png" |};
    {| sf_id := "F4"; sf_name := Some "d.pdf";
       sf_url_private_download := None;
       sf_url_private := Some "https://files/d";
       sf_size := None; sf_mimetype := Some "application/pdf" |} ].

(** A platform on which only [https://files/c] downloads. *)
Definition filesEnv : Env :=
  exampleEnv oneGroup None
    (fun _ _ => Resolved (Some "1.0"))
    (fun _ => Resolved None) (fun _ => Resolved None)
    (fun _ _ _ => Resolved tt)
    (fun url =>
       if String.eqb url "https://files/c"
       then FetchResponse true 200 (Resolved 2000%N)
       else FetchRejected "ECONNRESET").


(** An environment with other credentials and another outcome of
    [app.start()]. *)
Definition withStartup (bot app : option string) (start : Api unit) (E : Env)
  : Env :=
  {| registeredGroups := registeredGroups E;
     lookupMessage := lookupMessage E;
     SLACK_BOT_TOKEN := bot;
     SLACK_APP_TOKEN := app;
     DATA_DIR := DATA_DIR E;
     app_start := start;
     auth_test := auth_test E;
     chat_postMessage := chat_postMessage E;
     users_info := users_info E;
     conversations_history := conversations_history E;
     conversations_replies := conversations_replies E;
     conversations_list := conversations_list E;
     reactions_add := reactions_add E;
     reactions_remove := reactions_remove E;
     files_uploadV2 := files_uploadV2 E;
     fetch := fetch E;
     mkdirSync := mkdirSync E;
     writeFileSync := writeFileSync E;
     path_join := path_join E;
     path_relative := path_relative E;
     path_basename := path_basename E;
     toISOString := toISOString E;
     regExpReplace := regExpReplace E;
     twelveHoursAgo := twelveHoursAgo E;
     resolveMentions := resolveMentions E |}.

Definition plainMessage (ts user text : string) : SlackMessage :=
  {| sm_ts := Some ts; sm_user := Some user; sm_text := Some text;
     sm_bot_id := None; sm_subtype := None; sm_thread_ts := None;
     sm_reply_count := None |}.

(** A thread parent in [C1] with one reply, and two later messages, the
    last one a mention of the bot. *)
Definition parent1 : SlackMessage :=
  {| sm_ts := Some "1001.0"; sm_user := Some "U1";
     sm_text := Some "deploy done?";
     sm_bot_id := None; sm_subtype := None; sm_thread_ts := Some "1001.0";
     sm_reply_count := Some 1 |}.

Definition reply1 : SlackMessage :=
  {| sm_ts := Some "1001.5"; sm_user := Some "U2"; sm_text := Some "yes";
     sm_bot_id := None; sm_subtype := None; sm_thread_ts := Some "1001.0";
     sm_reply_count := None |}.

Definition plain2 : SlackMessage := plainMessage "1002.0" "U2" "lunch?".

Definition mention3 : SlackMessage :=
  plainMessage "1003.0" "U1" "<@UBOT> status".

(** A reply written after [plain2] in the thread of a parent older than
    [plain2]. *)
Definition lateReply : SlackMessage :=
  {| sm_ts := Some "1003.0"; sm_user := Some "U2"; sm_text := Some "done";
     sm_bot_id := None; sm_subtype := None; sm_thread_ts := Some "1001.0";
     sm_reply_count := None |}.

(** The history after [1000.0].  In [C1]: the parent, [plain2] and
    [mention3] in the channel, [reply1] in the parent's thread.  In [C2]:
    three messages without replies.  In [C3]: the parent and [plain2] in
    the channel, [lateReply] in the parent's thread. *)
Definition historyEnv : Env :=
  exampleEnv oneGroup None
    (fun _ _ => Resolved (Some "1.0"))
    (fun args =>
       if String.eqb (hist_channel args) "C1"
       then Resolved (Some [mention3; plain2; parent1])
       else if String.eqb (hist_channel args) "C2"
       then Resolved (Some [mention3; plain2; plainMessage "1001.0" "U1" "hi"])
       else if String.eqb (hist_channel args) "C3"
       then Resolved (Some [plain2; parent1])
       else Resolved None)
    (fun args =>
       if String.eqb (rep_channel args) "C1"
          && String.eqb (rep_ts args) "1001.0"
       then Resolved (Some [parent1; reply1])
       else if String.eqb (rep_channel args) "C3"
               && String.eqb (rep_ts args) "1001.0"
       then Resolved (Some [parent1; lateReply])
       else Resolved None)
    (fun _ _ _ => Resolved tt)
    (fun _ => FetchRejected "offline").

Definition sinceT0 (jid : string) : HistoryArgs :=
  {| hist_channel := jid; hist_oldest := Some "1000.0"; hist_latest := None;
     hist_inclusive := false; hist_limit := 200 |}.


(** * The rest of the router and of the adapter *)

(** ** [escapeXml], [routeOutbound] and [findChannel] (router.ts) *)

Definition dquote : ascii := ascii_of_nat 34.

(** [s.replace(/c/g, by)] for a single character [c]. *)
Fixpoint replaceChar (c : ascii) (by_ : string) (s : string) : string :=
  match s with
  | "" => ""
  | String a t =>
      if Ascii.eqb a c then by_ +:+ replaceChar c by_ t
      else String a (replaceChar c by_ t)
  end.

Definition escapeXml (s : string) : string :=
  if negb (JS.nonEmpty s) then ""
  else
    replaceChar dquote "&quot;"
      (replaceChar ">" "&gt;"
         (replaceChar "<" "&lt;"
            (replaceChar "&" "&amp;" s))).

(** What one character becomes when a text is escaped in one pass. *)
Definition escapeChar (c : ascii) : string :=
  if Ascii.eqb c "&" then "&amp;"
  else if Ascii.eqb c "<" then "&lt;"
  else if Ascii.eqb c ">" then "&gt;"
  else if Ascii.eqb c dquote then "&quot;"
  else String c "".

Fixpoint escapeEach (s : string) : string :=
  match s with
  | "" => ""
  | String c t => escapeChar c +:+ escapeEach t
  end.

(** [/^[CDG][A-Z0-9]+$/.test(jid)] (slack.ts, [ownsJid]) *)
Definition isUpperOrDigit (c : ascii) : bool :=
  let n := nat_of_ascii c in
  ((65 <=? n) && (n <=? 90)) || ((48 <=? n) && (n <=? 57)).

Fixpoint allUpperOrDigit (s : string) : bool :=
  match s with
  | "" => true
  | String c t => isUpperOrDigit c && allUpperOrDigit t
  end.

Definition ownsJid (jid : string) : bool :=
  match jid with
  | String c rest =>
      (Ascii.eqb c "C" || Ascii.eqb c "D" || Ascii.eqb c "G")
      && JS.nonEmpty rest && allUpperOrDigit rest
  | "" => false
  end.

(** The part of the [Channel] interface the router uses. *)
Record Channel := {
  ch_name : string;
  ch_ownsJid : string -> bool;
  ch_isConnected : World -> bool;
  ch_sendMessage : string -> string -> M (option string)
}.

(** The adapter as a [Channel]. *)
Definition slackChannel (E : Env) : Channel :=
  {| ch_name := "slack";
     ch_ownsJid := ownsJid;
     ch_isConnected := connected;
     ch_sendMessage := fun jid text => sendMessage E jid text None |}.

Definition routeOutbound (channels : list Channel) (jid text : string)
  : M (option string) := fun w =>
  match List.find (fun c => ch_ownsJid c jid && ch_isConnected c w) channels with
  | Some channel => ch_sendMessage channel jid text w
  | None => (Throw ("No channel for JID: " +:+ jid), w)
  end.

Definition findChannel (channels : list Channel) (jid : string)
  : option Channel :=
  List.find (fun c => ch_ownsJid c jid) channels.

(** ** The [message] event: new direct messages, edits and deletions *)

(** [event.message] of a [message_changed] event. *)
Record EditedMessage := {
  em_message : SlackMessage;
  em_files : option (list SlackFile)
}.

(** [event.previous_message] of a [message_deleted] event. *)
Record PreviousMessage := {
  pm_ts : option string;
  pm_bot_id : option string
}.

(** The [message] event; [me_has_bot_id] is ['bot_id' in event]. *)
Record MessageEvent := {
  me_subtype : option string;
  me_has_bot_id : bool;
  me_channel : string;
  me_user : option string;
  me_text : option string;
  me_ts : option string;
  me_files : option (list SlackFile);
  me_message : option EditedMessage;
  me_deleted_ts : option string;
  me_previous_message : option PreviousMessage
}.

Section Events.
Variable E : Env.

(** [opts.onMessageDelete] is optional: [onMessageDelete] says whether
    the adapter was given one. *)
Variable onMessageDelete : bool.

Definition handleMessageEdit (event : MessageEvent) : M unit :=
  match me_message event with
  | None => ret tt
  | Some edited =>
      let message := em_message edited in
      if JS.truthy (sm_bot_id message) then ret tt
      else
        let channel := me_channel event in
        if negb (isRegistered E channel) then ret tt
        else
          let threadTs := sm_thread_ts message in
          if negb (JS.truthy (sm_user message))
             || negb (JS.truthy (sm_ts message)) then ret tt
          else
            let userId := JS.orDefault (sm_user message) "" in
            let ts := JS.orDefault (sm_ts message) "" in
            bot <- read botUserId ;;
            let text := JS.orDefault (sm_text message) "" in
            text <- (if JS.nonEmpty bot then stripMention E bot text
                     else ret text) ;;
            timestamp <- isoTimestamp E ts ;;
            userInfo <- resolveUserInfo E userId ;;
            files <- (if hasLength (em_files edited)
                      then fs <- downloadFiles E channel ts
                                   (default [] (em_files edited)) ;;
                           ret (Some fs)
                      else ret None) ;;
            if negb (JS.nonEmpty text) && negb (hasLength files) then ret tt
            else
              modify (record_callback (OnMessage channel
                {| msg_id := ts;
                   msg_chat_jid := channel;
                   msg_sender := userId;
                   msg_sender_name := info_name userInfo;
                   msg_sender_tz := orUndefinedStr (info_tz userInfo);
                   msg_content :=
                     if JS.nonEmpty text then text
                     else if hasLength files then "[file attachment]" else "";
                   msg_timestamp := timestamp;
                   msg_is_from_me := false;
                   msg_is_bot_message := false;
                   msg_thread_ts := threadTs;
                   msg_files := files;
                   msg_is_reaction := None |}))
  end.

Definition handleMessageDelete (event : MessageEvent) : M unit :=
  let channel := me_channel event in
  if negb (isRegistered E channel) then ret tt
  else
    let deletedTs :=
      JS.orElse (me_deleted_ts event) (me_previous_message event ≫= pm_ts) in
    if negb (JS.truthy deletedTs) then ret tt
    else if JS.truthy (me_previous_message event ≫= pm_bot_id) then ret tt
    else if onMessageDelete then
      modify (record_callback
                (OnMessageDelete channel (JS.orDefault deletedTs "")))
    else ret tt.

(** The handler of [message]. *)
Definition onMessageEvent (event : MessageEvent) : M unit :=
  let subtype := me_subtype event in
  if bool_decide (subtype = Some "message_changed")
  then handleMessageEdit event
  else if bool_decide (subtype = Some "message_deleted")
  then handleMessageDelete event
  else if JS.truthy subtype || me_has_bot_id event then ret tt
  else if negb (JS.startsWith "D" (me_channel event)) then ret tt
  else
    let user := JS.orDefault (me_user event) "" in
    let text := JS.orDefault (me_text event) "" in
    let ts := JS.orDefault (me_ts event) "" in
    let eventFiles := me_files event in
    if negb (JS.nonEmpty user) && negb (hasLength eventFiles) then ret tt
    else handleEvent E (me_channel event) user text ts false None eventFiles.

End Events.

(** The sum of the lengths of chunks. *)
Definition totalLength (chunks : list string) : nat :=
  fold_right (fun c n => String.length c + n) 0 chunks.

(** The number of messages handed to [opts.onMessageDelete]. *)
Definition deletions (w : World) : list (string * string) :=
  omap (fun c => match c with OnMessageDelete jid ts => Some (jid, ts) | _ => None end)
       (callbacks w).

(** The four replacements in a row. *)
Definition escapeAll (s : string) : string :=
  replaceChar dquote "&quot;"
    (replaceChar ">" "&gt;"
       (replaceChar "<" "&lt;"
          (replaceChar "&" "&amp;" s))).

(** The text does not start with white space. *)
Definition headNotWhite (s : string) : bool :=
  match s with
  | "" => true
  | String c _ => negb (JS.isWhite c)
  end.

(** What the outbound path rests on is the same in two states: the
    queue, the sends made, the drain flag, the connection, the bot's id and
    the callbacks made. *)
Definition sameDelivery (w w' : World) : Prop :=
  outgoingQueue w' = outgoingQueue w
  /\ posted w' = posted w
  /\ postAttempts w' = postAttempts w
  /\ flushing w' = flushing w
  /\ connected w' = connected w
  /\ botUserId w' = botUserId w
  /\ callbacks w' = callbacks w.

(** An environment with another [conversations.list]. *)
Definition withChannelList (list : option string -> Api ListPage) (E : Env)
  : Env :=
  {| registeredGroups := registeredGroups E;
     lookupMessage := lookupMessage E;
     SLACK_BOT_TOKEN := SLACK_BOT_TOKEN E;
     SLACK_APP_TOKEN := SLACK_APP_TOKEN E;
     DATA_DIR := DATA_DIR E;
     app_start := app_start E;
     auth_test := auth_test E;
     chat_postMessage := chat_postMessage E;
     users_info := users_info E;
     conversations_history := conversations_history E;
     conversations_replies := conversations_replies E;
     conversations_list := list;
     reactions_add := reactions_add E;
     reactions_remove := reactions_remove E;
     files_uploadV2 := files_uploadV2 E;
     fetch := fetch E;
     mkdirSync := mkdirSync E;
     writeFileSync := writeFileSync E;
     path_join := path_join E;
     path_relative := path_relative E;
     path_basename := path_basename E;
     toISOString := toISOString E;
     regExpReplace := regExpReplace E;
     twelveHoursAgo := twelveHoursAgo E;
     resolveMentions := resolveMentions E |}.

(** One page with two named channels. *)
Definition twoChannels : ListPage :=
  {| page_channels :=
       [ {| sc_id := Some "C1"; sc_name := Some "general";
            sc_is_im := false; sc_user := None |};
         {| sc_id := Some "C2"; sc_name := Some "random";
            sc_is_im := false; sc_user := None |} ];
     page_next_cursor := None |}.

Definition listEnv : Env :=
  withChannelList (fun _ => Resolved twoChannels) (quietEnv oneGroup).

(** A platform whose history cannot be fetched. *)
Definition historyDown : Env :=
  exampleEnv oneGroup None
    (fun _ _ => Resolved (Some "1.0"))
    (fun _ => Rejected "timeout") (fun _ => Resolved None)
    (fun _ _ _ => Resolved tt)
    (fun _ => FetchRejected "offline").

(** A registered direct-message conversation, and a new message in it. *)
Definition dmGroup : gmap string RegisteredGroup :=
  {[ "D1" := {| group_name := "dm"; group_folder := "dm" |} ]}.

Definition dmEvent : MessageEvent :=
  {| me_subtype := None; me_has_bot_id := false; me_channel := "D1";
     me_user := Some "U1"; me_text := Some "hello"; me_ts := Some "200.1";
     me_files := None; me_message := None; me_deleted_ts := None;
     me_previous_message := None |}.

(** The same message in a channel that is not a direct message, written
    by a bot, and without a timestamp. *)
Definition channelEvent : MessageEvent :=
  {| me_subtype := None; me_has_bot_id := false; me_channel := "C1";
     me_user := Some "U1"; me_text := Some "hello"; me_ts := Some "200.1";
     me_files := None; me_message := None; me_deleted_ts := None;
     me_previous_message := None |}.

Definition botEvent : MessageEvent :=
  {| me_subtype := None; me_has_bot_id := true; me_channel := "D1";
     me_user := Some "U1"; me_text := Some "hello"; me_ts := Some "200.1";
     me_files := None; me_message := None; me_deleted_ts := None;
     me_previous_message := None |}.

Definition untimedEvent : MessageEvent :=
  {| me_subtype := None; me_has_bot_id := false; me_channel := "D1";
     me_user := Some "U1"; me_text := Some "hello"; me_ts := None;
     me_files := None; me_message := None; me_deleted_ts := None;
     me_previous_message := None |}.

(** A direct message that shares files, under the subtype the platform
    gives it, and a direct message without user and without files. *)
Definition fileShareEvent : MessageEvent :=
  {| me_subtype := Some "file_share"; me_has_bot_id := false;
     me_channel := "D1"; me_user := Some "U1"; me_text := Some "see attached";
     me_ts := Some "200.1"; me_files := Some exampleFiles;
     me_message := None; me_deleted_ts := None;
     me_previous_message := None |}.

Definition anonymousEvent : MessageEvent :=
  {| me_subtype := None; me_has_bot_id := false; me_channel := "D1";
     me_user := None; me_text := Some "hello"; me_ts := Some "200.1";
     me_files := None; me_message := None; me_deleted_ts := None;
     me_previous_message := None |}.

(** The one attachment of [exampleFiles] that downloads. *)
Definition downloadedExample : list MessageFile :=
  [ {| file_name := "c.png"; file_mimetype := "image/png";
       file_size := 2000%N;
       file_localPath := "data/files/C1/100-1/c.png" |} ].

(** * Facts about JavaScript strings *)

Module JSFacts.
Import JS.

Lemma length_app (u v : string) :
  String.length (u +:+ v) = String.length u + String.length v.
Proof. induction u as [|c u IH]; simpl; [reflexivity | now rewrite IH]. Qed.


Lemma app_assoc (u v w : string) : (u +:+ v) +:+ w = u +:+ v +:+ w.
Proof. induction u as [|c u IH]; simpl; [reflexivity | now rewrite IH]. Qed.

Lemma length_take (n : nat) (s : string) :
  String.length (take n s) = Nat.min n (String.length s).
Proof.
  revert s; induction n as [|n IH]; intros [|c s]; simpl; try reflexivity.
  now rewrite IH.
Qed.

Lemma length_drop (n : nat) (s : string) :
  String.length (drop n s) = String.length s - n.
Proof.
  revert s; induction n as [|n IH]; intros [|c s]; simpl; try reflexivity.
  apply IH.
Qed.

Lemma take_drop (n : nat) (s : string) : take n s +:+ drop n s = s.
Proof.
  revert s; induction n as [|n IH]; intros [|c s]; simpl; try reflexivity.
  now rewrite IH.
Qed.

Lemma drop_app_length (p s : string) : drop (String.length p) (p +:+ s) = s.
Proof. induction p as [|c p IH]; simpl; [now destruct s | exact IH]. Qed.

Lemma startsWith_app_self (p s : string) : startsWith p (p +:+ s) = true.
Proof.
  induction p as [|c p IH]; simpl; [reflexivity |].
  now rewrite Ascii.eqb_refl, IH.
Qed.

Lemma startsWith_app (p u v : string) :
  startsWith p u = true -> startsWith p (u +:+ v) = true.
Proof.
  revert u; induction p as [|a p IH]; intros [|b u]; simpl; try easy.
  intros [-> H]%andb_true_iff. now rewrite (IH _ H).
Qed.

Lemma includes_app_l (p u v : string) :
  includes p u = true -> includes p (u +:+ v) = true.
Proof.
  induction u as [|c u IH]; simpl.
  - rewrite orb_false_r. intros H.
    destruct p; [now destruct v | discriminate].
  - intros [H | H]%orb_true_iff.
    + change (String c (u +:+ v)) with (String c u +:+ v).
      now rewrite (startsWith_app _ _ _ H).
    + rewrite (IH H). apply orb_true_r.
Qed.

Lemma includes_tail (p : string) (c : ascii) (t : string) :
  includes p (String c t) = false -> includes p t = false.
Proof. simpl. now intros [_ H]%orb_false_iff. Qed.

Lemma includes_drop (p : string) (n : nat) (s : string) :
  includes p s = false -> includes p (drop n s) = false.
Proof.
  revert s; induction n as [|n IH]; intros [|c s] H; simpl; try exact H.
  apply IH, (includes_tail _ _ _ H).
Qed.

Lemma beforeFirst_is_prefix (p s : string) :
  exists v, s = beforeFirst p s +:+ v.
Proof.
  induction s as [|c s [v IH]].
  - exists "". simpl. now destruct (startsWith p "").
  - simpl. destruct (startsWith p (String c s)).
    + now exists (String c s).
    + exists v. simpl. now rewrite <- IH.
Qed.

Lemma includes_beforeFirst (p s : string) :
  nonEmpty p = true -> includes p (beforeFirst p s) = false.
Proof.
  intros Hp. induction s as [|c s IH].
  - simpl. destruct p; [discriminate | reflexivity].
  - simpl. destruct (startsWith p (String c s)) eqn:E.
    + destruct p; [discriminate | reflexivity].
    + change (includes p (String c (beforeFirst p s)))
        with (startsWith p (String c (beforeFirst p s))
              || includes p (beforeFirst p s)).
      rewrite IH, orb_false_r.
      destruct (startsWith p (String c (beforeFirst p s))) eqn:E'; [|reflexivity].
      destruct (beforeFirst_is_prefix p s) as [v Hv].
      apply (startsWith_app _ _ v) in E'. simpl in E'.
      rewrite <- Hv in E'. simpl in E. congruence.
Qed.

Lemma beforeFirst_absent (p s : string) :
  includes p s = false -> beforeFirst p s = s.
Proof.
  induction s as [|c s IH]; simpl.
  - now destruct (startsWith p "").
  - intros [-> H]%orb_false_iff. now rewrite (IH H).
Qed.



Lemma trimStart_includes (p s : string) :
  includes p s = false -> includes p (trimStart s) = false.
Proof.
  induction s as [|c s IH]; [easy |].
  intros H. simpl. destruct (isWhite c); [|exact H].
  apply IH, (includes_tail _ _ _ H).
Qed.

Lemma trimEnd_is_prefix (s : string) : exists v, s = trimEnd s +:+ v.
Proof.
  induction s as [|c s [v IH]]; [now exists "" |].
  simpl. destruct (isWhite c && negb (nonEmpty (trimEnd s))).
  - now exists (String c s).
  - exists v. simpl. now rewrite <- IH.
Qed.

Lemma trimEnd_includes (p s : string) :
  includes p s = false -> includes p (trimEnd s) = false.
Proof.
  intros H. destruct (includes p (trimEnd s)) eqn:E; [|reflexivity].
  destruct (trimEnd_is_prefix s) as [v Hv].
  apply (includes_app_l _ _ v) in E. rewrite <- Hv in E. congruence.
Qed.

Lemma trim_includes (p s : string) :
  includes p s = false -> includes p (trim s) = false.
Proof. intros H. apply trimEnd_includes, trimStart_includes, H. Qed.











End JSFacts.

(** * The outbound router *)

Section Router.
Import JS JSFacts.




Lemma stripInternalTags_no_openTag (s : string) :
  includes openTag (stripInternalTags s) = false.
Proof.
  unfold stripInternalTags, removeUnclosedBlock.
  apply trim_includes, includes_beforeFirst. reflexivity.
Qed.







End Router.

(** * Splitting long messages *)

Section SplitMessage.
Import JS JSFacts.

Lemma splitMessageAt_short (limit : nat) (text : string) :
  String.length text <= limit -> splitMessageAt limit text = [text].
Proof.
  intros H. unfold splitMessageAt.
  now rewrite (proj2 (Nat.leb_le _ _) H).
Qed.

Lemma length_repeat (c : ascii) (n : nat) : String.length (repeat c n) = n.
Proof. induction n as [|n IH]; simpl; [reflexivity | now rewrite IH]. Qed.

Lemma lastIndexFrom_bound (c : ascii) (s : string) (i : nat) (found : Z) :
  (found < Z.of_nat i)%Z ->
  (lastIndexFrom c i s found < Z.of_nat (i + String.length s))%Z.
Proof.
  revert i found; induction s as [|a t IH]; intros i found H; simpl.
  - lia.
  - replace (i + S (String.length t)) with (S i + String.length t) by lia.
    apply IH. destruct (Ascii.eqb a c); lia.
Qed.

Lemma lastIndexOf_le (c : ascii) (from : nat) (s : string) :
  (lastIndexOf c from s <= Z.of_nat from)%Z.
Proof.
  unfold lastIndexOf.
  pose proof (lastIndexFrom_bound c (take (S from) s) 0 (-1) ltac:(lia)) as H.
  rewrite length_take in H. lia.
Qed.

Lemma lastIndexFrom_absent (c : ascii) (s : string) (i : nat) (found : Z) :
  occurs c s = false -> lastIndexFrom c i s found = found.
Proof.
  revert i found; induction s as [|a t IH]; intros i found; simpl; [easy |].
  intros [-> H]%orb_false_iff. now apply IH.
Qed.

Lemma occurs_take (c : ascii) (n : nat) (s : string) :
  occurs c s = false -> occurs c (take n s) = false.
Proof.
  revert s; induction n as [|n IH]; intros [|a t]; simpl; try easy.
  intros [-> H]%orb_false_iff. now apply IH.
Qed.

(** Every chunk pushed by the loop is within the limit, and with fuel for
    every code unit the loop stops on its own condition. *)
Lemma splitLoop_bounded (limit fuel : nat) (remaining : string)
    (chunks : list string) :
  String.length remaining <= fuel ->
  Forall (fun c => String.length c <= limit) chunks ->
  let '(chunks', remaining') := splitLoop limit fuel remaining chunks in
  Forall (fun c => String.length c <= limit) chunks'
  /\ String.length remaining' <= limit.
Proof.
  revert remaining chunks; induction fuel as [|fuel IH];
    intros remaining chunks Hlen Hall.
  - simpl. split; [exact Hall | lia].
  - simpl. destruct (limit <? String.length remaining) eqn:E.
    + apply Nat.ltb_lt in E.
      pose proof (lastIndexOf_le LF limit remaining) as Hle.
      set (idx := if (lastIndexOf LF limit remaining <=? 0)%Z
                  then limit else Z.to_nat (lastIndexOf LF limit remaining)).
      assert (Hidx : idx <= limit).
      { subst idx. destruct (Z.leb_spec (lastIndexOf LF limit remaining) 0); lia. }
      apply IH.
      * rewrite length_drop. lia.
      * apply Forall_app; split; [exact Hall |].
        constructor; [|constructor]. rewrite length_take. lia.
    + apply Nat.ltb_ge in E. split; [exact Hall | exact E].
Qed.

(** Every chunk returned for a text longer than the limit is within the
    limit. *)
Lemma splitMessageAt_bounded (limit : nat) (text : string) :
  limit < String.length text ->
  Forall (fun c => String.length c <= limit) (splitMessageAt limit text).
Proof.
  intros H. unfold splitMessageAt.
  rewrite (proj2 (Nat.leb_gt _ _) H).
  pose proof (splitLoop_bounded limit (String.length text) text []
                (Nat.le_refl _) (List.Forall_nil _)) as Hb.
  destruct (splitLoop limit (String.length text) text []) as [chunks r].
  destruct Hb as [Hc Hr]. destruct (nonEmpty r); [|exact Hc].
  apply Forall_app; split; [exact Hc | now constructor].
Qed.

(** A hard cut drops the code unit at the cut: a text without newline
    that is one code unit over the limit comes back as its first
    [limit] code units only. *)
Lemma splitMessageAt_hard_cut (limit : nat) (text : string) :
  occurs LF text = false ->
  String.length text = S limit ->
  splitMessageAt limit text = [take limit text].
Proof.
  intros Hnl Hlen. unfold splitMessageAt.
  rewrite (proj2 (Nat.leb_gt (String.length text) limit)) by lia.
  rewrite Hlen. cbn [splitLoop].
  rewrite Hlen, (proj2 (Nat.ltb_lt limit (S limit))) by lia.
  unfold lastIndexOf.
  rewrite (lastIndexFrom_absent _ _ _ _ (occurs_take _ _ _ Hnl)).
  cbn [Z.leb Z.compare app].
  assert (Hd : drop (limit + 1) text = "").
  { pose proof (length_drop (limit + 1) text) as Hl.
    destruct (drop (limit + 1) text); [reflexivity | simpl in Hl; lia]. }
  rewrite Hd. now destruct limit.
Qed.

Lemma splitLoop_grows (limit fuel : nat) (remaining : string)
    (chunks : list string) :
  length chunks <= length (fst (splitLoop limit fuel remaining chunks)).
Proof.
  revert remaining chunks; induction fuel as [|fuel IH];
    intros remaining chunks; simpl; [lia |].
  destruct (limit <? String.length remaining); [|simpl; lia].
  etransitivity; [|apply IH]. rewrite List.length_app. simpl. lia.
Qed.

(** There is always a chunk to send. *)
Lemma splitMessageAt_nonempty (limit : nat) (text : string) :
  0 < length (splitMessageAt limit text).
Proof.
  unfold splitMessageAt.
  destruct (Nat.leb_spec (String.length text) limit) as [H|H]; [simpl; lia |].
  destruct (String.length text) as [|fuel] eqn:Hlen; [lia |].
  cbn [splitLoop]. rewrite Hlen, (proj2 (Nat.ltb_lt _ _) H).
  match goal with
  | |- context [splitLoop limit fuel ?r ?c] =>
      pose proof (splitLoop_grows limit fuel r c) as Hg;
      destruct (splitLoop limit fuel r c) as [chunks rest]
  end.
  rewrite List.length_app in Hg. simpl in Hg.
  destruct (nonEmpty rest); [rewrite List.length_app; simpl |]; lia.
Qed.

(** C2: at the adapter's limit, a text of 39001 letters and no newline
    is longer than the limit, and [splitMessage] returns one chunk of
    39000 letters: the letter at the cut is dropped, and no way of
    putting the chunks back together gives the text. *)
Theorem splitMessage_hard_cut_drops_code_unit :
  let text := JS.repeat "a" (Z.to_nat 39001) in
  MAX_MESSAGE_LENGTH < String.length text
  /\ splitMessage text = [JS.repeat "a" (Z.to_nat 39000)]
  /\ forall atNewline, reassemble (splitMessage text) atNewline <> text.
Proof.
  assert (E : splitMessage (JS.repeat "a" (Z.to_nat 39001))
              = [JS.repeat "a" (Z.to_nat 39000)]).
  { apply (bool_decide_unpack _). vm_compute. exact I. }
  cbv zeta. split; [|split].
  - rewrite length_repeat. unfold MAX_MESSAGE_LENGTH. lia.
  - exact E.
  - intros flags Heq. rewrite E in Heq. cbn [reassemble] in Heq.
    apply (f_equal String.length) in Heq.
    rewrite !length_repeat in Heq. lia.
Qed.

End SplitMessage.

(** * Outbound delivery *)

Section Outbound.
Variable E : Env.

(** Chunks are sent in order until one send is rejected; the sequence
    stops there and throws, leaving the queue as it was. *)
Lemma sendChunks_rejected (jid : string) (threadTs : option string)
    (chunks : list string) :
  forall (k : nat) (err : string) (lastTs : option string) (w : World),
    k < length chunks ->
    (forall i, i < k ->
       resolves (chat_postMessage E (postAttempts w + i)
                   (postArgs jid (nth i chunks "") threadTs))) ->
    chat_postMessage E (postAttempts w + k)
      (postArgs jid (nth k chunks "") threadTs) = Rejected err ->
    exists w',
      sendChunks E jid threadTs chunks lastTs w = (Throw err, w')
      /\ outgoingQueue w' = outgoingQueue w
      /\ userInfoCache w' = userInfoCache w
      /\ posted w' = posted w ++ chunkPosts jid threadTs (take k chunks).
Proof.
  induction chunks as [|chunk rest IH]; intros k err lastTs w Hk Hok Hfail.
  - simpl in Hk. lia.
  - destruct k as [|k].
    + rewrite Nat.add_0_r in Hfail. simpl in Hfail.
      exists (record_post None w). simpl. unfold bind, postMessage.
      rewrite Hfail. simpl. now rewrite app_nil_r.
    + destruct (Hok 0 ltac:(lia)) as [ts Hts].
      rewrite Nat.add_0_r in Hts. simpl in Hts.
      destruct (IH k err ts (record_post (Some (postArgs jid chunk threadTs)) w))
        as (w' & Hrun & Hq & Hc & Hp).
      * simpl in Hk. lia.
      * intros i Hi. specialize (Hok (S i) ltac:(lia)).
        simpl. now replace (S (postAttempts w + i))
                 with (postAttempts w + S i) by lia.
      * simpl. now replace (S (postAttempts w + k))
                 with (postAttempts w + S k) by lia.
      * exists w'. simpl. unfold bind at 1, postMessage at 1.
        rewrite Hts. rewrite Hrun. simpl in Hq, Hc, Hp.
        repeat split; try assumption.
        rewrite Hp. now rewrite <- app_assoc.
Qed.

(** When every send resolves, all the chunks are posted, in order. *)
Lemma sendChunks_resolved (jid : string) (threadTs : option string)
    (chunks : list string) :
  (forall n args, resolves (chat_postMessage E n args)) ->
  forall (lastTs : option string) (w : World),
  exists ts w',
    sendChunks E jid threadTs chunks lastTs w = (Ok ts, w')
    /\ outgoingQueue w' = outgoingQueue w
    /\ flushing w' = flushing w
    /\ posted w' = posted w ++ chunkPosts jid threadTs chunks.
Proof.
  intros Hall. induction chunks as [|chunk rest IH]; intros lastTs w.
  - exists lastTs, w. simpl. now rewrite app_nil_r.
  - destruct (Hall (postAttempts w) (postArgs jid chunk threadTs)) as [ts Hts].
    destruct (IH ts (record_post (Some (postArgs jid chunk threadTs)) w))
      as (ts' & w' & Hrun & Hq & Hf & Hp).
    exists ts', w'. simpl. unfold bind at 1, postMessage at 1.
    rewrite Hts, Hrun. simpl in Hq, Hf, Hp.
    repeat split; try assumption.
    rewrite Hp. now rewrite <- app_assoc.
Qed.

(** With a platform that accepts every send, the drain loop empties the
    queue in order, splitting each item's text again. *)
Lemma flushLoop_resolved :
  (forall n args, resolves (chat_postMessage E n args)) ->
  forall (fuel : nat) (w : World),
    length (outgoingQueue w) <= fuel ->
    exists w',
      flushLoop E fuel w = (Ok tt, w')
      /\ outgoingQueue w' = []
      /\ flushing w' = flushing w
      /\ posted w' = posted w ++ flat_map itemPosts (outgoingQueue w).
Proof.
  intros Hall. induction fuel as [|fuel IH]; intros w Hlen.
  - destruct (outgoingQueue w) eqn:Hq; [|simpl in Hlen; lia].
    exists w. simpl. rewrite Hq. now rewrite app_nil_r.
  - destruct (outgoingQueue w) as [|item rest] eqn:Hq.
    + exists w. simpl. rewrite Hq. now rewrite app_nil_r.
    + destruct (sendChunks_resolved (item_jid item) (item_threadTs item)
                  (splitMessage (item_text item)) Hall None
                  (set_outgoingQueue rest w))
        as (ts & w1 & Hrun & Hq1 & Hf1 & Hp1).
      simpl in Hq1, Hf1, Hp1.
      destruct (IH w1) as (w' & Hloop & Hq' & Hf' & Hp').
      { rewrite Hq1. simpl in Hlen. lia. }
      exists w'. simpl. rewrite Hq. unfold bind. rewrite Hrun, Hloop.
      repeat split; try assumption; try congruence.
      rewrite Hp', Hp1, Hq1. unfold itemPosts at 3.
      now rewrite <- app_assoc.
Qed.

(** A drain whose first send is rejected throws, and the item it had
    taken off the queue is neither sent nor put back. *)
Lemma flushOutgoingQueue_first_send_rejected (w : World)
    (item : OutboundItem) (rest : list OutboundItem) (err : string) :
  flushing w = false ->
  outgoingQueue w = item :: rest ->
  chat_postMessage E (postAttempts w)
    (postArgs (item_jid item) (nth 0 (splitMessage (item_text item)) "")
              (item_threadTs item)) = Rejected err ->
  exists w',
    flushOutgoingQueue E w = (Throw err, w')
    /\ outgoingQueue w' = rest
    /\ posted w' = posted w
    /\ flushing w' = false.
Proof.
  intros Hf Hq Hfail. unfold flushOutgoingQueue. rewrite Hf, Hq.
  cbn [orb length Nat.eqb]. unfold tryFinally.
  cbn [flushLoop]. cbn [outgoingQueue set_flushing]. rewrite Hq.
  unfold bind.
  destruct (sendChunks_rejected (item_jid item) (item_threadTs item)
              (splitMessage (item_text item)) 0 err None
              (set_outgoingQueue rest (set_flushing true w)))
    as (w1 & Hrun & Hq1 & _ & Hp1).
  - apply splitMessageAt_nonempty.
  - intros i Hi. lia.
  - cbn [postAttempts set_outgoingQueue set_flushing].
    now rewrite Nat.add_0_r.
  - rewrite Hrun. exists (set_flushing false w1).
    cbn [take chunkPosts map] in Hp1. rewrite app_nil_r in Hp1.
    repeat split; assumption.
Qed.

(** C3: a send while disconnected appends the item to the queue and
    returns; a connected send in which some chunk is rejected returns
    without throwing and appends one item holding the whole text (after
    mention resolution), whatever chunks went out before; and the drain
    splits every queued text again when it sends it. *)
Theorem sendMessage_queues_whole_message :
  (forall w jid text threadTs,
      connected w = false ->
      sendMessage E jid text threadTs w
      = (Ok None,
         set_outgoingQueue
           (outgoingQueue w ++
            [{| item_jid := jid; item_text := text;
                item_threadTs := threadTs |}]) w))
  /\ (forall w jid text threadTs k err,
        connected w = true ->
        let text' := resolveMentions E (userInfoCache w) text in
        let chunks := splitMessage text' in
        k < length chunks ->
        (forall i, i < k ->
           resolves (chat_postMessage E (postAttempts w + i)
                       (postArgs jid (nth i chunks "") threadTs))) ->
        chat_postMessage E (postAttempts w + k)
          (postArgs jid (nth k chunks "") threadTs) = Rejected err ->
        exists w',
          sendMessage E jid text threadTs w = (Ok None, w')
          /\ outgoingQueue w'
             = outgoingQueue w ++
               [{| item_jid := jid; item_text := text';
                   item_threadTs := threadTs |}]
          /\ posted w' = posted w ++ chunkPosts jid threadTs (take k chunks))
  /\ (forall w,
        flushing w = false ->
        (forall n args, resolves (chat_postMessage E n args)) ->
        exists w',
          flushOutgoingQueue E w = (Ok tt, w')
          /\ outgoingQueue w' = []
          /\ posted w' = posted w ++ flat_map itemPosts (outgoingQueue w)).
Proof.
  split; [|split].
  - intros w jid text threadTs Hc.
    unfold sendMessage, bind, read. rewrite Hc. reflexivity.
  - intros w jid text threadTs k err Hc text' chunks Hk Hok Hfail.
    destruct (sendChunks_rejected jid threadTs chunks k err None w Hk Hok Hfail)
      as (w1 & Hrun & Hq & _ & Hp).
    exists (set_outgoingQueue
              (outgoingQueue w1 ++
               [{| item_jid := jid; item_text := text';
                   item_threadTs := threadTs |}]) w1).
    unfold sendMessage, bind, read, tryCatch. rewrite Hc. simpl.
    fold text'. fold chunks. rewrite Hrun. simpl.
    now rewrite Hq, Hp.
  - intros w Hf Hall. unfold flushOutgoingQueue. rewrite Hf. simpl.
    destruct (outgoingQueue w) as [|item rest] eqn:Hq.
    + exists w. simpl. now rewrite app_nil_r.
    + destruct (flushLoop_resolved Hall (length (item :: rest))
                  (set_flushing true w)) as (w' & Hloop & Hq' & _ & Hp').
      { simpl. now rewrite Hq. }
      exists (set_flushing false w'). unfold tryFinally.
      simpl length in *. rewrite Hloop. simpl in *.
      now rewrite Hq', Hp', Hq.
Qed.

End Outbound.

Lemma sendMessage_queues_whole_message_witness :
  connected initial = false
  /\ sendMessage (quietEnv oneGroup) "C1" "hello" (Some "7.1") initial
     = (Ok None,
        set_outgoingQueue
          (outgoingQueue initial ++
           [{| item_jid := "C1"; item_text := "hello";
               item_threadTs := Some "7.1" |}]) initial).
Proof.
  split; [reflexivity |].
  exact (proj1 (sendMessage_queues_whole_message (quietEnv oneGroup)) initial "C1" "hello"
               (Some "7.1") eq_refl).
Defined.


(** C1: the drain takes an item off the queue before it sends it and has
    no handler for a failed send.  With two items queued and a platform
    that rejects the first send, the drain throws; the first item is
    neither sent nor queued any more, the second is still queued, and the
    next drain sends the second only. *)
Theorem flushOutgoingQueue_drops_failed_item :
  let w := set_outgoingQueue [itemA; itemB] online in
  let w' := snd (flushOutgoingQueue firstSendFails w) in
  let w'' := snd (flushOutgoingQueue firstSendFails w') in
  fst (flushOutgoingQueue firstSendFails w) = Throw "ratelimited"
  /\ outgoingQueue w' = [itemB]
  /\ posted w' = []
  /\ flushing w' = false
  /\ fst (flushOutgoingQueue firstSendFails w') = Ok tt
  /\ outgoingQueue w'' = []
  /\ posted w'' = itemPosts itemB.
Proof. vm_compute. repeat split; reflexivity. Qed.

(** * Inbound events *)

Section Inbound.
Variable E : Env.

Lemma delivered_record_callback (c : Callback) (w : World) :
  delivered (record_callback c w)
  = delivered w ++ match c with OnMessage _ m => [m] | _ => [] end.
Proof.
  unfold delivered. simpl. rewrite omap_app. now destruct c.
Qed.

Lemma seen_record_callback (c : Callback) (w : World) :
  seen (record_callback c w)
  = seen w ++ match c with OnChatMetadata jid _ => [jid] | _ => [] end.
Proof.
  unfold seen. simpl. rewrite omap_app. now destruct c.
Qed.

Lemma delivered_same (w1 w : World) :
  callbacks w1 = callbacks w -> delivered w1 = delivered w.
Proof. unfold delivered. now intros ->. Qed.

Lemma seen_same (w1 w : World) :
  callbacks w1 = callbacks w -> seen w1 = seen w.
Proof. unfold seen. now intros ->. Qed.

(** Resolving a user never throws and touches the cache only. *)
Lemma resolveUserInfo_returns (userId : string) (w : World) :
  exists info w',
    resolveUserInfo E userId w = (Ok info, w')
    /\ callbacks w' = callbacks w
    /\ botUserId w' = botUserId w
    /\ outgoingQueue w' = outgoingQueue w
    /\ posted w' = posted w.
Proof.
  unfold resolveUserInfo.
  destruct (userInfoCache w !! userId) as [cached|]; [now eauto 10 |].
  destruct (users_info E userId) as [user|err]; now eauto 10.
Qed.

(** The files of an event are fetched one by one: the result is what
    each file gives on its own, in order. *)
Lemma downloadLoop_independent (dir : string) (slackFiles : list SlackFile) :
  forall result,
    downloadLoop E dir slackFiles result
    = result ++ flat_map (fun file => downloadLoop E dir [file] []) slackFiles.
Proof.
  induction slackFiles as [|file rest IH]; intros result.
  - simpl. now rewrite app_nil_r.
  - simpl.
    destruct (negb (JS.truthy _)); [apply IH |].
    destruct (MAX_FILE_SIZE <? _)%N; [apply IH |].
    destruct (fetch E _) as [err|ok status body]; [apply IH |].
    destruct (negb ok); [apply IH |].
    destruct body as [len|err]; [|apply IH].
    destruct (writeFileSync E _); [|apply IH].
    rewrite IH. simpl. now rewrite <- app_assoc.
Qed.

(** The timestamp of an event is made, or [toISOString] throws; the
    adapter is left as it was. *)
Lemma isoTimestamp_run (ts : string) (w : World) :
  isoTimestamp E ts w
  = match timestampOf E ts with
    | Some timestamp => (Ok timestamp, w)
    | None => (Throw "RangeError: Invalid time value", w)
    end.
Proof. unfold isoTimestamp. now destruct (timestampOf E ts). Qed.

(** For an id of letters and digits the replacement is the literal one. *)
Lemma stripMention_plain (bot text : string) (w : World) :
  JS.allAlnum bot = true ->
  stripMention E bot text w = (Ok (stripBotMention bot text), w).
Proof. intros H. unfold stripMention. now rewrite H. Qed.

(** Whatever the id, the replacement leaves the adapter as it was. *)
Lemma stripMention_frame (bot text : string) (w : World) :
  exists r, stripMention E bot text w = (r, w) /\ r <> OutOfFuel.
Proof.
  unfold stripMention.
  destruct (JS.allAlnum bot); [now eexists |].
  destruct (regExpReplace E _ text); now eexists.
Qed.

(** The first step of [handleEvent], for an id of letters and digits. *)
Lemma handleEvent_text_step (bot rawText : string) (isMention : bool)
    (w : World) :
  isMention = false \/ JS.allAlnum bot = true ->
  (if isMention && JS.nonEmpty bot then stripMention E bot rawText
   else ret rawText) w
  = (Ok (eventText bot isMention rawText), w).
Proof.
  intros H. unfold eventText.
  destruct (isMention && JS.nonEmpty bot) eqn:Hm; [|reflexivity].
  apply stripMention_plain.
  destruct H as [-> | H]; [discriminate | exact H].
Qed.

(** The first step of [handleEvent] in general. *)
Lemma handleEvent_text_frame (bot rawText : string) (isMention : bool)
    (w : World) :
  exists r,
    (if isMention && JS.nonEmpty bot then stripMention E bot rawText
     else ret rawText) w = (r, w)
    /\ r <> OutOfFuel.
Proof.
  destruct (isMention && JS.nonEmpty bot); [apply stripMention_frame |].
  now eexists.
Qed.

(** What [handleEvent] does with an event it keeps, when the bot's id is
    made of letters and digits and the event's timestamp is a date. *)
Lemma handleEvent_run (channel userId rawText ts : string) (isMention : bool)
    (threadTs : option string) (eventFiles : option (list SlackFile))
    (w : World) (timestamp : string) :
  isMention = false \/ JS.allAlnum (botUserId w) = true ->
  JS.nonEmpty (eventText (botUserId w) isMention rawText) = true
  \/ hasLength eventFiles = true ->
  timestampOf E ts = Some timestamp ->
  let text := eventText (botUserId w) isMention rawText in
  let r :=
    handleEvent E channel userId rawText ts isMention threadTs eventFiles w in
  seen (snd r) = seen w ++ [channel]
  /\ (isRegistered E channel = false ->
      delivered (snd r) = delivered w /\ fst r = Ok tt)
  /\ (isRegistered E channel = true ->
      (hasLength eventFiles = true ->
       mkdirSync E (filesDir E channel ts) = true) ->
      fst r = Ok tt
      /\ exists m,
          delivered (snd r) = delivered w ++ [m]
          /\ msg_id m = ts
          /\ msg_sender m = userId
          /\ msg_timestamp m = timestamp
          /\ msg_thread_ts m = threadTs
          /\ (JS.nonEmpty text = true -> msg_content m = text)
          /\ msg_files m =
             if hasLength eventFiles
             then Some (flat_map
                          (fun file =>
                             downloadLoop E (filesDir E channel ts) [file] [])
                          (default [] eventFiles))
             else None).
Proof.
  intros Hplain Hkeep Hts text r.
  assert (Hr : r = handleEvent E channel userId rawText ts isMention threadTs
                     eventFiles w) by reflexivity.
  clearbody r.
  unfold handleEvent in Hr. unfold bind at 1, read at 1 in Hr.
  unfold bind at 1 in Hr.
  rewrite (handleEvent_text_step _ _ _ _ Hplain) in Hr. fold text in Hr.
  assert (Hg : negb (JS.nonEmpty text) && negb (hasLength eventFiles) = false).
  { destruct Hkeep as [H | H]; subst text; rewrite H;
      [reflexivity | apply andb_false_r]. }
  rewrite Hg in Hr. unfold bind at 1 in Hr. rewrite isoTimestamp_run, Hts in Hr.
  unfold bind at 1 in Hr.
  destruct (resolveUserInfo_returns userId w) as (info & w1 & Hrun & Hcb & _).
  rewrite Hrun in Hr. unfold bind at 1, modify at 1 in Hr.
  destruct (isRegistered E channel) eqn:Hreg.
  - unfold bind at 1, detached at 1 in Hr.
    assert (Hw2 : snd (await (reactions_add E channel "eyes" ts)
                         (record_callback (OnChatMetadata channel timestamp) w1))
                  = record_callback (OnChatMetadata channel timestamp) w1).
    { unfold await. now destruct (reactions_add E channel "eyes" ts). }
    rewrite Hw2 in Hr. clear Hw2.
    destruct (hasLength eventFiles) eqn:Hfiles.
    + unfold bind at 1 in Hr. unfold bind at 1 in Hr. unfold downloadFiles in Hr.
      destruct (mkdirSync E (filesDir E channel ts)) eqn:Hmk.
      * unfold ret, modify in Hr. subst r. cbn [fst snd].
        rewrite !seen_record_callback, !delivered_record_callback,
          (seen_same _ _ Hcb), (delivered_same _ _ Hcb), !app_nil_r.
        split; [reflexivity |]. split; [discriminate |].
        intros _ _. split; [reflexivity |].
        eexists. split; [reflexivity |].
        cbn [msg_id msg_sender msg_timestamp msg_thread_ts msg_content
             msg_files].
        repeat split; try reflexivity.
        -- intros ->. reflexivity.
        -- apply (f_equal Some). exact (downloadLoop_independent _ _ []).
      * unfold throw in Hr. subst r. cbn [fst snd].
        rewrite !seen_record_callback, (seen_same _ _ Hcb), ?app_nil_r.
        split; [reflexivity |]. split; [discriminate |].
        intros _ Hmk'. specialize (Hmk' eq_refl). discriminate.
    + unfold bind at 1, ret at 1 in Hr. unfold modify in Hr. subst r.
      cbn [fst snd].
      rewrite !seen_record_callback, !delivered_record_callback,
        (seen_same _ _ Hcb), (delivered_same _ _ Hcb), !app_nil_r.
      split; [reflexivity |]. split; [discriminate |].
      intros _ _. split; [reflexivity |].
      eexists. split; [reflexivity |].
      cbn [msg_id msg_sender msg_timestamp msg_thread_ts msg_content
           msg_files].
      repeat split; try reflexivity.
      intros ->. reflexivity.
  - unfold ret in Hr. subst r. cbn [fst snd].
    rewrite !seen_record_callback, !delivered_record_callback,
      (seen_same _ _ Hcb), (delivered_same _ _ Hcb), !app_nil_r.
    split; [reflexivity |]. split; [now split | discriminate].
Qed.

(** An event without text and without files is dropped at once. *)
Lemma handleEvent_dropped (channel userId rawText ts : string)
    (isMention : bool) (threadTs : option string)
    (eventFiles : option (list SlackFile)) (w : World) :
  isMention = false \/ JS.allAlnum (botUserId w) = true ->
  JS.nonEmpty (eventText (botUserId w) isMention rawText) = false ->
  hasLength eventFiles = false ->
  handleEvent E channel userId rawText ts isMention threadTs eventFiles w
  = (Ok tt, w).
Proof.
  intros Hplain Ht Hf.
  unfold handleEvent. unfold bind at 1, read at 1. unfold bind at 1.
  rewrite (handleEvent_text_step _ _ _ _ Hplain). now rewrite Ht, Hf.
Qed.

(** In an unregistered conversation [handleEvent] hands nothing to
    [onMessage], whatever else happens. *)
Lemma handleEvent_unregistered_silent (channel userId rawText ts : string)
    (isMention : bool) (threadTs : option string)
    (eventFiles : option (list SlackFile)) (w : World) :
  isRegistered E channel = false ->
  delivered
    (snd (handleEvent E channel userId rawText ts isMention threadTs
            eventFiles w))
  = delivered w.
Proof.
  intros Hreg.
  unfold handleEvent. unfold bind at 1, read at 1. unfold bind at 1.
  destruct (handleEvent_text_frame (botUserId w) rawText isMention w)
    as (r & Hr & _).
  rewrite Hr. destruct r as [text|err|]; try reflexivity.
  destruct (negb (JS.nonEmpty text) && negb (hasLength eventFiles));
    [reflexivity |].
  unfold bind at 1. rewrite isoTimestamp_run.
  destruct (timestampOf E ts) as [timestamp|]; [|reflexivity].
  unfold bind at 1.
  destruct (resolveUserInfo_returns userId w) as (info & w1 & Hrun & Hcb & _).
  rewrite Hrun, Hreg. unfold bind, modify, ret. cbn [snd].
  now rewrite delivered_record_callback, (delivered_same _ _ Hcb), app_nil_r.
Qed.

(** [x || ''] is truthy exactly when [x] is. *)
Lemma nonEmpty_orDefault (o : option string) :
  JS.nonEmpty (JS.orDefault o "") = JS.truthy o.
Proof. destruct o as [s|]; [|reflexivity]. cbn. now destruct (JS.nonEmpty s) eqn:H. Qed.

(** What the reaction handler does: nothing; or, for a message it takes
    for the bot's in a registered conversation, one message, unless the
    event's timestamp is not a date. *)
Lemma onReactionAdded_run (event : ReactionEvent) (w : World) :
  let r := onReactionAdded E event w in
  r = (Ok tt, w)
  \/ exists reactedContent parent info w1,
       JS.truthy (re_user event) = true
       /\ re_user event <> Some (botUserId w)
       /\ re_item_type event = "message"
       /\ isRegistered E (re_item_channel event) = true
       /\ lookupReacted E (botUserId w) (re_item_channel event)
            (re_item_ts event) = Some (reactedContent, parent)
       /\ callbacks w1 = callbacks w
       /\ match timestampOf E (re_event_ts event) with
          | None => r = (Throw "RangeError: Invalid time value", w1)
          | Some timestamp =>
              r = (Ok tt,
                   record_callback
                     (OnMessage (re_item_channel event)
                        {| msg_id := "reaction-" +:+ re_event_ts event;
                           msg_chat_jid := re_item_channel event;
                           msg_sender := JS.orDefault (re_user event) "";
                           msg_sender_name := info_name info;
                           msg_sender_tz := orUndefinedStr (info_tz info);
                           msg_content :=
                             reactionContent (re_reaction event)
                                             reactedContent;
                           msg_timestamp := timestamp;
                           msg_is_from_me := false;
                           msg_is_bot_message := false;
                           msg_thread_ts :=
                             Some (if negb (JS.truthy parent)
                                   then re_item_ts event
                                   else JS.orDefault parent "");
                           msg_files := None;
                           msg_is_reaction := Some true |}) w1)
          end.
Proof.
  intros r.
  destruct (JS.truthy (re_user event)) eqn:Hu;
    [|left; subst r; unfold onReactionAdded, bind, read; now rewrite Hu].
  destruct (bool_decide_reflect (re_user event = Some (botUserId w)))
    as [Hb|Hb];
    [left; subst r; unfold onReactionAdded, bind, read;
     rewrite (bool_decide_eq_true_2 _ Hb); now rewrite orb_true_r |].
  destruct (String.eqb_spec (re_item_type event) "message") as [Ht|Ht];
    [|left; subst r; unfold onReactionAdded, bind, read;
      rewrite Hu, (bool_decide_eq_false_2 _ Hb); cbn [negb orb];
      now rewrite (proj2 (String.eqb_neq _ _) Ht)].
  destruct (isRegistered E (re_item_channel event)) eqn:Hreg;
    [|left; subst r; unfold onReactionAdded, bind, read;
      rewrite Hu, (bool_decide_eq_false_2 _ Hb), Ht, String.eqb_refl;
      cbn [negb orb]; now rewrite Hreg].
  destruct (lookupReacted E (botUserId w) (re_item_channel event)
              (re_item_ts event)) as [[reactedContent parent]|] eqn:Hl;
    [|left; subst r; unfold onReactionAdded, bind, read;
      rewrite Hu, (bool_decide_eq_false_2 _ Hb), Ht, String.eqb_refl;
      cbn [negb orb]; now rewrite Hreg, Hl].
  destruct (resolveUserInfo_returns (JS.orDefault (re_user event) "") w)
    as (info & w1 & Hrun & Hcb & _).
  right. exists reactedContent, parent, info, w1.
  repeat (split; [assumption |]).
  assert (Hr : r = (timestamp <- isoTimestamp E (re_event_ts event) ;;
                    modify (record_callback
                      (OnMessage (re_item_channel event)
                         {| msg_id := "reaction-" +:+ re_event_ts event;
                            msg_chat_jid := re_item_channel event;
                            msg_sender := JS.orDefault (re_user event) "";
                            msg_sender_name := info_name info;
                            msg_sender_tz := orUndefinedStr (info_tz info);
                            msg_content :=
                              reactionContent (re_reaction event)
                                              reactedContent;
                            msg_timestamp := timestamp;
                            msg_is_from_me := false;
                            msg_is_bot_message := false;
                            msg_thread_ts :=
                              Some (if negb (JS.truthy parent)
                                    then re_item_ts event
                                    else JS.orDefault parent "");
                            msg_files := None;
                            msg_is_reaction := Some true |}))) w1).
  { subst r. unfold onReactionAdded. unfold bind at 1, read at 1.
    rewrite Hu, (bool_decide_eq_false_2 _ Hb), Ht, String.eqb_refl.
    cbn [negb orb]. rewrite Hreg. cbn [negb]. rewrite Hl.
    cbv beta iota zeta.
    unfold bind at 1. now rewrite Hrun. }
  rewrite Hr. unfold bind. rewrite isoTimestamp_run.
  now destruct (timestampOf E (re_event_ts event)).
Qed.

(** C4, as the code has it.  A mention with a user, and a message
    without subtype and without [bot_id] in a channel whose id starts with
    [D] that has a user or files, is kept when text is left after the
    mention is stripped or when it has files.  A kept event whose
    timestamp is a date is announced through [onChatMetadata] once,
    registered or not; every other event is dropped with nothing done;
    and nothing is handed to [onMessage] for an unregistered
    conversation. *)
Theorem handleEvent_metadata_before_gate (w : World) :
  (forall channel user text ts thread_ts files,
      let r := onAppMention E channel user text ts thread_ts files w in
      let kept :=
        JS.truthy user
        && (JS.nonEmpty (eventText (botUserId w) true text)
            || hasLength files) in
      (JS.allAlnum (botUserId w) = true -> kept = true ->
       timestampOf E ts <> None ->
       seen (snd r) = seen w ++ [channel])
      /\ (JS.allAlnum (botUserId w) = true -> kept = false -> r = (Ok tt, w))
      /\ (isRegistered E channel = false -> delivered (snd r) = delivered w))
  /\ (forall onMessageDelete event,
        me_subtype event <> Some "message_changed" ->
        me_subtype event <> Some "message_deleted" ->
        let channel := me_channel event in
        let r := onMessageEvent E onMessageDelete event w in
        let kept :=
          negb (JS.truthy (me_subtype event))
          && negb (me_has_bot_id event)
          && JS.startsWith "D" channel
          && (JS.truthy (me_user event) || hasLength (me_files event))
          && (JS.truthy (me_text event) || hasLength (me_files event)) in
        (kept = true ->
         timestampOf E (JS.orDefault (me_ts event) "") <> None ->
         seen (snd r) = seen w ++ [channel])
        /\ (kept = false -> r = (Ok tt, w))
        /\ (isRegistered E channel = false ->
            delivered (snd r) = delivered w)).
Proof.
  split.
  - intros channel user text ts thread_ts files r kept. subst r kept.
    unfold onAppMention.
    destruct (JS.truthy user) eqn:Hu; cbn [negb andb].
    + split; [|split].
      * intros Hplain Hkept Hts.
        destruct (timestampOf E ts) as [timestamp|] eqn:Hiso;
          [|now destruct Hts].
        apply (handleEvent_run channel (JS.orDefault user "") text ts true
                 (Some (JS.orDefault thread_ts ts)) files w timestamp
                 (or_intror Hplain) (proj1 (orb_true_iff _ _) Hkept) Hiso).
      * intros Hplain Hkept. apply orb_false_iff in Hkept as [Ht Hf].
        now apply handleEvent_dropped; [right | |].
      * apply handleEvent_unregistered_silent.
    + split; [discriminate |]. now split.
  - intros onMessageDelete event Hedit Hdel channel r kept. subst r kept.
    unfold onMessageEvent.
    rewrite (bool_decide_eq_false_2 _ Hedit), (bool_decide_eq_false_2 _ Hdel).
    destruct (JS.truthy (me_subtype event)); cbn [negb andb orb];
      [split; [discriminate | now split] |].
    destruct (me_has_bot_id event); cbn [negb andb orb];
      [split; [discriminate | now split] |].
    fold channel.
    destruct (JS.startsWith "D" channel); cbn [negb andb orb];
      [|split; [discriminate | now split]].
    rewrite nonEmpty_orDefault.
    assert (Hraw : forall bot,
               eventText bot false (JS.orDefault (me_text event) "")
               = JS.orDefault (me_text event) "") by reflexivity.
    destruct (JS.truthy (me_user event)) eqn:Hu; cbn [negb andb orb].
    + split; [|split].
      * intros Hkept Hts.
        destruct (timestampOf E (JS.orDefault (me_ts event) ""))
          as [timestamp|] eqn:Hiso; [|now destruct Hts].
        apply (handleEvent_run channel (JS.orDefault (me_user event) "")
                 (JS.orDefault (me_text event) "")
                 (JS.orDefault (me_ts event) "") false None (me_files event)
                 w timestamp (or_introl eq_refl)); [|exact Hiso].
        rewrite Hraw, nonEmpty_orDefault.
        now apply orb_true_iff.
      * intros Hkept. apply orb_false_iff in Hkept as [Ht Hf].
        apply handleEvent_dropped; [now left | | exact Hf].
        now rewrite Hraw, nonEmpty_orDefault.
      * apply handleEvent_unregistered_silent.
    + destruct (hasLength (me_files event)) eqn:Hf; cbn [negb andb orb].
      * rewrite orb_true_r.
        split; [|split; [discriminate |]].
        -- intros _ Hts.
           destruct (timestampOf E (JS.orDefault (me_ts event) ""))
             as [timestamp|] eqn:Hiso; [|now destruct Hts].
           apply (handleEvent_run channel (JS.orDefault (me_user event) "")
                    (JS.orDefault (me_text event) "")
                    (JS.orDefault (me_ts event) "") false None (me_files event)
                    w timestamp (or_introl eq_refl) (or_intror Hf) Hiso).
        -- apply handleEvent_unregistered_silent.
      * split; [discriminate | now split].
Qed.







End Inbound.

Lemma handleEvent_metadata_before_gate_witness :
  JS.allAlnum (botUserId online) = true
  /\ isRegistered (quietEnv oneGroup) "C9" = false
  /\ timestampOf (quietEnv oneGroup) "100.1" <> None
  /\ seen
       (snd (onAppMention (quietEnv oneGroup) "C9" (Some "U1") "<@UBOT> hello"
               "100.1" None None online))
     = seen online ++ ["C9"]
  /\ delivered
       (snd (onAppMention (quietEnv oneGroup) "C9" (Some "U1") "<@UBOT> hello"
               "100.1" None None online))
     = delivered online.
Proof.
  assert (Hts : timestampOf (quietEnv oneGroup) "100.1" <> None)
    by (vm_compute; discriminate).
  destruct (proj1 (handleEvent_metadata_before_gate (quietEnv oneGroup) online)
              "C9" (Some "U1") "<@UBOT> hello" "100.1" None None)
    as (Hseen & _ & Hunreg).
  split; [reflexivity |]. split; [reflexivity |]. split; [exact Hts |].
  split; [exact (Hseen eq_refl eq_refl Hts) | exact (Hunreg eq_refl)].
Defined.

(** C4 as stated fails.  A mention that is nothing but the mention, in a
    registered conversation as in an unregistered one, is dropped before
    [onChatMetadata] is called, and so is a mention without a user; so are
    a message in a channel that is not a direct message, a direct message
    that carries a [bot_id] or a subtype, and one with neither user nor
    files; and for a direct message without a timestamp the handler throws
    before the call. *)
Lemma inbound_events_without_metadata :
  isRegistered (quietEnv oneGroup) "C1" = true
  /\ onAppMention (quietEnv oneGroup) "C1" (Some "U1") "<@UBOT> " "100.1"
       None None online = (Ok tt, online)
  /\ isRegistered (quietEnv oneGroup) "C9" = false
  /\ onAppMention (quietEnv oneGroup) "C9" (Some "U1") "<@UBOT> " "100.1"
       None None online = (Ok tt, online)
  /\ onAppMention (quietEnv oneGroup) "C1" None "<@UBOT> hello" "100.1"
       None None online = (Ok tt, online)
  /\ onMessageEvent (quietEnv oneGroup) true channelEvent online
     = (Ok tt, online)
  /\ isRegistered (quietEnv dmGroup) "D1" = true
  /\ onMessageEvent (quietEnv dmGroup) true botEvent online = (Ok tt, online)
  /\ onMessageEvent (quietEnv dmGroup) true fileShareEvent online
     = (Ok tt, online)
  /\ onMessageEvent (quietEnv dmGroup) true anonymousEvent online
     = (Ok tt, online)
  /\ onMessageEvent (quietEnv dmGroup) true untimedEvent online
     = (Throw "RangeError: Invalid time value", online)
  /\ seen online = [].
Proof. vm_compute. repeat split; reflexivity. Qed.


(** C6 fails on the code.  The store does not know the message at [45.5]
    of [C1], a reply written by [U2]; the history up to [45.5] ends with
    the bot's message of [40.0].  The handler takes that message for the
    one reacted to: a thumbs-up on the user's reply is handed to
    [onMessage] as a reaction to the bot's message. *)
Theorem reaction_on_user_reply_is_processed :
  let event := thumbsUp "C1" "45.5" in
  conversations_replies threadEnv threadOf40
  = Resolved (Some [botParent; userReply])
  /\ sm_ts userReply = Some (re_item_ts event)
  /\ sm_user userReply = Some "U2"
  /\ botUserId online = "UBOT"
  /\ storedMessage threadEnv "C1" (re_item_ts event) = None
  /\ platformMessage threadEnv "C1" (re_item_ts event) = Some botParent
  /\ sm_ts botParent = Some "40.0"
  /\ botAuthored threadEnv (botUserId online) "C1" (re_item_ts event) = false
  /\ isRegistered threadEnv "C1" = true
  /\ delivered online = []
  /\ fst (onReactionAdded threadEnv event online) = Ok tt
  /\ exists m,
       delivered (snd (onReactionAdded threadEnv event online)) = [m]
       /\ msg_is_reaction m = Some true
       /\ msg_sender m = "U1"
       /\ msg_content m
          = "[reacted with :+1: to: " +:+ quote +:+ "Deploy finished"
            +:+ quote +:+ "]"
       /\ msg_thread_ts m = Some "40.0".
Proof.
  cbv zeta. repeat (split; [reflexivity |]).
  eexists. split; [vm_compute; reflexivity |].
  repeat split; reflexivity.
Qed.


(** * Catching up *)

Section CatchUp.
Variable E : Env.

Lemma keys_record_callback (c : Callback) (w : World) :
  map keyOf (delivered (record_callback c w))
  = map keyOf (delivered w)
    ++ match c with OnMessage _ m => [keyOf m] | _ => [] end.
Proof.
  rewrite delivered_record_callback, map_app. now destruct c.
Qed.

(** The thread the source computes is the one of the rule. *)
Lemma catchUpThreadTs_rule (bot : string) (msg : SlackMessage) (ts : string) :
  catchUpThreadTs bot msg ts
  = threadKeyRule (sm_thread_ts msg) ts (mentionsBot bot msg) (hasReplies msg).
Proof.
  unfold catchUpThreadTs, threadKeyRule, mentionsBot.
  destruct (sm_thread_ts msg) as [p|]; [|reflexivity]. simpl.
  destruct (JS.nonEmpty p); [|reflexivity]. simpl.
  destruct (String.eqb_spec p ts) as [->|Hne].
  - now rewrite (bool_decide_eq_true_2 _ eq_refl).
  - rewrite bool_decide_eq_false_2; [reflexivity | congruence].
Qed.

(** The text of a recovered message is made, or [new RegExp] throws; the
    adapter is left as it was. *)
Lemma catchUpText_frame (bot : string) (text : option string) (w : World) :
  exists r,
    catchUpText E bot text w = (r, w)
    /\ r <> OutOfFuel
    /\ (JS.allAlnum bot = true -> exists t, r = Ok t).
Proof.
  unfold catchUpText.
  destruct (JS.nonEmpty bot); [|eexists; repeat split; [discriminate | eauto]].
  unfold stripMention.
  destruct (JS.allAlnum bot);
    [eexists; repeat split; [discriminate | eauto] |].
  destruct (regExpReplace E _ _);
    eexists; (repeat split; [discriminate | discriminate]).
Qed.

(** A turn for a reply that is kept hands it to [onMessage], in the
    parent's thread, or throws before; it throws only for a bot id that is
    not made of letters and digits or a timestamp that is not a date. *)
Lemma recoverReply_run (jid parentTs : string) (reply : SlackMessage)
    (w : World) :
  exists w1,
    callbacks w1 = callbacks w
    /\ botUserId w1 = botUserId w
    /\ ((exists m,
           recoverReply E jid parentTs reply w
           = (Ok tt, record_callback (OnMessage jid m) w1)
           /\ keyOf m = (JS.orDefault (sm_ts reply) "", Some parentTs))
        \/ ((exists err,
               recoverReply E jid parentTs reply w = (Throw err, w1))
            /\ (JS.allAlnum (botUserId w) = true -> timed E reply = false))).
Proof.
  remember (recoverReply E jid parentTs reply w) as x eqn:Hx.
  unfold recoverReply in Hx. cbv zeta in Hx.
  destruct (resolveUserInfo_returns E (JS.orDefault (sm_user reply) "") w)
    as (info & w1 & Hrun & Hcb & Hbot & _).
  exists w1. split; [exact Hcb |]. split; [exact Hbot |].
  unfold bind at 1 in Hx. rewrite Hrun in Hx.
  unfold bind at 1, read at 1 in Hx.
  destruct (catchUpText_frame (botUserId w1) (sm_text reply) w1)
    as (r & Hr & Hne & Hplain).
  unfold bind at 1 in Hx. rewrite Hr in Hx.
  destruct r as [text|err|]; [| |now destruct Hne].
  - unfold bind at 1 in Hx. rewrite (isoTimestamp_run E) in Hx. unfold timed.
    destruct (timestampOf E (JS.orDefault (sm_ts reply) "")) as [timestamp|].
    + left. eexists. split; [exact Hx | reflexivity].
    + right. split; [now exists "RangeError: Invalid time value" | reflexivity].
  - right. split; [now exists err |].
    intros Hp. rewrite Hbot in Hplain. now destruct (Hplain Hp).
Qed.

(** A turn for a channel message that is kept announces the channel and
    hands the message to [onMessage], with the thread of the rule, or
    throws before both. *)
Lemma recoverMessage_run (jid : string) (msg : SlackMessage) (w : World) :
  exists w1,
    callbacks w1 = callbacks w
    /\ botUserId w1 = botUserId w
    /\ ((exists timestamp m,
           recoverMessage E jid msg w
           = (Ok tt,
              record_callback (OnMessage jid m)
                (record_callback (OnChatMetadata jid timestamp) w1))
           /\ keyOf m = recoveredKey (botUserId w) msg)
        \/ ((exists err, recoverMessage E jid msg w = (Throw err, w1))
            /\ (JS.allAlnum (botUserId w) = true -> timed E msg = false))).
Proof.
  remember (recoverMessage E jid msg w) as x eqn:Hx.
  unfold recoverMessage in Hx. cbv zeta in Hx.
  destruct (resolveUserInfo_returns E (JS.orDefault (sm_user msg) "") w)
    as (info & w1 & Hrun & Hcb & Hbot & _).
  exists w1. split; [exact Hcb |]. split; [exact Hbot |].
  unfold bind at 1 in Hx. rewrite Hrun in Hx.
  unfold bind at 1, read at 1 in Hx.
  destruct (catchUpText_frame (botUserId w1) (sm_text msg) w1)
    as (r & Hr & Hne & Hplain).
  unfold bind at 1 in Hx. rewrite Hr in Hx.
  destruct r as [text|err|]; [| |now destruct Hne].
  - unfold bind at 1 in Hx. rewrite (isoTimestamp_run E) in Hx. unfold timed.
    destruct (timestampOf E (JS.orDefault (sm_ts msg) "")) as [timestamp|].
    + left. unfold bind, modify in Hx. eexists _, _. split; [exact Hx |].
      unfold keyOf, recoveredKey. cbn [msg_id msg_thread_ts].
      now rewrite Hbot, catchUpThreadTs_rule.
    + right. split; [now exists "RangeError: Invalid time value" | reflexivity].
  - right. split; [now exists err |].
    intros Hp. rewrite Hbot in Hplain. now destruct (Hplain Hp).
Qed.

Lemma inStep_refl (s : nat * World) : inStep s s.
Proof. now split. Qed.

Lemma inStep_trans (s1 s2 s3 : nat * World) :
  inStep s1 s2 -> inStep s2 s3 -> inStep s1 s3.
Proof. intros [B1 L1] [B2 L2]. split; [congruence | lia]. Qed.

(** One delivery and one more counted keep the count in step. *)
Lemma inStep_counted (n : nat) (w w1 : World) (jid : string) (m : NewMessage) :
  callbacks w1 = callbacks w ->
  botUserId w1 = botUserId w ->
  inStep (n, w) (S n, record_callback (OnMessage jid m) w1).
Proof.
  intros Hcb Hbot. split; [exact Hbot |]. cbn [fst snd].
  rewrite delivered_record_callback, length_app, (delivered_same _ _ Hcb).
  cbn [length]. lia.
Qed.

(** The loop over the replies ends, by its end or by a throw, with the
    count in step with the deliveries. *)
Lemma catchUpReplies_inStep (jid parentTs : string)
    (replies : list SlackMessage) :
  forall s,
  exists r s',
    catchUpReplies E jid parentTs replies s = (r, s')
    /\ r <> OutOfFuel
    /\ inStep s s'.
Proof.
  induction replies as [|reply rest IH]; intros s.
  - exists (Ok tt), s. repeat split; discriminate.
  - cbn [catchUpReplies].
    destruct (bool_decide (sm_ts reply = Some parentTs)); [apply IH |].
    destruct (isBotOrSubtype reply); [apply IH |].
    destruct (negb (JS.truthy (sm_ts reply))
              || negb (JS.truthy (sm_user reply))); [apply IH |].
    destruct s as [n w]. unfold bind at 1, onAdapter at 1. cbn [fst snd].
    destruct (recoverReply_run jid parentTs reply w)
      as (w1 & Hcb & Hbot & [(m & Hrun & _) | ((err & Hrun) & _)]);
      rewrite Hrun.
    + unfold bind at 1, countUp, modify. cbn [fst snd].
      destruct (IH (S n, record_callback (OnMessage jid m) w1))
        as (r & s' & Hrest & Hne & Hstep).
      exists r, s'. split; [exact Hrest |]. split; [exact Hne |].
      exact (inStep_trans _ _ _ (inStep_counted n w w1 jid m Hcb Hbot) Hstep).
    + exists (Throw err), (n, w1). split; [reflexivity |].
      split; [discriminate |]. split; [exact Hbot |]. cbn [fst snd].
      now rewrite (delivered_same _ _ Hcb).
Qed.

(** With a bot id of letters and digits and dated replies, the loop over
    the replies delivers every reply that is kept, the parent left out. *)
Lemma catchUpReplies_run (jid parentTs : string)
    (replies : list SlackMessage) :
  forall (n : nat) (w : World),
  JS.allAlnum (botUserId w) = true ->
  forallb (timedIfKept E) replies = true ->
  exists w',
    catchUpReplies E jid parentTs replies (n, w)
    = (Ok tt,
       (n + length
              (List.filter
                 (fun reply =>
                    negb (bool_decide (sm_ts reply = Some parentTs))
                    && recoverable reply) replies), w'))
    /\ botUserId w' = botUserId w
    /\ map keyOf (delivered w')
       = map keyOf (delivered w)
         ++ map (fun reply => (JS.orDefault (sm_ts reply) "", Some parentTs))
                (List.filter
                   (fun reply =>
                      negb (bool_decide (sm_ts reply = Some parentTs))
                      && recoverable reply) replies).
Proof.
  induction replies as [|reply rest IH]; intros n w Hplain Htimed.
  - exists w. simpl. unfold ret. now rewrite Nat.add_0_r, app_nil_r.
  - set (keep := fun reply : SlackMessage =>
                   negb (bool_decide (sm_ts reply = Some parentTs))
                   && recoverable reply) in *.
    cbn [forallb] in Htimed. apply andb_true_iff in Htimed as [Hthis Hrest].
    cbn [catchUpReplies List.filter].
    assert (Hk : keep reply
                 = negb (bool_decide (sm_ts reply = Some parentTs))
                   && (negb (isBotOrSubtype reply)
                       && JS.truthy (sm_ts reply) && JS.truthy (sm_user reply)))
      by reflexivity.
    assert (Hrec : recoverable reply
                   = negb (isBotOrSubtype reply)
                     && JS.truthy (sm_ts reply) && JS.truthy (sm_user reply))
      by reflexivity.
    unfold timedIfKept in Hthis. rewrite Hrec in Hthis.
    destruct (bool_decide (sm_ts reply = Some parentTs));
      destruct (isBotOrSubtype reply);
      destruct (JS.truthy (sm_ts reply));
      destruct (JS.truthy (sm_user reply));
      cbn [negb andb orb] in *; rewrite Hk; try now apply IH.
    cbn [length map]. unfold bind at 1, onAdapter at 1. cbn [fst snd].
    destruct (recoverReply_run jid parentTs reply w)
      as (w1 & Hcb & Hbot & [(m & Hrun & Hkey) | (_ & Hno)]);
      [|rewrite (Hno Hplain) in Hthis; discriminate].
    rewrite Hrun. unfold bind at 1, countUp, modify. cbn [fst snd].
    destruct (IH (S n) (record_callback (OnMessage jid m) w1))
      as (w' & Hrun' & Hbot' & Hkeys');
      [cbn [botUserId record_callback]; now rewrite Hbot | exact Hrest |].
    exists w'. rewrite Hrun'.
    rewrite keys_record_callback, (delivered_same _ _ Hcb), Hkey in Hkeys'.
    repeat split.
    + f_equal. f_equal. lia.
    + cbn [botUserId record_callback] in Hbot'. congruence.
    + rewrite Hkeys'. now rewrite <- app_assoc.
Qed.

(** A turn of the loop over the channel's messages ends, by its end or
    by a throw, with the count in step with the deliveries. *)
Lemma catchUpMessage_inStep (jid oldest : string) (msg : SlackMessage) :
  forall s,
  exists r s',
    catchUpMessage E jid oldest msg s = (r, s')
    /\ r <> OutOfFuel
    /\ inStep s s'.
Proof.
  intros s. unfold catchUpMessage.
  destruct (isBotOrSubtype msg);
    [exists (Ok tt), s; repeat split; discriminate |].
  destruct (negb (JS.truthy (sm_ts msg)) || negb (JS.truthy (sm_user msg)));
    [exists (Ok tt), s; repeat split; discriminate |].
  cbv zeta. destruct s as [n w].
  unfold bind at 1, onAdapter at 1. cbn [fst snd].
  destruct (recoverMessage_run jid msg w)
    as (w1 & Hcb & Hbot & [(timestamp & m & Hrun & _) | ((err & Hrun) & _)]);
    rewrite Hrun.
  - unfold bind at 1, countUp, modify. cbn [fst snd].
    set (w2 := record_callback (OnChatMetadata jid timestamp) w1).
    assert (Hcb2 : delivered w2 = delivered w).
    { subst w2. now rewrite delivered_record_callback, app_nil_r,
                  (delivered_same _ _ Hcb). }
    assert (Hstep : inStep (n, w) (S n, record_callback (OnMessage jid m) w2)).
    { split; [exact Hbot |]. cbn [fst snd].
      rewrite delivered_record_callback, length_app, Hcb2. cbn [length]. lia. }
    destruct (hasReplies msg).
    + unfold tryCatch, bind, await.
      destruct (conversations_replies E _) as [[replies|]|err].
      * destruct (catchUpReplies_inStep jid (JS.orDefault (sm_ts msg) "")
                    replies (S n, record_callback (OnMessage jid m) w2))
          as (r & s' & Hrest & Hne & Hstep').
        rewrite Hrest.
        pose proof (inStep_trans _ _ _ Hstep Hstep') as Hall.
        destruct r as [[]|err|]; [| |now destruct Hne].
        -- exists (Ok tt), s'. repeat split; try discriminate; apply Hall.
        -- exists (Ok tt), s'. repeat split; try discriminate; apply Hall.
      * exists (Ok tt), (S n, record_callback (OnMessage jid m) w2).
        repeat split; try discriminate; apply Hstep.
      * exists (Ok tt), (S n, record_callback (OnMessage jid m) w2).
        repeat split; try discriminate; apply Hstep.
    + exists (Ok tt), (S n, record_callback (OnMessage jid m) w2).
      repeat split; try discriminate; apply Hstep.
  - exists (Throw err), (n, w1). split; [reflexivity |].
    split; [discriminate |]. split; [exact Hbot |]. cbn [fst snd].
    now rewrite (delivered_same _ _ Hcb).
Qed.

(** With a bot id of letters and digits and dated messages, a turn
    delivers the message, when it is kept, and then the replies that are
    kept. *)
Lemma catchUpMessage_run (jid oldest : string) (msg : SlackMessage)
    (n : nat) (w : World) :
  JS.allAlnum (botUserId w) = true ->
  timedIfKept E msg = true ->
  repliesTimed E jid oldest msg = true ->
  exists w',
    catchUpMessage E jid oldest msg (n, w)
    = (Ok tt, (n + length (recoveredKeys E (botUserId w) jid oldest msg), w'))
    /\ botUserId w' = botUserId w
    /\ map keyOf (delivered w')
       = map keyOf (delivered w)
         ++ recoveredKeys E (botUserId w) jid oldest msg.
Proof.
  intros Hplain Htimed Hreplies.
  unfold catchUpMessage, recoveredKeys.
  unfold timedIfKept in Htimed. unfold recoverable in *.
  destruct (isBotOrSubtype msg); cbn [negb andb orb] in *;
    [exists w; unfold ret; now rewrite Nat.add_0_r, app_nil_r |].
  destruct (JS.truthy (sm_ts msg)); cbn [negb andb orb] in *;
    [|exists w; unfold ret; now rewrite Nat.add_0_r, app_nil_r].
  destruct (JS.truthy (sm_user msg)); cbn [negb andb orb] in *;
    [|exists w; unfold ret; now rewrite Nat.add_0_r, app_nil_r].
  cbv zeta. unfold bind at 1, onAdapter at 1. cbn [fst snd].
  destruct (recoverMessage_run jid msg w)
    as (w1 & Hcb & Hbot & [(timestamp & m & Hrun & Hkey) | (_ & Hno)]);
    [|rewrite (Hno Hplain) in Htimed; discriminate].
  rewrite Hrun. unfold bind at 1, countUp, modify. cbn [fst snd].
  set (ts := JS.orDefault (sm_ts msg) "") in *.
  set (w2 := record_callback (OnMessage jid m)
               (record_callback (OnChatMetadata jid timestamp) w1)).
  assert (Hkeys2 : map keyOf (delivered w2)
                   = map keyOf (delivered w) ++ [recoveredKey (botUserId w) msg]).
  { subst w2. rewrite !keys_record_callback, (delivered_same _ _ Hcb).
    now rewrite app_nil_r, Hkey. }
  assert (Hbot2 : botUserId w2 = botUserId w) by exact Hbot.
  unfold replyKeys. fold ts. unfold repliesTimed in Hreplies. fold ts in Hreplies.
  destruct (hasReplies msg); cbn [negb orb] in Hreplies.
  - unfold tryCatch, bind, await.
    destruct (conversations_replies E _) as [[replies|]|err].
    + destruct (catchUpReplies_run jid ts replies (S n) w2)
        as (w' & Hrest & Hbot' & Hkeys');
        [now rewrite Hbot2 | exact Hreplies |].
      exists w'. rewrite Hrest. repeat split.
      * f_equal. f_equal. cbn [length]. rewrite length_map. lia.
      * congruence.
      * rewrite Hkeys', Hkeys2. now rewrite <- app_assoc.
    + exists w2. unfold ret. repeat split; try assumption.
      f_equal. f_equal. simpl. lia.
    + exists w2. unfold ret. repeat split; try assumption.
      f_equal. f_equal. simpl. lia.
  - exists w2. unfold ret. repeat split; try assumption.
    f_equal. f_equal. simpl. lia.
Qed.

Lemma catchUpLoop_inStep (jid oldest : string) (msgs : list SlackMessage) :
  forall s,
  exists r s',
    catchUpLoop E jid oldest msgs s = (r, s')
    /\ r <> OutOfFuel
    /\ inStep s s'.
Proof.
  induction msgs as [|msg rest IH]; intros s.
  - exists (Ok tt), s. repeat split; discriminate.
  - cbn [catchUpLoop]. unfold bind.
    destruct (catchUpMessage_inStep jid oldest msg s)
      as (r1 & s1 & Hmsg & Hne1 & Hstep1).
    rewrite Hmsg. destruct r1 as [[]|err|]; [| |now destruct Hne1].
    + destruct (IH s1) as (r & s' & Hrest & Hne & Hstep).
      exists r, s'. split; [exact Hrest |]. split; [exact Hne |].
      exact (inStep_trans _ _ _ Hstep1 Hstep).
    + exists (Throw err), s1. split; [reflexivity |].
      split; [discriminate | exact Hstep1].
Qed.

Lemma catchUpLoop_run (jid oldest : string) (msgs : list SlackMessage) :
  forall (n : nat) (w : World),
  JS.allAlnum (botUserId w) = true ->
  forallb (fun msg => timedIfKept E msg && repliesTimed E jid oldest msg) msgs
  = true ->
  exists w',
    catchUpLoop E jid oldest msgs (n, w)
    = (Ok tt,
       (n + length (flat_map (recoveredKeys E (botUserId w) jid oldest) msgs),
        w'))
    /\ botUserId w' = botUserId w
    /\ map keyOf (delivered w')
       = map keyOf (delivered w)
         ++ flat_map (recoveredKeys E (botUserId w) jid oldest) msgs.
Proof.
  induction msgs as [|msg rest IH]; intros n w Hplain Htimed.
  - exists w. simpl. unfold ret. now rewrite Nat.add_0_r, app_nil_r.
  - cbn [forallb] in Htimed.
    apply andb_true_iff in Htimed as [[Hm Hr]%andb_true_iff Hrest].
    cbn [catchUpLoop flat_map]. unfold bind.
    destruct (catchUpMessage_run jid oldest msg n w Hplain Hm Hr)
      as (w1 & Hmsg & Hbot1 & Hkeys1).
    rewrite Hmsg.
    destruct (IH (n + length (recoveredKeys E (botUserId w) jid oldest msg)) w1)
      as (w' & Hrun & Hbot' & Hkeys'); [now rewrite Hbot1 | exact Hrest |].
    rewrite Hbot1 in Hrun, Hkeys'.
    exists w'. rewrite Hrun. repeat split.
    + f_equal. f_equal. rewrite length_app. lia.
    + congruence.
    + rewrite Hkeys', Hkeys1. now rewrite <- app_assoc.
Qed.

(** Catching up on a channel never throws, and keeps the count in step
    with the deliveries. *)
Lemma catchUpChannel_inStep (jid : string) (latestTs : option string) :
  forall s,
  exists s', catchUpChannel E jid latestTs s = (Ok tt, s') /\ inStep s s'.
Proof.
  intros s. unfold catchUpChannel, tryCatch. cbv zeta.
  unfold bind, await.
  destruct (conversations_history E _) as [[[|msg rest]|]|err];
    try (exists s; split; [reflexivity | apply inStep_refl]).
  destruct (catchUpLoop_inStep jid (JS.orDefault latestTs (twelveHoursAgo E))
              (rev (msg :: rest)) s) as (r & s' & Hrun & Hne & Hstep).
  rewrite Hrun. exists s'.
  destruct r as [[]|e|]; [now split | now split | now destruct Hne].
Qed.

Lemma catchUpChannels_inStep (channels : list (string * option string)) :
  forall s,
  exists s', catchUpChannels E channels s = (Ok tt, s') /\ inStep s s'.
Proof.
  induction channels as [|[jid latestTs] rest IH]; intros s.
  - exists s. split; [reflexivity | apply inStep_refl].
  - cbn [catchUpChannels]. unfold bind.
    destruct (catchUpChannel_inStep jid latestTs s) as (s1 & Hrun & Hstep1).
    rewrite Hrun.
    destruct (IH s1) as (s' & Hrest & Hstep).
    exists s'. split; [exact Hrest |].
    exact (inStep_trans _ _ _ Hstep1 Hstep).
Qed.

(** [catchUpMessages] always returns, with the number of messages it
    handed to [onMessage]. *)
Lemma catchUpMessages_returns (channels : list (string * option string))
    (w : World) :
  exists n w',
    catchUpMessages E channels w = (Ok n, w')
    /\ length (delivered w') = length (delivered w) + n.
Proof.
  unfold catchUpMessages.
  destruct (catchUpChannels_inStep channels (0, w)) as ([n w'] & Hrun & _ & Hlen).
  rewrite Hrun. exists n, w'. split; [reflexivity |].
  cbn [fst snd] in Hlen. lia.
Qed.

(** C5, as the code has it: when the history newer than [T0] holds three
    recoverable messages, listed newest first by the platform, whose
    timestamps are dates, catch-up delivers them oldest first, each with
    the thread of the rule, and after each message that has replies it
    also delivers the recoverable replies the platform returns for its
    thread, in that message's thread.  The count returned is the number of
    deliveries; it is three, and the deliveries are the three messages,
    when none of them has replies. *)
Theorem catchUp_three_messages (jid T0 : string) (m1 m2 m3 : SlackMessage)
    (w : World) :
  JS.nonEmpty T0 = true ->
  JS.allAlnum (botUserId w) = true ->
  recoverable m1 = true -> recoverable m2 = true -> recoverable m3 = true ->
  timed E m1 = true -> timed E m2 = true -> timed E m3 = true ->
  repliesTimed E jid T0 m1 = true ->
  repliesTimed E jid T0 m2 = true ->
  repliesTimed E jid T0 m3 = true ->
  conversations_history E
    {| hist_channel := jid; hist_oldest := Some T0; hist_latest := None;
       hist_inclusive := false; hist_limit := 200 |}
  = Resolved (Some [m3; m2; m1]) ->
  let key := recoveredKey (botUserId w) in
  let replies := replyKeys E jid T0 in
  exists n w',
    catchUpMessages E [(jid, Some T0)] w = (Ok n, w')
    /\ map keyOf (delivered w')
       = map keyOf (delivered w)
         ++ key m1 :: replies m1 ++ key m2 :: replies m2
         ++ key m3 :: replies m3
    /\ n = 3 + length (replies m1 ++ replies m2 ++ replies m3)
    /\ (hasReplies m1 = false -> hasReplies m2 = false ->
        hasReplies m3 = false ->
        map keyOf (delivered w')
        = map keyOf (delivered w) ++ [key m1; key m2; key m3]
        /\ n = 3).
Proof.
  intros HT0 Hplain H1 H2 H3 T1 T2 T3 R1 R2 R3 Hhist key replies.
  unfold catchUpMessages. cbn [catchUpChannels]. unfold bind at 1.
  unfold catchUpChannel, tryCatch. cbv zeta. unfold bind at 1, await.
  assert (Hold : JS.orDefault (Some T0) (twelveHoursAgo E) = T0)
    by (simpl; now rewrite HT0).
  rewrite Hold, Hhist.
  destruct (catchUpLoop_run jid T0 (rev [m3; m2; m1]) 0 w Hplain)
    as (w' & Hrun & _ & Hkeys).
  { cbn [rev app forallb]. unfold timedIfKept.
    now rewrite H1, H2, H3, T1, T2, T3, R1, R2, R3. }
  rewrite Hrun. unfold ret.
  cbn [rev app flat_map] in Hkeys |- *.
  unfold recoveredKeys in Hkeys |- *.
  rewrite H1, H2, H3 in Hkeys |- *.
  fold key in Hkeys |- *. fold replies in Hkeys |- *.
  rewrite app_nil_r in Hkeys |- *.
  eexists _, w'. split; [reflexivity |].
  assert (Hk : map keyOf (delivered w')
               = map keyOf (delivered w)
                 ++ key m1 :: replies m1 ++ key m2 :: replies m2
                 ++ key m3 :: replies m3).
  { rewrite Hkeys. cbn [app]. rewrite <- ?app_assoc. reflexivity. }
  split; [exact Hk |].
  split; [cbn [app length]; rewrite !length_app; cbn [length];
          rewrite ?length_app; cbn [length]; lia |].
  intros N1 N2 N3.
  assert (E1 : replies m1 = []) by (unfold replies, replyKeys; now rewrite N1).
  assert (E2 : replies m2 = []) by (unfold replies, replyKeys; now rewrite N2).
  assert (E3 : replies m3 = []) by (unfold replies, replyKeys; now rewrite N3).
  rewrite Hk, E1, E2, E3. split; reflexivity.
Qed.

End CatchUp.

Lemma catchUp_three_messages_witness :
  JS.nonEmpty "1000.0" = true
  /\ JS.allAlnum (botUserId online) = true
  /\ timed historyEnv (plainMessage "1001.0" "U1" "hi") = true
  /\ timed historyEnv plain2 = true
  /\ timed historyEnv mention3 = true
  /\ conversations_history historyEnv (sinceT0 "C2")
     = Resolved (Some [mention3; plain2; plainMessage "1001.0" "U1" "hi"])
  /\ exists n w',
       catchUpMessages historyEnv [("C2", Some "1000.0")] online = (Ok n, w')
       /\ n = 3
       /\ map keyOf (delivered w')
          = [("1001.0", None); ("1002.0", None); ("1003.0", Some "1003.0")].
Proof.
  do 6 (split; [reflexivity |]).
  destruct (catchUp_three_messages historyEnv "C2" "1000.0"
              (plainMessage "1001.0" "U1" "hi") plain2 mention3 online
              eq_refl eq_refl eq_refl eq_refl eq_refl eq_refl eq_refl eq_refl
              eq_refl eq_refl eq_refl eq_refl)
    as (n & w' & Hrun & _ & _ & Hplain).
  destruct (Hplain eq_refl eq_refl eq_refl) as [Hkeys Hn].
  exists n, w'. split; [exact Hrun |]. split; [exact Hn |]. exact Hkeys.
Defined.

(** C5 as stated fails.  In [C1] the history holds three new messages
    and the oldest has a reply: catch-up hands four messages to
    [onMessage], the reply right after its parent.  In [C3] three messages
    are new in all, the newest a reply to the oldest: catch-up delivers
    the three, the reply of [1003.0] before the message of [1002.0]. *)
Lemma catchUp_thread_parent_delivers_reply :
  conversations_history historyEnv (sinceT0 "C1")
  = Resolved (Some [mention3; plain2; parent1])
  /\ recoverable parent1 = true
  /\ recoverable plain2 = true
  /\ recoverable mention3 = true
  /\ fst (catchUpMessages historyEnv [("C1", Some "1000.0")] online) = Ok 4
  /\ map keyOf
       (delivered
          (snd (catchUpMessages historyEnv [("C1", Some "1000.0")] online)))
     = [("1001.0", Some "1001.0"); ("1001.5", Some "1001.0");
        ("1002.0", None); ("1003.0", Some "1003.0")]
  /\ fst (catchUpMessages historyEnv [("C3", Some "1000.0")] online) = Ok 3
  /\ map keyOf
       (delivered
          (snd (catchUpMessages historyEnv [("C3", Some "1000.0")] online)))
     = [("1001.0", Some "1001.0"); ("1003.0", Some "1001.0");
        ("1002.0", None)].
Proof. vm_compute. repeat split; reflexivity. Qed.

(** * Which operations throw *)

Section Throwing.
Variable E : Env.

Lemma sendChunks_ends (jid : string) (threadTs : option string)
    (chunks : list string) :
  forall (lastTs : option string) (w : World),
    fst (sendChunks E jid threadTs chunks lastTs w) <> OutOfFuel.
Proof.
  induction chunks as [|chunk rest IH]; intros lastTs w.
  - discriminate.
  - cbn [sendChunks]. unfold bind, postMessage.
    destruct (chat_postMessage E _ _) as [ts|err]; [apply IH | discriminate].
Qed.

(** [sendMessage] always returns. *)
Lemma sendMessage_returns (jid text : string) (threadTs : option string)
    (w : World) :
  exists r w', sendMessage E jid text threadTs w = (Ok r, w').
Proof.
  unfold sendMessage, bind, read.
  destruct (connected w); cbn [negb]; [|unfold enqueue, modify, ret; eauto].
  unfold tryCatch.
  pose proof (sendChunks_ends jid threadTs
                (splitMessage (resolveMentions E (userInfoCache w) text))
                None w) as Hends.
  destruct (sendChunks E jid threadTs _ None w) as [[ts|err|] w1];
    [eauto | | now destruct Hends].
  unfold bind, enqueue, modify, ret. eauto.
Qed.

Lemma syncChannels_returns (channels : list SlackConversation) :
  forall w, exists w', syncChannels E channels w = (Ok tt, w').
Proof.
  induction channels as [|ch rest IH]; intros w; [now exists w |].
  cbn [syncChannels]. unfold bind at 1.
  assert (H : exists w1,
             (if JS.truthy (sc_id ch) && JS.truthy (sc_name ch)
              then updateChatName (JS.orDefault (sc_id ch) "")
                                  (JS.orDefault (sc_name ch) "")
              else if JS.truthy (sc_id ch) && sc_is_im ch
              then if JS.truthy (sc_user ch)
                   then name <- resolveDisplayName E
                                  (JS.orDefault (sc_user ch) "") ;;
                        updateChatName (JS.orDefault (sc_id ch) "")
                                       ("DM: " +:+ name)
                   else ret tt
              else ret tt) w = (Ok tt, w1)).
  { destruct (JS.truthy (sc_id ch) && JS.truthy (sc_name ch));
      [unfold updateChatName, modify; eauto |].
    destruct (JS.truthy (sc_id ch) && sc_is_im ch); [|unfold ret; eauto].
    destruct (JS.truthy (sc_user ch)); [|unfold ret; eauto].
    unfold bind, resolveDisplayName, bind.
    destruct (resolveUserInfo_returns E (JS.orDefault (sc_user ch) "") w)
      as (info & w1 & Hrun & _).
    rewrite Hrun. unfold ret, updateChatName, modify. eauto. }
  destruct H as [w1 ->]. apply IH.
Qed.

(** A failure inside the sync is caught: the sync returns, or is still
    turning pages when the model stops looking. *)
Lemma syncChannelMetadata_no_throw (fuel : nat) (force : bool) (w : World)
    (err : string) :
  fst (syncChannelMetadata E fuel force w) <> Throw err.
Proof.
  unfold syncChannelMetadata, bind, read.
  destruct (negb force && syncedRecently w); [discriminate |].
  unfold tryCatch.
  destruct (syncPages E fuel None w) as [[[]|e|] w1]; discriminate.
Qed.

Lemma rethrow_eq {A : Type} (r : Api A) (w : World) :
  tryCatch (await r) (fun err => throw err) w
  = match r with
    | Resolved a => (Ok a, w)
    | Rejected err => (Throw err, w)
    end.
Proof. now destruct r. Qed.

(** [connect] throws only for missing credentials or a failed start. *)
Lemma connect_throws (fuel : nat) (w : World) (err : string) :
  fst (connect E fuel w) = Throw err ->
  JS.truthy (SLACK_BOT_TOKEN E) = false
  \/ JS.truthy (SLACK_APP_TOKEN E) = false
  \/ app_start E = Rejected err
  \/ auth_test E = Rejected err.
Proof.
  unfold connect.
  destruct (JS.truthy (SLACK_BOT_TOKEN E)); [|now left].
  destruct (JS.truthy (SLACK_APP_TOKEN E)); [|now right; left].
  cbn [negb orb]. unfold bind at 1, modify at 1. unfold bind at 1, await at 1.
  destruct (app_start E) as [[]|e]; [|intros [= ->]; now right; right; left].
  unfold bind at 1, await at 1.
  destruct (auth_test E) as [auth|e];
    [|intros [= ->]; now right; right; right].
  unfold bind, modify, detached. discriminate.
Qed.

(** C9, as the code has it: [connect] throws when a credential is
    missing, and otherwise only when starting the application or the
    identity check is rejected; [sendMessage] and [catchUpMessages] always
    return and [syncChannelMetadata] never throws; [addReaction],
    [removeReaction] and [sendFile] throw exactly when the platform
    rejects the call, with the platform's error. *)
Theorem throwing_operations :
  (forall fuel w,
      JS.truthy (SLACK_BOT_TOKEN E) = false
      \/ JS.truthy (SLACK_APP_TOKEN E) = false ->
      connect E fuel w
      = (Throw "Missing SLACK_BOT_TOKEN or SLACK_APP_TOKEN. Add them to .env and re-run.",
         w))
  /\ (forall fuel w err,
        fst (connect E fuel w) = Throw err ->
        JS.truthy (SLACK_BOT_TOKEN E) = false
        \/ JS.truthy (SLACK_APP_TOKEN E) = false
        \/ app_start E = Rejected err
        \/ auth_test E = Rejected err)
  /\ (forall jid text threadTs w,
        exists r w', sendMessage E jid text threadTs w = (Ok r, w'))
  /\ (forall channels w,
        exists n w', catchUpMessages E channels w = (Ok n, w'))
  /\ (forall fuel force w err,
        fst (syncChannelMetadata E fuel force w) <> Throw err)
  /\ (forall channel emoji messageTs w,
        addReaction E channel emoji messageTs w
        = match reactions_add E channel emoji messageTs with
          | Resolved _ => (Ok tt, w)
          | Rejected err => (Throw err, w)
          end)
  /\ (forall channel emoji messageTs w,
        removeReaction E channel emoji messageTs w
        = match reactions_remove E channel emoji messageTs with
          | Resolved _ => (Ok tt, w)
          | Rejected err => (Throw err, w)
          end)
  /\ (forall jid filePath filename title comment threadTs w,
        sendFile E jid filePath filename title comment threadTs w
        = match files_uploadV2 E
                  (uploadArgs E jid filePath filename title comment threadTs)
          with
          | Resolved _ => (Ok tt, w)
          | Rejected err => (Throw err, w)
          end).
Proof.
  split; [|split; [|split; [|split; [|split; [|split; [|split]]]]]].
  - intros fuel w H. unfold connect.
    destruct H as [-> | ->]; [reflexivity |].
    now rewrite orb_true_r.
  - exact connect_throws.
  - exact sendMessage_returns.
  - intros channels w.
    destruct (catchUpMessages_returns E channels w) as (n & w' & Hrun & _).
    now exists n, w'.
  - exact syncChannelMetadata_no_throw.
  - intros channel emoji messageTs w. unfold addReaction.
    rewrite rethrow_eq. now destruct (reactions_add E _ _ _) as [[]|].
  - intros channel emoji messageTs w. unfold removeReaction.
    rewrite rethrow_eq. now destruct (reactions_remove E _ _ _) as [[]|].
  - intros jid filePath filename title comment threadTs w.
    unfold sendFile. rewrite rethrow_eq.
    now destruct (files_uploadV2 E _) as [[]|].
Qed.

End Throwing.

Lemma throwing_operations_witness :
  JS.truthy (SLACK_BOT_TOKEN
               (withStartup None (Some "xapp-test") (Resolved tt)
                            (quietEnv oneGroup))) = false
  /\ connect (withStartup None (Some "xapp-test") (Resolved tt)
                          (quietEnv oneGroup)) 5 initial
     = (Throw "Missing SLACK_BOT_TOKEN or SLACK_APP_TOKEN. Add them to .env and re-run.",
        initial).
Proof.
  split; [reflexivity |].
  exact (proj1 (throwing_operations
                  (withStartup None (Some "xapp-test") (Resolved tt)
                               (quietEnv oneGroup)))
               5 initial (or_introl eq_refl)).
Defined.

(** C9 as stated fails: [addReaction] hands the platform's rejection on
    to its caller, and [connect] throws with both credentials present
    when the application cannot start. *)
Lemma addReaction_rethrows :
  addReaction reactionsFail "C1" "eyes" "100.1" online
  = (Throw "already_reacted", online)
  /\ JS.truthy (SLACK_BOT_TOKEN
                 (withStartup (Some "xoxb-test") (Some "xapp-test")
                              (Rejected "socket hang up") (quietEnv oneGroup)))
     = true
  /\ JS.truthy (SLACK_APP_TOKEN
                 (withStartup (Some "xoxb-test") (Some "xapp-test")
                              (Rejected "socket hang up") (quietEnv oneGroup)))
     = true
  /\ fst (connect (withStartup (Some "xoxb-test") (Some "xapp-test")
                               (Rejected "socket hang up") (quietEnv oneGroup))
                  5 initial)
     = Throw "socket hang up".
Proof. vm_compute. repeat split; reflexivity. Qed.

(** * More about the router *)

Section RouterMore.
Import JS JSFacts.

Lemma replaceChar_app (c : ascii) (by_ u v : string) :
  replaceChar c by_ (u +:+ v) = replaceChar c by_ u +:+ replaceChar c by_ v.
Proof.
  induction u as [|a u IH]; simpl; [reflexivity |].
  destruct (Ascii.eqb a c); simpl; rewrite IH; [|reflexivity].
  now rewrite app_assoc.
Qed.

Lemma escapeAll_app (u v : string) :
  escapeAll (u +:+ v) = escapeAll u +:+ escapeAll v.
Proof. unfold escapeAll. now rewrite !replaceChar_app. Qed.

Lemma escapeAll_single (a : ascii) : escapeAll (String a "") = escapeChar a.
Proof.
  unfold escapeAll, escapeChar.
  destruct (Ascii.eqb_spec a "&") as [->|H1]; [reflexivity |].
  destruct (Ascii.eqb_spec a "<") as [->|H2]; [reflexivity |].
  destruct (Ascii.eqb_spec a ">") as [->|H3]; [reflexivity |].
  destruct (Ascii.eqb_spec a dquote) as [->|H4]; [reflexivity |].
  cbn [replaceChar].
  rewrite (proj2 (Ascii.eqb_neq _ _) H1). cbn [replaceChar].
  rewrite (proj2 (Ascii.eqb_neq _ _) H2). cbn [replaceChar].
  rewrite (proj2 (Ascii.eqb_neq _ _) H3). cbn [replaceChar].
  now rewrite (proj2 (Ascii.eqb_neq _ _) H4).
Qed.

(** The replacements in a row do what one pass over the characters
    does: the entities written by an earlier replacement hold none of the
    characters a later one looks for. *)
Lemma escapeXml_escapeEach (s : string) : escapeXml s = escapeEach s.
Proof.
  unfold escapeXml. destruct s as [|c t]; [reflexivity |].
  cbn [nonEmpty negb]. fold (escapeAll (String c t)).
  generalize (String c t). clear c t.
  induction s as [|a s IH]; [reflexivity |].
  change (String a s) with (String a "" +:+ s).
  rewrite escapeAll_app, escapeAll_single, IH. reflexivity.
Qed.

Lemma occurs_app (c : ascii) (u v : string) :
  occurs c (u +:+ v) = occurs c u || occurs c v.
Proof.
  induction u as [|a u IH]; simpl; [reflexivity |].
  now rewrite IH, orb_assoc.
Qed.

Lemma escapeChar_clean (a c : ascii) :
  c = "<"%char \/ c = ">"%char \/ c = dquote ->
  occurs c (escapeChar a) = false.
Proof.
  intros Hc. unfold escapeChar.
  destruct (Ascii.eqb_spec a "&") as [->|H1];
    [destruct Hc as [->|[->| ->]]; reflexivity |].
  destruct (Ascii.eqb_spec a "<") as [->|H2];
    [destruct Hc as [->|[->| ->]]; reflexivity |].
  destruct (Ascii.eqb_spec a ">") as [->|H3];
    [destruct Hc as [->|[->| ->]]; reflexivity |].
  destruct (Ascii.eqb_spec a dquote) as [->|H4];
    [destruct Hc as [->|[->| ->]]; reflexivity |].
  simpl. rewrite orb_false_r. apply Ascii.eqb_neq.
  destruct Hc as [->|[->| ->]]; assumption.
Qed.

(** X1: the text [escapeXml] returns holds no [<], no [>] and no double
    quote, whatever text it is given. *)
Theorem escapeXml_no_markup (s : string) (c : ascii) :
  c = "<"%char \/ c = ">"%char \/ c = dquote ->
  occurs c (escapeXml s) = false.
Proof.
  intros Hc. rewrite escapeXml_escapeEach.
  induction s as [|a s IH]; [reflexivity |].
  cbn [escapeEach]. now rewrite occurs_app, (escapeChar_clean a c Hc), IH.
Qed.

Lemma escapeXml_no_markup_witness :
  ("<"%char = "<"%char \/ "<"%char = ">"%char \/ "<"%char = dquote)
  /\ occurs "<" (escapeXml "a < b && <c>") = false.
Proof.
  split; [now left |].
  exact (escapeXml_no_markup "a < b && <c>" "<" (or_introl eq_refl)).
Defined.

Lemma escapeChar_inj (a b : ascii) (r1 r2 : string) :
  escapeChar a +:+ r1 = escapeChar b +:+ r2 -> a = b /\ r1 = r2.
Proof.
  unfold escapeChar.
  destruct (Ascii.eqb_spec a "&") as [->|A1];
    [|destruct (Ascii.eqb_spec a "<") as [->|A2];
      [|destruct (Ascii.eqb_spec a ">") as [->|A3];
        [|destruct (Ascii.eqb_spec a dquote) as [->|A4]]]];
    (destruct (Ascii.eqb_spec b "&") as [->|B1];
      [|destruct (Ascii.eqb_spec b "<") as [->|B2];
        [|destruct (Ascii.eqb_spec b ">") as [->|B3];
          [|destruct (Ascii.eqb_spec b dquote) as [->|B4]]]]);
    cbn [String.append]; intros H;
    try (injection H; intros; subst; try discriminate; try congruence;
         now split).
Qed.

Lemma escapeChar_nonEmpty (a : ascii) (r : string) :
  escapeChar a +:+ r <> "".
Proof.
  unfold escapeChar.
  destruct (Ascii.eqb a "&"); [discriminate |].
  destruct (Ascii.eqb a "<"); [discriminate |].
  destruct (Ascii.eqb a ">"); [discriminate |].
  destruct (Ascii.eqb a dquote); discriminate.
Qed.

(** X2: [escapeXml] loses nothing: two texts with the same escaped form
    are the same text. *)
Theorem escapeXml_injective (s1 s2 : string) :
  escapeXml s1 = escapeXml s2 -> s1 = s2.
Proof.
  rewrite !escapeXml_escapeEach. revert s2.
  induction s1 as [|a s1 IH]; intros [|b s2]; cbn [escapeEach]; intros H.
  - reflexivity.
  - symmetry in H. now apply escapeChar_nonEmpty in H.
  - now apply escapeChar_nonEmpty in H.
  - apply escapeChar_inj in H as [-> H]. now rewrite (IH _ H).
Qed.

Lemma escapeXml_injective_witness :
  escapeXml "&lt;" = escapeXml "&lt;" /\ "&lt;" = "&lt;".
Proof.
  split; [reflexivity |].
  exact (escapeXml_injective "&lt;" "&lt;" eq_refl).
Defined.

(** Without an opening tag the first replacement changes nothing. *)
Lemma removeClosedBlocks_absent (n : nat) (s : string) :
  includes openTag s = false -> removeClosedBlocks n s = s.
Proof.
  revert s; induction n as [|n IH]; intros s H; [reflexivity |].
  destruct s as [|c t]; [reflexivity |].
  unfold removeClosedBlocks; fold removeClosedBlocks.
  pose proof H as H'. cbn [includes] in H'.
  apply orb_false_iff in H' as [Hs Ht]. rewrite Hs.
  now rewrite (IH _ Ht).
Qed.

Lemma trimStart_head (s : string) : headNotWhite (trimStart s) = true.
Proof.
  induction s as [|c s IH]; [reflexivity |].
  simpl. destruct (isWhite c) eqn:E; [exact IH |]. simpl. now rewrite E.
Qed.

Lemma trimStart_fixed (s : string) :
  headNotWhite s = true -> trimStart s = s.
Proof.
  destruct s as [|c s]; [reflexivity |]. simpl.
  now destruct (isWhite c).
Qed.

Lemma trimEnd_head (s : string) :
  headNotWhite s = true -> headNotWhite (trimEnd s) = true.
Proof.
  destruct s as [|c s]; [reflexivity |]. simpl.
  destruct (isWhite c) eqn:E; [discriminate |]. simpl. now rewrite E.
Qed.

Lemma trimEnd_idempotent (s : string) : trimEnd (trimEnd s) = trimEnd s.
Proof.
  induction s as [|c s IH]; [reflexivity |].
  simpl. destruct (isWhite c && negb (nonEmpty (trimEnd s))) eqn:E;
    [reflexivity |].
  simpl. now rewrite IH, E.
Qed.

Lemma trim_idempotent (s : string) : trim (trim s) = trim s.
Proof.
  unfold trim.
  rewrite (trimStart_fixed _ (trimEnd_head _ (trimStart_head s))).
  apply trimEnd_idempotent.
Qed.

Lemma formatOutbound_stripInternalTags (s : string) :
  formatOutbound s = stripInternalTags s.
Proof. unfold formatOutbound. now destruct (stripInternalTags s). Qed.

Lemma stripInternalTags_absent (s : string) :
  includes openTag s = false -> stripInternalTags s = trim s.
Proof.
  intros H. unfold stripInternalTags, removeUnclosedBlock.
  now rewrite (removeClosedBlocks_absent _ _ H), (beforeFirst_absent _ _ H).
Qed.

(** X3: formatting a text that is already formatted changes nothing. *)
Theorem formatOutbound_idempotent (s : string) :
  formatOutbound (formatOutbound s) = formatOutbound s.
Proof.
  rewrite !formatOutbound_stripInternalTags.
  rewrite (stripInternalTags_absent _ (stripInternalTags_no_openTag s)).
  unfold stripInternalTags. apply trim_idempotent.
Qed.

(** X4: a text without an opening tag is only trimmed; a closing tag on
    its own stays. *)
Theorem formatOutbound_without_tag (s : string) :
  includes openTag s = false -> formatOutbound s = trim s.
Proof.
  intros H. rewrite formatOutbound_stripInternalTags.
  now apply stripInternalTags_absent.
Qed.

Lemma formatOutbound_without_tag_witness :
  includes openTag "  done </internal> " = false
  /\ formatOutbound "  done </internal> " = trim "  done </internal> ".
Proof.
  split; [reflexivity |].
  exact (formatOutbound_without_tag "  done </internal> " eq_refl).
Defined.

End RouterMore.

(** * Routing *)

Section Routing.
Variable E : Env.

Lemma allUpperOrDigit_occurs (s : string) (x : ascii) :
  allUpperOrDigit s = true -> JS.occurs x s = true -> isUpperOrDigit x = true.
Proof.
  induction s as [|c s IH]; [discriminate |].
  simpl. intros [Hc Hs]%andb_true_iff [Hx|Hx]%orb_true_iff.
  - apply Ascii.eqb_eq in Hx. now subst.
  - now apply IH.
Qed.

(** Every character of an id the adapter owns is an upper-case letter or
    a digit. *)
Lemma ownsJid_characters (jid : string) (x : ascii) :
  ownsJid jid = true -> JS.occurs x jid = true -> isUpperOrDigit x = true.
Proof.
  destruct jid as [|c rest]; [discriminate |].
  unfold ownsJid.
  intros [[Hc _]%andb_true_iff Hrest]%andb_true_iff.
  cbn [JS.occurs]. intros [Hx|Hx]%orb_true_iff.
  - apply Ascii.eqb_eq in Hx. subst x.
    apply orb_true_iff in Hc as [[Hc|Hc]%orb_true_iff|Hc];
      apply Ascii.eqb_eq in Hc; now subst.
  - exact (allUpperOrDigit_occurs _ _ Hrest Hx).
Qed.

(** X5: the router does not hand a message to a disconnected adapter: it
    throws and leaves the adapter as it was, although [sendMessage] itself
    would have queued the message. *)
Theorem routeOutbound_disconnected_throws (jid text : string) (w : World) :
  connected w = false ->
  routeOutbound [slackChannel E] jid text w
  = (Throw ("No channel for JID: " +:+ jid), w)
  /\ outgoingQueue (snd (sendMessage E jid text None w))
     = outgoingQueue w
       ++ [{| item_jid := jid; item_text := text; item_threadTs := None |}].
Proof.
  intros Hc. split.
  - unfold routeOutbound. cbn [List.find slackChannel ch_ownsJid ch_isConnected].
    now rewrite Hc, andb_false_r.
  - unfold sendMessage, bind, read. now rewrite Hc.
Qed.

(** X6: an id with a character that is neither an upper-case letter nor a
    digit is not the adapter's: the router throws for it, connected or
    not. *)
Theorem routeOutbound_foreign_jid_throws (jid text : string) (x : ascii)
    (w : World) :
  JS.occurs x jid = true ->
  isUpperOrDigit x = false ->
  ownsJid jid = false
  /\ routeOutbound [slackChannel E] jid text w
     = (Throw ("No channel for JID: " +:+ jid), w).
Proof.
  intros Hx Hn.
  assert (Hown : ownsJid jid = false).
  { destruct (ownsJid jid) eqn:Hown; [|reflexivity].
    rewrite (ownsJid_characters _ _ Hown Hx) in Hn. discriminate. }
  split; [exact Hown |].
  unfold routeOutbound. cbn [List.find slackChannel ch_ownsJid ch_isConnected].
  now rewrite Hown.
Qed.

(** X7: an id the adapter owns reaches [sendMessage] when the adapter is
    connected, and then the router returns: a failed send is queued, not
    thrown. *)
Theorem routeOutbound_connected_returns (jid text : string) (w : World) :
  ownsJid jid = true ->
  connected w = true ->
  routeOutbound [slackChannel E] jid text w = sendMessage E jid text None w
  /\ exists r w', routeOutbound [slackChannel E] jid text w = (Ok r, w').
Proof.
  intros Hown Hc.
  assert (Heq : routeOutbound [slackChannel E] jid text w
                = sendMessage E jid text None w).
  { unfold routeOutbound.
    cbn [List.find slackChannel ch_ownsJid ch_isConnected].
    now rewrite Hown, Hc. }
  split; [exact Heq |]. rewrite Heq. apply sendMessage_returns.
Qed.

End Routing.

(** X8: when [findChannel] finds no channel for an id, [routeOutbound]
    throws for it, whatever the channels' connections. *)
Theorem routeOutbound_needs_owner (channels : list Channel)
    (jid text : string) (w : World) :
  findChannel channels jid = None ->
  routeOutbound channels jid text w
  = (Throw ("No channel for JID: " +:+ jid), w).
Proof.
  unfold findChannel, routeOutbound. intros H.
  assert (Hnone : List.find
                    (fun c => ch_ownsJid c jid && ch_isConnected c w) channels
                  = None).
  { induction channels as [|c rest IH]; [reflexivity |].
    cbn [List.find] in H |- *.
    destruct (ch_ownsJid c jid); [discriminate |]. exact (IH H). }
  now rewrite Hnone.
Qed.

Lemma routeOutbound_disconnected_throws_witness :
  connected initial = false
  /\ routeOutbound [slackChannel (quietEnv oneGroup)] "C012345ABCD" "hi" initial
     = (Throw "No channel for JID: C012345ABCD", initial).
Proof.
  split; [reflexivity |].
  exact (proj1 (routeOutbound_disconnected_throws (quietEnv oneGroup)
                  "C012345ABCD" "hi" initial eq_refl)).
Defined.

Lemma routeOutbound_foreign_jid_throws_witness :
  JS.occurs ":" "unknown:12345" = true
  /\ isUpperOrDigit ":" = false
  /\ ownsJid "unknown:12345" = false.
Proof.
  split; [reflexivity |]. split; [reflexivity |].
  exact (proj1 (routeOutbound_foreign_jid_throws (quietEnv oneGroup)
                  "unknown:12345" "hi" ":" online eq_refl eq_refl)).
Defined.

Lemma routeOutbound_connected_returns_witness :
  ownsJid "D012345ABCD" = true
  /\ connected online = true
  /\ routeOutbound [slackChannel (quietEnv oneGroup)] "D012345ABCD" "hi" online
     = sendMessage (quietEnv oneGroup) "D012345ABCD" "hi" None online.
Proof.
  split; [reflexivity |]. split; [reflexivity |].
  exact (proj1 (routeOutbound_connected_returns (quietEnv oneGroup)
                  "D012345ABCD" "hi" online eq_refl eq_refl)).
Defined.

Lemma routeOutbound_needs_owner_witness :
  findChannel [slackChannel (quietEnv oneGroup)] "12345@s.whatsapp.net" = None
  /\ routeOutbound [slackChannel (quietEnv oneGroup)] "12345@s.whatsapp.net"
       "hi" online
     = (Throw "No channel for JID: 12345@s.whatsapp.net", online).
Proof.
  split; [reflexivity |].
  exact (routeOutbound_needs_owner [slackChannel (quietEnv oneGroup)]
           "12345@s.whatsapp.net" "hi" online eq_refl).
Defined.

(** * More about splitting *)

Section SplitMore.
Import JS JSFacts.

(** X9: whatever the text, no chunk of [splitMessage] is longer than the
    limit. *)
Theorem splitMessage_chunks_within_limit (text : string) :
  Forall (fun chunk => String.length chunk <= MAX_MESSAGE_LENGTH)
         (splitMessage text).
Proof.
  unfold splitMessage.
  destruct (Nat.le_gt_cases (String.length text) MAX_MESSAGE_LENGTH) as [H|H].
  - rewrite (splitMessageAt_short _ _ H). now constructor.
  - now apply splitMessageAt_bounded.
Qed.

Lemma totalLength_app (l1 l2 : list string) :
  totalLength (l1 ++ l2) = totalLength l1 + totalLength l2.
Proof.
  induction l1 as [|c l1 IH]; [reflexivity |].
  cbn [app totalLength fold_right] in *. fold (totalLength (l1 ++ l2)).
  fold (totalLength l1). rewrite IH. lia.
Qed.

(** The loop moves characters from the text to the chunks; it makes no
    empty chunk and invents no character. *)
Lemma splitLoop_conserves (limit fuel : nat) (remaining : string)
    (chunks : list string) :
  0 < limit ->
  Forall (fun c => nonEmpty c = true) chunks ->
  let '(chunks', remaining') := splitLoop limit fuel remaining chunks in
  Forall (fun c => nonEmpty c = true) chunks'
  /\ totalLength chunks' + String.length remaining'
     <= totalLength chunks + String.length remaining.
Proof.
  intros Hlimit. revert remaining chunks.
  induction fuel as [|fuel IH]; intros remaining chunks Hall.
  - simpl. split; [exact Hall | lia].
  - simpl. destruct (limit <? String.length remaining) eqn:E;
      [|split; [exact Hall | lia]].
    apply Nat.ltb_lt in E.
    pose proof (lastIndexOf_le LF limit remaining) as Hle.
    set (idx := if (lastIndexOf LF limit remaining <=? 0)%Z
                then limit else Z.to_nat (lastIndexOf LF limit remaining)).
    assert (Hidx : 0 < idx <= limit).
    { subst idx. destruct (Z.leb_spec (lastIndexOf LF limit remaining) 0); lia. }
    assert (Htake : String.length (take idx remaining) = idx)
      by (rewrite length_take; lia).
    specialize (IH (drop (idx + 1) remaining)
                   (chunks ++ [take idx remaining])).
    destruct (splitLoop limit fuel (drop (idx + 1) remaining)
                (chunks ++ [take idx remaining])) as [chunks' remaining'].
    destruct IH as [Hne Hsum].
    { apply Forall_app; split; [exact Hall |].
      constructor; [|constructor].
      destruct (take idx remaining); [simpl in Htake; lia | reflexivity]. }
    split; [exact Hne |].
    rewrite totalLength_app, length_drop in Hsum.
    cbn [totalLength fold_right] in Hsum. lia.
Qed.

(** X10: for a text over the limit, no chunk is empty, and the chunks
    together hold no more characters than the text. *)
Theorem splitMessageAt_conserves (limit : nat) (text : string) :
  0 < limit ->
  limit < String.length text ->
  Forall (fun chunk => nonEmpty chunk = true) (splitMessageAt limit text)
  /\ totalLength (splitMessageAt limit text) <= String.length text.
Proof.
  intros Hlimit Hlong. unfold splitMessageAt.
  rewrite (proj2 (Nat.leb_gt _ _) Hlong).
  pose proof (splitLoop_conserves limit (String.length text) text []
                Hlimit (List.Forall_nil _)) as H.
  destruct (splitLoop limit (String.length text) text []) as [chunks rest].
  destruct H as [Hne Hsum]. cbn [totalLength fold_right] in Hsum.
  destruct (nonEmpty rest) eqn:Hrest.
  - split.
    + apply Forall_app; split; [exact Hne | now constructor].
    + rewrite totalLength_app. cbn [totalLength fold_right]. lia.
  - split; [exact Hne | lia].
Qed.

Lemma splitMessageAt_conserves_witness :
  0 < 5 /\ 5 < String.length "abcdefghij"
  /\ totalLength (splitMessageAt 5 "abcdefghij") <= String.length "abcdefghij".
Proof.
  split; [lia |]. split; [simpl; lia |].
  exact (proj2 (splitMessageAt_conserves 5 "abcdefghij"
                  ltac:(lia) ltac:(simpl; lia))).
Defined.

Lemma lastIndexFrom_app (c : ascii) (u v : string) (i : nat) (found : Z) :
  lastIndexFrom c i (u +:+ v) found
  = lastIndexFrom c (i + String.length u) v (lastIndexFrom c i u found).
Proof.
  revert i found; induction u as [|a u IH]; intros i found; simpl.
  - now rewrite Nat.add_0_r.
  - rewrite IH. f_equal. lia.
Qed.

Lemma take_app_le (n : nat) (u v : string) :
  String.length u <= n ->
  take n (u +:+ v) = u +:+ take (n - String.length u) v.
Proof.
  revert n; induction u as [|a u IH]; intros n H; simpl in *.
  - now rewrite Nat.sub_0_r.
  - destruct n as [|n]; [lia |]. simpl. now rewrite IH by lia.
Qed.

Lemma take_app_exact (u v : string) : take (String.length u) (u +:+ v) = u.
Proof. induction u as [|a u IH]; simpl; [now destruct v | now rewrite IH]. Qed.

Lemma drop_app_exact (n : nat) (u v : string) :
  drop (String.length u + n) (u +:+ v) = drop n v.
Proof. induction u as [|a u IH]; simpl; [reflexivity | exact IH]. Qed.

(** The last newline within reach is the one written, when nothing
    behind it is a newline. *)
Lemma lastIndexOf_newline (limit : nat) (a b : string) :
  String.length a <= limit ->
  occurs LF b = false ->
  lastIndexOf LF limit (a +:+ String LF b) = Z.of_nat (String.length a).
Proof.
  intros Ha Hb. unfold lastIndexOf.
  rewrite (take_app_le (S limit) a (String LF b)) by lia.
  replace (S limit - String.length a) with (S (limit - String.length a))
    by lia.
  cbn [take]. rewrite lastIndexFrom_app. cbn [lastIndexFrom].
  rewrite Ascii.eqb_refl.
  now rewrite (lastIndexFrom_absent _ _ _ _ (occurs_take _ _ _ Hb)).
Qed.

(** X11: a text that is over the limit, with a non-empty first part
    within the limit, a newline, and a rest within the limit that holds no
    newline, is cut at that newline: the chunks are the two parts, the
    newline is gone, and an empty rest makes no chunk.  Putting the
    newline back between the two chunks gives the text. *)
Theorem splitMessageAt_newline_cut (limit : nat) (a b : string) :
  0 < String.length a <= limit ->
  String.length b <= limit ->
  occurs LF b = false ->
  limit < String.length (a +:+ String LF b) ->
  splitMessageAt limit (a +:+ String LF b)
  = a :: (if nonEmpty b then [b] else [])
  /\ (nonEmpty b = true ->
      reassemble (splitMessageAt limit (a +:+ String LF b)) [true]
      = a +:+ String LF b).
Proof.
  intros [Ha0 Ha] Hb Hnl Hlong.
  assert (Hsplit : splitMessageAt limit (a +:+ String LF b)
                   = a :: (if nonEmpty b then [b] else [])).
  { unfold splitMessageAt.
    rewrite (proj2 (Nat.leb_gt _ _) Hlong).
    destruct (String.length (a +:+ String LF b)) as [|fuel] eqn:Hlen; [lia |].
    cbn [splitLoop]. rewrite Hlen, (proj2 (Nat.ltb_lt _ _) Hlong).
    rewrite (lastIndexOf_newline limit a b Ha Hnl).
    rewrite (proj2 (Z.leb_gt _ _)) by lia.
    rewrite Nat2Z.id, take_app_exact.
    rewrite (drop_app_exact 1 a (String LF b)). cbn [drop app].
    assert (Hstop : splitLoop limit fuel b [a] = ([a], b)).
    { destruct fuel as [|fuel]; [reflexivity |]. cbn [splitLoop].
      now rewrite (proj2 (Nat.ltb_ge _ _) Hb). }
    rewrite Hstop. now destruct (nonEmpty b). }
  split; [exact Hsplit |].
  intros Hne. rewrite Hsplit, Hne. reflexivity.
Qed.

Lemma splitMessageAt_newline_cut_witness :
  0 < String.length "abcd" <= 5
  /\ String.length "efg" <= 5
  /\ occurs LF "efg" = false
  /\ 5 < String.length ("abcd" +:+ String LF "efg")
  /\ splitMessageAt 5 ("abcd" +:+ String LF "efg") = ["abcd"; "efg"].
Proof.
  split; [simpl; lia |]. split; [simpl; lia |].
  split; [reflexivity |]. split; [simpl; lia |].
  exact (proj1 (splitMessageAt_newline_cut 5 "abcd" "efg"
                  ltac:(simpl; lia) ltac:(simpl; lia) eq_refl
                  ltac:(simpl; lia))).
Defined.

End SplitMore.

(** * The identity cache *)

Section Identity.
Variable E : Env.

(** X12: once the platform has answered for a user, the user's record is
    in the cache, and every later resolution returns that record without
    asking again: it is the same whatever the platform would answer
    then. *)
Theorem resolveUserInfo_memoizes (userId : string) (user : option SlackUser)
    (w : World) :
  users_info E userId = Resolved user ->
  exists info,
    fst (resolveUserInfo E userId w) = Ok info
    /\ userInfoCache (snd (resolveUserInfo E userId w)) !! userId = Some info
    /\ forall E',
        resolveUserInfo E' userId (snd (resolveUserInfo E userId w))
        = (Ok info, snd (resolveUserInfo E userId w)).
Proof.
  intros Hapi. unfold resolveUserInfo at 1 2 4 5.
  destruct (userInfoCache w !! userId) as [cached|] eqn:Hc.
  - exists cached. cbn [fst snd]. repeat split; [exact Hc |].
    intros E'. unfold resolveUserInfo. now rewrite Hc.
  - rewrite Hapi. cbn [fst snd]. eexists. split; [reflexivity |].
    split; [cbn [userInfoCache set_userInfoCache]; apply lookup_insert_eq |].
    intros E'. unfold resolveUserInfo.
    cbn [userInfoCache set_userInfoCache]. now rewrite lookup_insert_eq.
Qed.

(** X13: resolving a user never removes or changes a record that is in
    the cache, and a lookup the platform rejects stores nothing: the user's
    id stands in for the name, and the next resolution asks again. *)
Theorem resolveUserInfo_keeps_cache (userId : string) (w : World) :
  (forall other info,
      userInfoCache w !! other = Some info ->
      userInfoCache (snd (resolveUserInfo E userId w)) !! other = Some info)
  /\ (forall err,
        userInfoCache w !! userId = None ->
        users_info E userId = Rejected err ->
        resolveUserInfo E userId w
        = (Ok {| info_name := userId; info_tz := "" |}, w)).
Proof.
  split.
  - intros other info Hother. unfold resolveUserInfo.
    destruct (userInfoCache w !! userId) as [cached|] eqn:Hc; [exact Hother |].
    destruct (users_info E userId) as [user|err]; [|exact Hother].
    cbn [snd userInfoCache set_userInfoCache].
    rewrite lookup_insert_ne; [exact Hother | congruence].
  - intros err Hc Hapi. unfold resolveUserInfo. now rewrite Hc, Hapi.
Qed.

Lemma orDefault_nonEmpty (o : option string) (d : string) :
  JS.nonEmpty d = true -> JS.nonEmpty (JS.orDefault o d) = true.
Proof.
  intros Hd. destruct o as [s|]; [|exact Hd]. simpl.
  destruct (JS.nonEmpty s) eqn:Hs; [exact Hs | exact Hd].
Qed.

(** X14: a user who is not in the cache and has a non-empty id gets a
    non-empty name, whatever the platform answers: the display name, the
    real name, the account name, or else the id. *)
Theorem resolveUserInfo_name_not_empty (userId : string) (w : World) :
  userInfoCache w !! userId = None ->
  JS.nonEmpty userId = true ->
  exists info w',
    resolveUserInfo E userId w = (Ok info, w')
    /\ JS.nonEmpty (info_name info) = true.
Proof.
  intros Hc Hid. unfold resolveUserInfo. rewrite Hc.
  destruct (users_info E userId) as [user|err].
  - eexists _, _. split; [reflexivity |]. cbn [info_name].
    now apply orDefault_nonEmpty.
  - eexists _, _. split; [reflexivity |]. exact Hid.
Qed.

End Identity.

Lemma resolveUserInfo_memoizes_witness :
  users_info (quietEnv oneGroup) "U1" = Resolved None
  /\ exists info,
       fst (resolveUserInfo (quietEnv oneGroup) "U1" online) = Ok info
       /\ userInfoCache (snd (resolveUserInfo (quietEnv oneGroup) "U1" online))
          !! "U1" = Some info.
Proof.
  split; [reflexivity |].
  destruct (resolveUserInfo_memoizes (quietEnv oneGroup) "U1" None online
              eq_refl) as (info & H1 & H2 & _).
  exists info. split; [exact H1 | exact H2].
Defined.

Lemma resolveUserInfo_name_not_empty_witness :
  userInfoCache online !! "U1" = None
  /\ JS.nonEmpty "U1" = true
  /\ exists info w',
       resolveUserInfo (quietEnv oneGroup) "U1" online = (Ok info, w')
       /\ JS.nonEmpty (info_name info) = true.
Proof.
  split; [reflexivity |]. split; [reflexivity |].
  exact (resolveUserInfo_name_not_empty (quietEnv oneGroup) "U1" online
           eq_refl eq_refl).
Defined.

(** * More about outbound delivery *)

Section OutboundMore.
Variable E : Env.

Lemma sameDelivery_refl (w : World) : sameDelivery w w.
Proof. now repeat split. Qed.

Lemma sameDelivery_trans (w1 w2 w3 : World) :
  sameDelivery w1 w2 -> sameDelivery w2 w3 -> sameDelivery w1 w3.
Proof.
  unfold sameDelivery.
  intros (A1 & A2 & A3 & A4 & A5 & A6 & A7) (B1 & B2 & B3 & B4 & B5 & B6 & B7).
  repeat split; congruence.
Qed.

(** Sending chunks touches the record of the sends only. *)
Lemma sendChunks_frame (jid : string) (threadTs : option string)
    (chunks : list string) :
  forall (lastTs : option string) (w : World),
    let w' := snd (sendChunks E jid threadTs chunks lastTs w) in
    outgoingQueue w' = outgoingQueue w
    /\ flushing w' = flushing w
    /\ connected w' = connected w
    /\ botUserId w' = botUserId w
    /\ callbacks w' = callbacks w.
Proof.
  induction chunks as [|chunk rest IH]; intros lastTs w; [now repeat split |].
  cbn [sendChunks]. unfold bind, postMessage.
  destruct (chat_postMessage E _ _) as [ts|err]; [|now repeat split].
  specialize (IH ts (record_post (Some (postArgs jid chunk threadTs)) w)).
  exact IH.
Qed.

(** The drain loop takes items off the front of the queue and nothing
    else; it ends within as many turns as there are items, with an empty
    queue when it ends well. *)
Lemma flushLoop_frame (fuel : nat) :
  forall w : World,
    length (outgoingQueue w) <= fuel ->
    let r := flushLoop E fuel w in
    flushing (snd r) = flushing w
    /\ connected (snd r) = connected w
    /\ botUserId (snd r) = botUserId w
    /\ callbacks (snd r) = callbacks w
    /\ (exists taken, outgoingQueue w = taken ++ outgoingQueue (snd r))
    /\ fst r <> OutOfFuel
    /\ (fst r = Ok tt -> outgoingQueue (snd r) = []).
Proof.
  induction fuel as [|fuel IH]; intros w Hlen.
  - destruct (outgoingQueue w) eqn:Hq; [|simpl in Hlen; lia].
    simpl. rewrite Hq. cbn [fst snd]. repeat split; try discriminate.
    + exists []. now rewrite Hq.
    + intros _. exact Hq.
  - cbn [flushLoop]. destruct (outgoingQueue w) as [|item rest] eqn:Hq.
    + cbn [fst snd]. repeat split; try discriminate.
      * exists []. now rewrite Hq.
      * intros _. exact Hq.
    + unfold bind.
      pose proof (sendChunks_frame (item_jid item) (item_threadTs item)
                    (splitMessage (item_text item)) None
                    (set_outgoingQueue rest w)) as Hframe.
      pose proof (sendChunks_ends E (item_jid item) (item_threadTs item)
                    (splitMessage (item_text item)) None
                    (set_outgoingQueue rest w)) as Hends.
      destruct (sendChunks E (item_jid item) (item_threadTs item)
                  (splitMessage (item_text item)) None
                  (set_outgoingQueue rest w)) as [[ts|err|] w1];
        cbn [fst snd] in Hframe, Hends |- *;
        destruct Hframe as (Hq1 & Hf1 & Hc1 & Hb1 & Hcb1);
        cbn [outgoingQueue flushing connected botUserId callbacks
             set_outgoingQueue] in Hq1, Hf1, Hc1, Hb1, Hcb1.
      * destruct (IH w1) as (Hf & Hc & Hb & Hcb & [taken Ht] & Hne & Hok).
        { rewrite Hq1. simpl in Hlen. lia. }
        repeat split; try congruence; try assumption.
        exists (item :: taken). rewrite Hq1 in Ht. now rewrite Ht.
      * repeat split; try congruence; try discriminate.
        exists [item]. now rewrite Hq1.
      * now destruct Hends.
Qed.

(** X15: a drain leaves the drain flag as it found it, also when a send
    throws; and while the flag is set a drain does nothing. *)
Theorem flushOutgoingQueue_keeps_flag (w : World) :
  flushing (snd (flushOutgoingQueue E w)) = flushing w
  /\ (flushing w = true -> flushOutgoingQueue E w = (Ok tt, w)).
Proof.
  unfold flushOutgoingQueue. destruct (flushing w) eqn:Hf.
  - cbn [orb snd]. split; [exact Hf | reflexivity].
  - cbn [orb]. split; [|discriminate].
    destruct (length (outgoingQueue w) =? 0); [exact Hf |].
    unfold tryFinally.
    destruct (flushLoop E (length (outgoingQueue w)) (set_flushing true w));
      reflexivity.
Qed.

(** X16: a drain only takes items off the front of the queue: what is
    left is a tail of the queue as it was, in the same order.  The drain
    ends, and when it ends without throwing, with no drain already
    running, the queue is empty. *)
Theorem flushOutgoingQueue_shrinks_queue (w : World) :
  (exists taken,
      outgoingQueue w
      = taken ++ outgoingQueue (snd (flushOutgoingQueue E w)))
  /\ fst (flushOutgoingQueue E w) <> OutOfFuel
  /\ (flushing w = false ->
      fst (flushOutgoingQueue E w) = Ok tt ->
      outgoingQueue (snd (flushOutgoingQueue E w)) = []).
Proof.
  unfold flushOutgoingQueue. destruct (flushing w) eqn:Hf.
  - cbn [orb fst snd]. repeat split; try discriminate. now exists [].
  - cbn [orb]. destruct (outgoingQueue w) as [|item rest] eqn:Hq.
    + cbn [length Nat.eqb fst snd]. rewrite Hq.
      repeat split; try discriminate. now exists [].
    + cbn [length Nat.eqb]. unfold tryFinally.
      pose proof (flushLoop_frame (S (length rest)) (set_flushing true w))
        as Hframe.
      cbn [outgoingQueue set_flushing] in Hframe. rewrite Hq in Hframe.
      specialize (Hframe (Nat.le_refl _)).
      destruct (flushLoop E (S (length rest)) (set_flushing true w))
        as [r w1].
      cbn [fst snd] in Hframe |- *.
      destruct Hframe as (_ & _ & _ & _ & Htaken & Hne & Hok).
      repeat split; [exact Htaken | exact Hne |].
      intros _ Hr. exact (Hok Hr).
Qed.

(** X17: a message sent while disconnected is queued with its text as
    given and later posted from that text: the drain splits it but does not
    resolve mentions in it. *)
Theorem queued_text_is_posted_unresolved (jid text : string)
    (threadTs : option string) (w : World) :
  connected w = false ->
  flushing w = false ->
  outgoingQueue w = [] ->
  (forall n args, resolves (chat_postMessage E n args)) ->
  let queued := snd (sendMessage E jid text threadTs w) in
  let drained := snd (flushOutgoingQueue E (set_connected true queued)) in
  posted queued = posted w
  /\ posted drained
     = posted w ++ chunkPosts jid threadTs (splitMessage text)
  /\ outgoingQueue drained = [].
Proof.
  intros Hc Hf Hq Hall queued drained.
  assert (Hqueued : queued
                    = set_outgoingQueue
                        [{| item_jid := jid; item_text := text;
                            item_threadTs := threadTs |}] w).
  { subst queued. unfold sendMessage, bind, read, enqueue, modify.
    rewrite Hc. cbn [negb snd]. now rewrite Hq. }
  split; [now rewrite Hqueued |].
  subst drained. rewrite Hqueued. unfold flushOutgoingQueue.
  cbn [flushing set_connected set_outgoingQueue outgoingQueue length Nat.eqb].
  rewrite Hf. cbn [orb]. unfold tryFinally.
  edestruct (flushLoop_resolved E Hall 1) as (w' & Hloop & Hq' & _ & Hp');
    [|rewrite Hloop]; [cbn; lia |].
  cbn [snd posted outgoingQueue set_flushing set_connected set_outgoingQueue]
    in Hp' |- *.
  rewrite Hp'. cbn [flat_map]. unfold itemPosts at 1.
  cbn [item_jid item_text item_threadTs].
  rewrite app_nil_r. split; [reflexivity | exact Hq'].
Qed.

(** X18: a connected send on a platform that accepts every call posts the
    chunks of the text after mention resolution, in order, returns, and
    leaves the queue alone. *)
Theorem connected_send_posts_resolved_text (jid text : string)
    (threadTs : option string) (w : World) :
  connected w = true ->
  (forall n args, resolves (chat_postMessage E n args)) ->
  exists ts w',
    sendMessage E jid text threadTs w = (Ok ts, w')
    /\ outgoingQueue w' = outgoingQueue w
    /\ posted w'
       = posted w
         ++ chunkPosts jid threadTs
              (splitMessage (resolveMentions E (userInfoCache w) text)).
Proof.
  intros Hc Hall. unfold sendMessage, bind, read, tryCatch. rewrite Hc.
  cbn [negb].
  destruct (sendChunks_resolved E jid threadTs
              (splitMessage (resolveMentions E (userInfoCache w) text))
              Hall None w) as (ts & w' & Hrun & Hq & _ & Hp).
  rewrite Hrun. now exists ts, w'.
Qed.

End OutboundMore.

Lemma quietEnv_resolves (groups : gmap string RegisteredGroup) :
  forall n args, resolves (chat_postMessage (quietEnv groups) n args).
Proof. intros n args. now exists (Some "1.0"). Qed.

Lemma queued_text_is_posted_unresolved_witness :
  connected initial = false
  /\ flushing initial = false
  /\ outgoingQueue initial = []
  /\ (forall n args, resolves (chat_postMessage (quietEnv oneGroup) n args))
  /\ posted
       (snd (flushOutgoingQueue (quietEnv oneGroup)
               (set_connected true
                  (snd (sendMessage (quietEnv oneGroup) "C1" "@Ann hi" None
                          initial)))))
     = posted initial ++ chunkPosts "C1" None (splitMessage "@Ann hi").
Proof.
  split; [reflexivity |]. split; [reflexivity |]. split; [reflexivity |].
  split; [exact (quietEnv_resolves oneGroup) |].
  exact (proj1 (proj2 (queued_text_is_posted_unresolved (quietEnv oneGroup)
                         "C1" "@Ann hi" None initial eq_refl eq_refl eq_refl
                         (quietEnv_resolves oneGroup)))).
Defined.

Lemma connected_send_posts_resolved_text_witness :
  connected online = true
  /\ (forall n args, resolves (chat_postMessage (quietEnv oneGroup) n args))
  /\ exists ts w',
       sendMessage (quietEnv oneGroup) "C1" "hello" None online = (Ok ts, w')
       /\ outgoingQueue w' = outgoingQueue online
       /\ posted w'
          = posted online
            ++ chunkPosts "C1" None
                 (splitMessage
                    (resolveMentions (quietEnv oneGroup)
                       (userInfoCache online) "hello")).
Proof.
  split; [reflexivity |].
  split; [exact (quietEnv_resolves oneGroup) |].
  exact (connected_send_posts_resolved_text (quietEnv oneGroup) "C1" "hello"
           None online eq_refl (quietEnv_resolves oneGroup)).
Defined.

(** * Connecting *)

Section Connecting.
Variable E : Env.

Lemma resolveUserInfo_sameDelivery (userId : string) (w : World) :
  exists info w',
    resolveUserInfo E userId w = (Ok info, w') /\ sameDelivery w w'
    /\ chatNames w' = chatNames w /\ syncedRecently w' = syncedRecently w.
Proof.
  unfold resolveUserInfo.
  destruct (userInfoCache w !! userId) as [cached|];
    [exists cached, w; now repeat split |].
  destruct (users_info E userId) as [user|err];
    eexists _, _; (split; [reflexivity |]); now repeat split.
Qed.

Lemma syncChannels_sameDelivery (channels : list SlackConversation) :
  forall w, exists w',
    syncChannels E channels w = (Ok tt, w') /\ sameDelivery w w'
    /\ syncedRecently w' = syncedRecently w.
Proof.
  induction channels as [|ch rest IH]; intros w.
  - exists w. split; [reflexivity |]. split; [apply sameDelivery_refl | reflexivity].
  - cbn [syncChannels]. unfold bind at 1.
    assert (H : exists w1,
               (if JS.truthy (sc_id ch) && JS.truthy (sc_name ch)
                then updateChatName (JS.orDefault (sc_id ch) "")
                                    (JS.orDefault (sc_name ch) "")
                else if JS.truthy (sc_id ch) && sc_is_im ch
                then if JS.truthy (sc_user ch)
                     then name <- resolveDisplayName E
                                    (JS.orDefault (sc_user ch) "") ;;
                          updateChatName (JS.orDefault (sc_id ch) "")
                                         ("DM: " +:+ name)
                     else ret tt
                else ret tt) w = (Ok tt, w1)
               /\ sameDelivery w w1
               /\ syncedRecently w1 = syncedRecently w).
    { destruct (JS.truthy (sc_id ch) && JS.truthy (sc_name ch));
        [unfold updateChatName, modify; eexists; split; [reflexivity |];
         now repeat split |].
      destruct (JS.truthy (sc_id ch) && sc_is_im ch);
        [|exists w; now repeat split].
      destruct (JS.truthy (sc_user ch)); [|exists w; now repeat split].
      unfold bind, resolveDisplayName, bind.
      destruct (resolveUserInfo_sameDelivery (JS.orDefault (sc_user ch) "") w)
        as (info & w1 & Hrun & (A1 & A2 & A3 & A4 & A5 & A6 & A7) & _ & Hs).
      rewrite Hrun. unfold ret, updateChatName, modify.
      eexists. split; [reflexivity |]. now repeat split. }
    destruct H as (w1 & -> & Hsame & Hs).
    destruct (IH w1) as (w' & Hrun & Hsame' & Hs').
    exists w'. split; [exact Hrun |].
    split; [exact (sameDelivery_trans _ _ _ Hsame Hsame') | congruence].
Qed.

Lemma syncPages_sameDelivery (fuel : nat) :
  forall (cursor : option string) (w : World),
    sameDelivery w (snd (syncPages E fuel cursor w)).
Proof.
  induction fuel as [|fuel IH]; intros cursor w; [apply sameDelivery_refl |].
  cbn [syncPages]. unfold bind at 1, await.
  destruct (conversations_list E cursor) as [page|err];
    [|apply sameDelivery_refl].
  unfold bind at 1.
  destruct (syncChannels_sameDelivery (page_channels page) w)
    as (w1 & -> & Hsame & _).
  destruct (JS.truthy (JS.orUndefined (page_next_cursor page)));
    [|exact Hsame].
  exact (sameDelivery_trans _ _ _ Hsame (IH _ w1)).
Qed.

(** The metadata sync has no part in delivery. *)
Lemma syncChannelMetadata_sameDelivery (fuel : nat) (force : bool)
    (w : World) :
  sameDelivery w (snd (syncChannelMetadata E fuel force w)).
Proof.
  unfold syncChannelMetadata, bind at 1, read.
  destruct (negb force && syncedRecently w); [apply sameDelivery_refl |].
  unfold tryCatch, bind.
  pose proof (syncPages_sameDelivery fuel None w) as H.
  destruct (syncPages E fuel None w) as [[[]|err|] w1];
    cbn [snd] in H |- *; exact H.
Qed.

(** A drain on a platform that accepts every send. *)
Lemma flushOutgoingQueue_resolved (w : World) :
  flushing w = false ->
  (forall n args, resolves (chat_postMessage E n args)) ->
  exists w',
    flushOutgoingQueue E w = (Ok tt, w')
    /\ outgoingQueue w' = []
    /\ posted w' = posted w ++ flat_map itemPosts (outgoingQueue w)
    /\ connected w' = connected w
    /\ botUserId w' = botUserId w.
Proof.
  intros Hf Hall. unfold flushOutgoingQueue. rewrite Hf. cbn [orb].
  destruct (outgoingQueue w) as [|item rest] eqn:Hq.
  - exists w. cbn [length Nat.eqb flat_map]. rewrite app_nil_r.
    now repeat split.
  - cbn [length Nat.eqb]. unfold tryFinally.
    destruct (flushLoop_resolved E Hall (S (length rest))
                (set_flushing true w)) as (w' & Hloop & Hq' & _ & Hp').
    { cbn [outgoingQueue set_flushing]. rewrite Hq. cbn. lia. }
    pose proof (flushLoop_frame E (S (length rest)) (set_flushing true w))
      as Hframe.
    cbn [outgoingQueue set_flushing] in Hframe. rewrite Hq in Hframe.
    specialize (Hframe (Nat.le_refl _)). rewrite Hloop in Hframe.
    cbn [fst snd] in Hframe.
    destruct Hframe as (_ & Hc & Hb & _).
    rewrite Hloop. exists (set_flushing false w').
    cbn [outgoingQueue posted connected botUserId set_flushing] in *.
    rewrite Hq in Hp'. now repeat split.
Qed.

(** X19: with both credentials, a platform that lets the application
    start and names the bot, and accepts every send, [connect] returns
    connected and knows the bot's id, and the drain it starts (not
    awaited, here run to its end with nothing in between) posts everything
    that was queued before, in the order of the queue, leaving the queue
    empty. *)
Theorem connect_drains_queue (fuel : nat) (auth : option string) (w : World) :
  JS.truthy (SLACK_BOT_TOKEN E) = true ->
  JS.truthy (SLACK_APP_TOKEN E) = true ->
  app_start E = Resolved tt ->
  auth_test E = Resolved auth ->
  flushing w = false ->
  (forall n args, resolves (chat_postMessage E n args)) ->
  exists w',
    connect E fuel w = (Ok tt, w')
    /\ connected w' = true
    /\ botUserId w' = JS.orDefault auth ""
    /\ outgoingQueue w' = []
    /\ posted w' = posted w ++ flat_map itemPosts (outgoingQueue w).
Proof.
  intros Hbot Happ Hstart Hauth Hf Hall. unfold connect.
  rewrite Hbot, Happ. cbn [negb orb].
  unfold bind at 1, modify at 1. unfold bind at 1, await at 1.
  rewrite Hstart. unfold bind at 1, await at 1. rewrite Hauth.
  unfold bind at 1, modify at 1. unfold bind at 1, modify at 1.
  unfold bind at 1, detached at 1.
  match goal with
  | |- context [syncChannelMetadata E fuel false ?w0] =>
      pose proof (syncChannelMetadata_sameDelivery fuel false w0) as Hsync;
      set (ws := snd (syncChannelMetadata E fuel false w0)) in *
  end.
  destruct Hsync as (S1 & S2 & _ & S4 & S5 & S6 & _).
  cbn [outgoingQueue posted flushing connected botUserId
       set_connected set_botUserId set_botToken] in S1, S2, S4, S5, S6.
  unfold bind at 1, modify at 1. unfold detached.
  set (wt := set_channelSyncTimerStarted true ws).
  destruct (flushOutgoingQueue_resolved wt) as (w' & Hrun & Hq' & Hp' & Hc' & Hb');
    [subst wt; cbn [flushing set_channelSyncTimerStarted]; congruence
    | exact Hall |].
  rewrite Hrun. cbn [snd]. exists w'. split; [reflexivity |].
  subst wt.
  cbn [outgoingQueue posted connected botUserId set_channelSyncTimerStarted]
    in Hp', Hc', Hb'.
  repeat split; try congruence.
Qed.

End Connecting.

Lemma connect_drains_queue_witness :
  JS.truthy (SLACK_BOT_TOKEN (quietEnv oneGroup)) = true
  /\ JS.truthy (SLACK_APP_TOKEN (quietEnv oneGroup)) = true
  /\ app_start (quietEnv oneGroup) = Resolved tt
  /\ auth_test (quietEnv oneGroup) = Resolved (Some "UBOT")
  /\ flushing (set_outgoingQueue [itemA; itemB] initial) = false
  /\ (forall n args, resolves (chat_postMessage (quietEnv oneGroup) n args))
  /\ exists w',
       connect (quietEnv oneGroup) 3 (set_outgoingQueue [itemA; itemB] initial)
       = (Ok tt, w')
       /\ connected w' = true
       /\ botUserId w' = "UBOT"
       /\ outgoingQueue w' = []
       /\ posted w' = itemPosts itemA ++ itemPosts itemB.
Proof.
  repeat (split; [reflexivity |]).
  split; [exact (quietEnv_resolves oneGroup) |].
  destruct (connect_drains_queue (quietEnv oneGroup) 3 (Some "UBOT")
              (set_outgoingQueue [itemA; itemB] initial)
              eq_refl eq_refl eq_refl eq_refl eq_refl
              (quietEnv_resolves oneGroup))
    as (w' & H1 & H2 & H3 & H4 & H5).
  exists w'. repeat split; assumption.
Defined.

(** * Metadata sync and catch-up, continued *)

Section SyncMore.
Variable E : Env.

(** X20: a sync that is due (forced, or none recorded recently) and gets
    its one page records the sync, so that a sync asked for right after,
    unforced, does nothing; a sync whose first page is rejected returns
    without recording anything, so that the next one tries again. *)
Theorem syncChannelMetadata_records_success_only (fuel : nat) (force : bool)
    (w : World) :
  negb force && syncedRecently w = false ->
  (forall page,
      conversations_list E None = Resolved page ->
      JS.truthy (page_next_cursor page) = false ->
      fst (syncChannelMetadata E (S fuel) force w) = Ok tt
      /\ syncedRecently (snd (syncChannelMetadata E (S fuel) force w)) = true
      /\ forall fuel',
          syncChannelMetadata E fuel' false
            (snd (syncChannelMetadata E (S fuel) force w))
          = (Ok tt, snd (syncChannelMetadata E (S fuel) force w)))
  /\ (forall err,
        conversations_list E None = Rejected err ->
        syncChannelMetadata E (S fuel) force w = (Ok tt, w)).
Proof.
  intros Hdue. split.
  - intros page Hpage Hlast.
    assert (Hrun : exists w1,
               syncChannelMetadata E (S fuel) force w
               = (Ok tt, set_syncedRecently true w1)).
    { unfold syncChannelMetadata, bind at 1, read. rewrite Hdue.
      unfold tryCatch, bind at 1. cbn [syncPages].
      unfold bind at 1, await. rewrite Hpage. unfold bind at 1.
      destruct (syncChannels_sameDelivery E (page_channels page) w)
        as (w1 & -> & _).
      assert (Hc : JS.truthy (JS.orUndefined (page_next_cursor page)) = false)
        by (unfold JS.orUndefined; now rewrite Hlast).
      rewrite Hc. unfold ret, modify. now exists w1. }
    destruct Hrun as [w1 ->]. cbn [fst snd].
    split; [reflexivity |]. split; [reflexivity |].
    intros fuel'. unfold syncChannelMetadata, bind, read. reflexivity.
  - intros err Hpage.
    unfold syncChannelMetadata, bind at 1, read. rewrite Hdue.
    unfold tryCatch, bind at 1. cbn [syncPages].
    unfold bind at 1, await. now rewrite Hpage.
Qed.

Lemma syncChannels_named (channels : list SlackConversation) :
  Forall (fun ch => JS.truthy (sc_id ch) && JS.truthy (sc_name ch) = true)
         channels ->
  forall w,
    fst (syncChannels E channels w) = Ok tt
    /\ chatNames (snd (syncChannels E channels w))
       = chatNames w
         ++ map (fun ch => (JS.orDefault (sc_id ch) "",
                            JS.orDefault (sc_name ch) "")) channels.
Proof.
  induction 1 as [|ch rest Hch _ IH]; intros w.
  - cbn. now rewrite app_nil_r.
  - assert (Hstep : syncChannels E (ch :: rest) w
                    = syncChannels E rest
                        (set_chatNames
                           (chatNames w ++
                            [(JS.orDefault (sc_id ch) "",
                              JS.orDefault (sc_name ch) "")]) w)).
    { cbn [syncChannels]. unfold bind at 1. now rewrite Hch. }
    rewrite Hstep. cbn [map].
    specialize (IH (set_chatNames
                      (chatNames w ++
                       [(JS.orDefault (sc_id ch) "",
                         JS.orDefault (sc_name ch) "")]) w)).
    destruct IH as [IH1 IH2]. split; [exact IH1 |].
    rewrite IH2. cbn [chatNames set_chatNames]. now rewrite <- app_assoc.
Qed.

(** X21: a due sync that gets one page of named channels stores the
    name of every channel of the page, in the order of the page, after the
    names stored before. *)
Theorem syncChannelMetadata_stores_names (fuel : nat) (force : bool)
    (page : ListPage) (w : World) :
  negb force && syncedRecently w = false ->
  conversations_list E None = Resolved page ->
  JS.truthy (page_next_cursor page) = false ->
  Forall (fun ch => JS.truthy (sc_id ch) && JS.truthy (sc_name ch) = true)
         (page_channels page) ->
  chatNames (snd (syncChannelMetadata E (S fuel) force w))
  = chatNames w
    ++ map (fun ch => (JS.orDefault (sc_id ch) "",
                       JS.orDefault (sc_name ch) ""))
           (page_channels page).
Proof.
  intros Hdue Hpage Hlast Hnamed.
  unfold syncChannelMetadata, bind at 1, read. rewrite Hdue.
  unfold tryCatch, bind at 1. cbn [syncPages].
  unfold bind at 1, await. rewrite Hpage. unfold bind at 1.
  destruct (syncChannels_named _ Hnamed w) as [Hok Hnames].
  destruct (syncChannels E (page_channels page) w) as [r w1].
  cbn [fst snd] in Hok, Hnames. subst r.
  assert (Hc : JS.truthy (JS.orUndefined (page_next_cursor page)) = false)
    by (unfold JS.orUndefined; now rewrite Hlast).
  rewrite Hc. unfold ret, modify. cbn [snd chatNames set_syncedRecently].
  exact Hnames.
Qed.

(** X22: the number [catchUpMessages] returns is the number of messages
    it handed to [onMessage], over all the channels and threads. *)
Theorem catchUpMessages_counts_deliveries
    (channels : list (string * option string)) (w : World) :
  exists n w',
    catchUpMessages E channels w = (Ok n, w')
    /\ length (delivered w') = length (delivered w) + n.
Proof.
  unfold catchUpMessages.
  destruct (catchUpChannels_inStep E channels (0, w))
    as ([n w'] & Hrun & _ & Hcount).
  rewrite Hrun. exists n, w'. split; [reflexivity |].
  cbn [fst snd] in Hcount. lia.
Qed.

(** X23: a channel whose history cannot be fetched is passed over: it
    adds nothing and the channels after it are caught up as if it had not
    been listed. *)
Theorem catchUpMessages_isolates_failure (jid : string)
    (latestTs : option string) (rest : list (string * option string))
    (err : string) (w : World) :
  conversations_history E
    {| hist_channel := jid;
       hist_oldest := Some (JS.orDefault latestTs (twelveHoursAgo E));
       hist_latest := None; hist_inclusive := false; hist_limit := 200 |}
  = Rejected err ->
  catchUpMessages E ((jid, latestTs) :: rest) w = catchUpMessages E rest w.
Proof.
  intros Hfail. unfold catchUpMessages. cbn [catchUpChannels].
  unfold bind at 1, catchUpChannel, tryCatch. cbv zeta.
  unfold bind at 1, await. now rewrite Hfail.
Qed.

End SyncMore.

Lemma syncChannelMetadata_records_success_only_witness :
  negb false && syncedRecently initial = false
  /\ conversations_list listEnv None = Resolved twoChannels
  /\ syncedRecently (snd (syncChannelMetadata listEnv 1 false initial)) = true.
Proof.
  split; [reflexivity |]. split; [reflexivity |].
  exact (proj1 (proj2 (proj1 (syncChannelMetadata_records_success_only
                                listEnv 0 false initial eq_refl)
                             twoChannels eq_refl eq_refl))).
Defined.

Lemma syncChannelMetadata_stores_names_witness :
  negb false && syncedRecently initial = false
  /\ conversations_list listEnv None = Resolved twoChannels
  /\ JS.truthy (page_next_cursor twoChannels) = false
  /\ chatNames (snd (syncChannelMetadata listEnv 1 false initial))
     = [("C1", "general"); ("C2", "random")].
Proof.
  split; [reflexivity |]. split; [reflexivity |]. split; [reflexivity |].
  refine (syncChannelMetadata_stores_names listEnv 0 false twoChannels initial
            eq_refl eq_refl eq_refl _).
  repeat constructor.
Defined.

Lemma catchUpMessages_isolates_failure_witness :
  conversations_history historyDown
    {| hist_channel := "C1";
       hist_oldest := Some (JS.orDefault (Some "1000.0")
                                         (twelveHoursAgo historyDown));
       hist_latest := None; hist_inclusive := false; hist_limit := 200 |}
  = Rejected "timeout"
  /\ catchUpMessages historyDown [("C1", Some "1000.0"); ("C2", None)] online
     = catchUpMessages historyDown [("C2", None)] online.
Proof.
  split; [reflexivity |].
  exact (catchUpMessages_isolates_failure historyDown "C1" (Some "1000.0")
           [("C2", None)] "timeout" online eq_refl).
Defined.

(** * More about inbound events *)

Section InboundMore.
Variable E : Env.
Import JS JSFacts.

Lemma removeMentions_absent (token s : string) :
  includes token s = false -> forall n, removeMentions n token s = s.
Proof.
  intros H n. revert s H; induction n as [|n IH]; intros s H; [reflexivity |].
  destruct s as [|c t]; [reflexivity |].
  cbn [removeMentions]. pose proof H as H'. cbn [includes] in H'.
  apply orb_false_iff in H' as [Hs Ht]. rewrite Hs. now rewrite (IH _ Ht).
Qed.

Lemma trimStart_app_white (ws s : string) :
  allWhite ws = true -> trimStart (ws +:+ s) = trimStart s.
Proof.
  induction ws as [|c ws IH]; [reflexivity |].
  cbn [allWhite]. intros [Hc Hws]%andb_true_iff.
  cbn [String.append trimStart]. rewrite Hc. exact (IH Hws).
Qed.

(** A mention at the head of a text goes with the white space behind it,
    and what follows is trimmed. *)
Lemma stripBotMention_leading (bot ws body : string) :
  allWhite ws = true ->
  includes (mentionToken bot) body = false ->
  stripBotMention bot (mentionToken bot +:+ ws +:+ body) = trim body.
Proof.
  intros Hws Hbody. unfold stripBotMention.
  destruct (String.length (mentionToken bot +:+ ws +:+ body)) as [|n] eqn:Hlen;
    [rewrite length_app in Hlen; unfold mentionToken in Hlen;
     simpl in Hlen; lia |].
  cbn [removeMentions].
  destruct (mentionToken bot +:+ ws +:+ body) as [|c t] eqn:Htext;
    [simpl in Hlen; lia |].
  rewrite <- Htext, startsWith_app_self, drop_app_length.
  rewrite (trimStart_app_white _ _ Hws).
  rewrite (removeMentions_absent _ _ (trimStart_includes _ _ Hbody)).
  unfold trim. now rewrite (trimStart_fixed _ (trimStart_head body)).
Qed.

(** X24: with a bot id of letters and digits, a mention that starts with
    the bot's token, followed by white space and a text that does not name
    the bot again, and whose timestamp is a date, is delivered in a
    registered conversation with that text, trimmed, as its content, under
    the event's own timestamp as id, in the thread the event names or else
    in a thread of its own. *)
Theorem onAppMention_strips_leading_mention (channel user ws body ts : string)
    (thread_ts : option string) (w : World) (timestamp : string) :
  nonEmpty (botUserId w) = true ->
  allAlnum (botUserId w) = true ->
  timestampOf E ts = Some timestamp ->
  nonEmpty user = true ->
  allWhite ws = true ->
  includes (mentionToken (botUserId w)) body = false ->
  nonEmpty (trim body) = true ->
  isRegistered E channel = true ->
  exists m,
    delivered
      (snd (onAppMention E channel (Some user)
              (mentionToken (botUserId w) +:+ ws +:+ body) ts thread_ts None w))
    = delivered w ++ [m]
    /\ msg_id m = ts
    /\ msg_timestamp m = timestamp
    /\ msg_content m = trim body
    /\ msg_thread_ts m = Some (orDefault thread_ts ts).
Proof.
  intros Hbot Hplain Hts Huser Hws Hbody Htrim Hreg.
  unfold onAppMention. cbn [truthy orDefault]. rewrite Huser. cbn [negb].
  assert (Htext : eventText (botUserId w) true
                    (mentionToken (botUserId w) +:+ ws +:+ body)
                  = trim body).
  { unfold eventText. rewrite Hbot. cbn [andb].
    now apply stripBotMention_leading. }
  destruct (handleEvent_run E channel user
              (mentionToken (botUserId w) +:+ ws +:+ body) ts true
              (Some (orDefault thread_ts ts)) None w timestamp
              (or_intror Hplain))
    as (_ & _ & Hrun); [left; now rewrite Htext | exact Hts |].
  destruct (Hrun Hreg) as (_ & m & Hd & Hid & _ & Hiso & Hthread & Hcontent & _);
    [discriminate |].
  exists m. rewrite Htext in Hcontent. rewrite (Hcontent Htrim).
  now repeat split.
Qed.

(** What the deletion handler does: nothing, or one call of
    [onMessageDelete]. *)
Lemma handleMessageDelete_run (onMessageDelete : bool) (event : MessageEvent)
    (w : World) :
  let r := handleMessageDelete E onMessageDelete event w in
  r = (Ok tt, w)
  \/ (isRegistered E (me_channel event) = true
      /\ onMessageDelete = true
      /\ truthy (me_previous_message event ≫= pm_bot_id) = false
      /\ exists ts,
          nonEmpty ts = true
          /\ orElse (me_deleted_ts event) (me_previous_message event ≫= pm_ts)
             = Some ts
          /\ r = (Ok tt,
                  record_callback (OnMessageDelete (me_channel event) ts) w)).
Proof.
  intros r. subst r. unfold handleMessageDelete.
  destruct (isRegistered E (me_channel event)); [|now left]. cbn [negb].
  destruct (truthy (orElse (me_deleted_ts event)
                           (me_previous_message event ≫= pm_ts))) eqn:Hts;
    [|now left]. cbn [negb].
  destruct (truthy (me_previous_message event ≫= pm_bot_id)); [now left |].
  destruct onMessageDelete; [|now left].
  right. split; [reflexivity |]. split; [reflexivity |].
  split; [reflexivity |].
  destruct (orElse (me_deleted_ts event) (me_previous_message event ≫= pm_ts))
    as [ts|]; [|discriminate].
  cbn [truthy] in Hts.
  exists ts. split; [exact Hts |]. split; [reflexivity |].
  unfold modify. cbn [orDefault]. now rewrite Hts.
Qed.

(** A deletion never reaches [onMessage]. *)
Lemma handleMessageDelete_silent (onMessageDelete : bool)
    (event : MessageEvent) (w : World) :
  delivered (snd (handleMessageDelete E onMessageDelete event w))
  = delivered w.
Proof.
  destruct (handleMessageDelete_run onMessageDelete event w)
    as [Hnone | (_ & _ & _ & ts & _ & _ & Hrun)].
  - now rewrite Hnone.
  - rewrite Hrun. cbn [snd].
    now rewrite delivered_record_callback, app_nil_r.
Qed.

(** X25: a deletion is passed on at most once, as a call of
    [onMessageDelete] and never as a message or a metadata update, and
    only when the conversation is registered, a callback was given and the
    deleted message was not a bot's; the timestamp passed is the event's
    [deleted_ts] or, without one, the previous message's. *)
Theorem handleMessageDelete_propagates (onMessageDelete : bool)
    (event : MessageEvent) (w : World) :
  let r := handleMessageDelete E onMessageDelete event w in
  fst r = Ok tt
  /\ delivered (snd r) = delivered w
  /\ seen (snd r) = seen w
  /\ (deletions (snd r) = deletions w
      \/ (isRegistered E (me_channel event) = true
          /\ onMessageDelete = true
          /\ truthy (me_previous_message event ≫= pm_bot_id) = false
          /\ exists ts,
              nonEmpty ts = true
              /\ orElse (me_deleted_ts event)
                        (me_previous_message event ≫= pm_ts) = Some ts
              /\ deletions (snd r) = deletions w ++ [(me_channel event, ts)])).
Proof.
  intros r.
  destruct (handleMessageDelete_run onMessageDelete event w)
    as [Hnone | (Hreg & Hcb & Hbot & ts & Hne & Hts & Hrun)]; subst r.
  - rewrite Hnone. cbn [fst snd]. repeat split. now left.
  - rewrite Hrun. cbn [fst snd].
    rewrite delivered_record_callback, seen_record_callback, !app_nil_r.
    repeat split. right. repeat split; try assumption.
    exists ts. repeat split; try assumption.
    unfold deletions. cbn [callbacks record_callback].
    now rewrite omap_app.
Qed.

(** X26: the [message] handler hands a message that is not an edit to
    [onMessage] only when the event has no subtype and no [bot_id], comes
    from a channel whose id starts with [D], and that conversation is
    registered. *)
Theorem onMessageEvent_new_message_only_in_dm (onMessageDelete : bool)
    (event : MessageEvent) (w : World) :
  me_subtype event <> Some "message_changed" ->
  delivered (snd (onMessageEvent E onMessageDelete event w)) <> delivered w ->
  truthy (me_subtype event) = false
  /\ me_has_bot_id event = false
  /\ startsWith "D" (me_channel event) = true
  /\ isRegistered E (me_channel event) = true.
Proof.
  intros Hedit Hd. unfold onMessageEvent in Hd.
  rewrite (bool_decide_eq_false_2 _ Hedit) in Hd.
  destruct (bool_decide (me_subtype event = Some "message_deleted")).
  - destruct Hd.
    apply handleMessageDelete_silent.
  - destruct (truthy (me_subtype event)); [now destruct Hd |].
    destruct (me_has_bot_id event); [now destruct Hd |].
    cbn [orb] in Hd.
    destruct (startsWith "D" (me_channel event)); [|now destruct Hd].
    cbn [negb] in Hd.
    destruct (negb (nonEmpty (orDefault (me_user event) ""))
              && negb (hasLength (me_files event))); [now destruct Hd |].
    destruct (isRegistered E (me_channel event)) eqn:Hreg; [easy |].
    destruct Hd. now apply handleEvent_unregistered_silent.
Qed.

End InboundMore.

Section EditsAndReactions.
Variable E : Env.
Import JS.

(** What the edit handler does: nothing, or one message. *)
Lemma handleMessageEdit_run (event : MessageEvent) (w : World) :
  let r := handleMessageEdit E event w in
  callbacks (snd r) = callbacks w
  \/ exists edited m,
      me_message event = Some edited
      /\ truthy (sm_bot_id (em_message edited)) = false
      /\ truthy (sm_ts (em_message edited)) = true
      /\ isRegistered E (me_channel event) = true
      /\ callbacks (snd r) = callbacks w ++ [OnMessage (me_channel event) m]
      /\ msg_id m = orDefault (sm_ts (em_message edited)) ""
      /\ msg_chat_jid m = me_channel event
      /\ msg_thread_ts m = sm_thread_ts (em_message edited)
      /\ nonEmpty (msg_content m) = true.
Proof.
  intros r.
  assert (Hr : r = handleMessageEdit E event w) by reflexivity.
  clearbody r. unfold handleMessageEdit in Hr.
  destruct (me_message event) as [edited|] eqn:Hmsg; [|subst r; now left].
  destruct (truthy (sm_bot_id (em_message edited))) eqn:Hbot;
    [subst r; now left |].
  destruct (isRegistered E (me_channel event)) eqn:Hreg; [|subst r; now left].
  destruct (truthy (sm_user (em_message edited))) eqn:Huser;
    [|subst r; now left].
  destruct (truthy (sm_ts (em_message edited))) eqn:Hts; [|subst r; now left].
  cbn [negb orb] in Hr. cbv zeta in Hr.
  unfold bind at 1, read at 1 in Hr. unfold bind at 1 in Hr.
  assert (Htext : exists t,
             (if nonEmpty (botUserId w)
              then stripMention E (botUserId w)
                     (orDefault (sm_text (em_message edited)) "")
              else ret (orDefault (sm_text (em_message edited)) "")) w
             = (t, w)).
  { destruct (nonEmpty (botUserId w)); [|now eexists].
    destruct (stripMention_frame E (botUserId w)
                (orDefault (sm_text (em_message edited)) "") w)
      as (t & Ht & _).
    now exists t. }
  destruct Htext as (t & Htext). rewrite Htext in Hr.
  destruct t as [text|err|]; [|subst r; now left|subst r; now left].
  unfold bind at 1 in Hr. rewrite (isoTimestamp_run E) in Hr.
  destruct (timestampOf E (orDefault (sm_ts (em_message edited)) ""))
    as [timestamp|]; [|subst r; now left].
  unfold bind at 1 in Hr.
  destruct (resolveUserInfo_returns E
              (orDefault (sm_user (em_message edited)) "") w)
    as (info & w1 & Hrun & Hcb & _).
  rewrite Hrun in Hr. unfold downloadFiles, bind, modify, ret, throw in Hr.
  destruct (hasLength (em_files edited)).
  - destruct (mkdirSync E _); [|subst r; left; exact Hcb].
    set (files := downloadLoop E _ _ []) in Hr.
    destruct (nonEmpty text) eqn:Hne.
    + cbn [negb andb] in Hr. subst r. right. eexists edited, _.
      cbn [snd callbacks record_callback]. rewrite Hcb.
      repeat split; try reflexivity; assumption.
    + destruct files as [|f fs] eqn:Hfiles.
      * cbn [negb andb hasLength] in Hr. subst r. left. exact Hcb.
      * cbn [negb andb hasLength] in Hr. subst r. right. eexists edited, _.
        cbn [snd callbacks record_callback]. rewrite Hcb.
        repeat split; try reflexivity; assumption.
  - destruct (nonEmpty text) eqn:Hne.
    + cbn [negb andb] in Hr. subst r. right. eexists edited, _.
      cbn [snd callbacks record_callback]. rewrite Hcb.
      repeat split; try reflexivity; assumption.
    + cbn [negb andb hasLength] in Hr. subst r. left. exact Hcb.
Qed.

(** X27: an edit is handed to [onMessage] at most once, under the id of
    the edited message and in its conversation, so that it takes the place
    of the stored message; only in a registered conversation and for a
    message that is not a bot's; its content is never empty; and an edit
    never announces the conversation through [onChatMetadata]. *)
Theorem handleMessageEdit_replaces (event : MessageEvent) (w : World) :
  let r := handleMessageEdit E event w in
  seen (snd r) = seen w
  /\ (delivered (snd r) = delivered w
      \/ exists edited m,
          me_message event = Some edited
          /\ truthy (sm_bot_id (em_message edited)) = false
          /\ isRegistered E (me_channel event) = true
          /\ delivered (snd r) = delivered w ++ [m]
          /\ Some (msg_id m) = sm_ts (em_message edited)
          /\ msg_chat_jid m = me_channel event
          /\ msg_thread_ts m = sm_thread_ts (em_message edited)
          /\ nonEmpty (msg_content m) = true).
Proof.
  intros r.
  destruct (handleMessageEdit_run event w)
    as [Hsame | (edited & m & Hmsg & Hbot & Hts & Hreg & Hcb & Hid & Hjid
                 & Hthread & Hcontent)]; subst r.
  - split; [exact (seen_same _ _ Hsame) |]. left.
    exact (delivered_same _ _ Hsame).
  - split.
    + unfold seen. rewrite Hcb, omap_app. cbn. now rewrite app_nil_r.
    + right. exists edited, m. repeat split; try assumption.
      * unfold delivered. rewrite Hcb, omap_app. reflexivity.
      * rewrite Hid. destruct (sm_ts (em_message edited)) as [ts|];
          [|discriminate]. cbn in Hts |- *. now rewrite Hts.
Qed.

(** X28: a reaction the bot added itself, a reaction without a user, and
    a reaction on something that is not a message all leave the adapter
    as it was. *)
Theorem onReactionAdded_ignores_own_and_foreign (event : ReactionEvent)
    (w : World) :
  re_user event = Some (botUserId w)
  \/ truthy (re_user event) = false
  \/ re_item_type event <> "message" ->
  onReactionAdded E event w = (Ok tt, w).
Proof.
  intros H.
  destruct (onReactionAdded_run E event w)
    as [Hnone | (rc & parent & info & w1 & Hu & Hb & Ht & _)];
    [exact Hnone |].
  destruct H as [H | [H | H]]; [now destruct Hb | congruence | now destruct H].
Qed.

Lemma flat_map_provenance {A B : Type} (f : A -> list B) (P : B -> Prop)
    (l : list A) :
  (forall a, In a l -> Forall P (f a)) -> Forall P (flat_map f l).
Proof.
  induction l as [|a l IH]; intros H; [constructor |].
  cbn [flat_map]. apply Forall_app. split.
  - apply H. now left.
  - apply IH. intros b Hb. apply H. now right.
Qed.

(** X29: every attachment [downloadFiles] returns comes from a reference
    of the event that has a URL and a declared size within the cap (or
    none declared), and whose download answered well; its size is the
    number of bytes received, not the size declared; and there are no more
    attachments than references. *)
Theorem downloadFiles_provenance (channel ts : string)
    (slackFiles : list SlackFile) (w : World) (result : list MessageFile) :
  downloadFiles E channel ts slackFiles w = (Ok result, w) ->
  length result <= length slackFiles
  /\ Forall
       (fun attachment =>
          exists file status,
            In file slackFiles
            /\ truthy (orElse (sf_url_private_download file)
                              (sf_url_private file)) = true
            /\ (default 0 (sf_size file) <= MAX_FILE_SIZE)%N
            /\ fetch E (orDefault (orElse (sf_url_private_download file)
                                          (sf_url_private file)) "")
               = FetchResponse true status (Resolved (file_size attachment))
            /\ file_name attachment
               = orDefault (sf_name file) ("file-" +:+ sf_id file))
       result.
Proof.
  unfold downloadFiles.
  destruct (mkdirSync E (filesDir E channel ts)); [|discriminate].
  unfold ret. intros [= <-].
  rewrite (downloadLoop_independent E _ slackFiles []). cbn [app].
  split.
  - induction slackFiles as [|file rest IH]; [cbn; lia |].
    cbn [flat_map]. rewrite length_app. cbn [length].
    assert (Hone : length (downloadLoop E (filesDir E channel ts) [file] [])
                   <= 1).
    { cbn [downloadLoop].
      destruct (negb (truthy _)); [cbn; lia |].
      destruct (MAX_FILE_SIZE <? _)%N; [cbn; lia |].
      destruct (fetch E _) as [err|ok status body]; [cbn; lia |].
      destruct (negb ok); [cbn; lia |].
      destruct body; [|cbn; lia].
      destruct (writeFileSync E _); cbn; lia. }
    lia.
  - apply flat_map_provenance. intros file Hin.
    cbn [downloadLoop].
    destruct (truthy (orElse (sf_url_private_download file)
                             (sf_url_private file))) eqn:Hurl;
      [|constructor].
    cbn [negb].
    destruct (N.ltb_spec MAX_FILE_SIZE (default 0%N (sf_size file)))
      as [Hbig|Hsize]; [constructor |].
    destruct (fetch E _) as [err|ok status body] eqn:Hfetch; [constructor |].
    destruct ok; [|constructor]. cbn [negb].
    destruct body as [len|err]; [|constructor].
    destruct (writeFileSync E _); [|constructor].
    cbn [app]. constructor; [|constructor].
    exists file, status. cbn [file_size file_name]. now repeat split.
Qed.

End EditsAndReactions.

Section SafeTs.
Import JS.

(** X30: the directory name made of a timestamp holds no dot and is as
    long as the timestamp. *)
Theorem safeTs_has_no_dot (ts : string) :
  occurs "." (safeTs ts) = false
  /\ String.length (safeTs ts) = String.length ts.
Proof.
  induction ts as [|c t [IH1 IH2]]; [now split |].
  cbn [safeTs occurs String.length]. rewrite IH1, IH2.
  split; [|reflexivity]. rewrite orb_false_r.
  destruct (Ascii.eqb_spec c "."); [reflexivity |].
  now apply Ascii.eqb_neq.
Qed.

End SafeTs.

Lemma onAppMention_strips_leading_mention_witness :
  JS.nonEmpty (botUserId online) = true
  /\ JS.allAlnum (botUserId online) = true
  /\ timestampOf (quietEnv oneGroup) "100.1" = Some "100.1"
  /\ JS.nonEmpty "U1" = true
  /\ JS.allWhite " " = true
  /\ JS.includes (mentionToken (botUserId online)) "hello" = false
  /\ JS.nonEmpty (JS.trim "hello") = true
  /\ isRegistered (quietEnv oneGroup) "C1" = true
  /\ exists m,
       delivered
         (snd (onAppMention (quietEnv oneGroup) "C1" (Some "U1")
                 (mentionToken (botUserId online) +:+ " " +:+ "hello")
                 "100.1" None None online))
       = delivered online ++ [m]
       /\ msg_id m = "100.1"
       /\ msg_timestamp m = "100.1"
       /\ msg_content m = JS.trim "hello"
       /\ msg_thread_ts m = Some (JS.orDefault None "100.1").
Proof.
  repeat (split; [reflexivity |]).
  exact (onAppMention_strips_leading_mention (quietEnv oneGroup) "C1" "U1"
           " " "hello" "100.1" None online "100.1"
           eq_refl eq_refl eq_refl eq_refl eq_refl eq_refl eq_refl eq_refl).
Defined.

Lemma onMessageEvent_new_message_only_in_dm_witness :
  me_subtype dmEvent <> Some "message_changed"
  /\ delivered (snd (onMessageEvent (quietEnv dmGroup) true dmEvent online))
     <> delivered online
  /\ JS.startsWith "D" (me_channel dmEvent) = true
  /\ isRegistered (quietEnv dmGroup) (me_channel dmEvent) = true.
Proof.
  assert (H1 : me_subtype dmEvent <> Some "message_changed") by discriminate.
  assert (H2 : delivered
                 (snd (onMessageEvent (quietEnv dmGroup) true dmEvent online))
               <> delivered online)
    by (vm_compute; discriminate).
  split; [exact H1 |]. split; [exact H2 |].
  exact (proj2 (proj2 (onMessageEvent_new_message_only_in_dm
                         (quietEnv dmGroup) true dmEvent online H1 H2))).
Defined.

Lemma onReactionAdded_ignores_own_and_foreign_witness :
  re_user {| re_user := Some "UBOT"; re_item_type := "message";
             re_item_channel := "C1"; re_item_ts := "50.1";
             re_reaction := "eyes"; re_event_ts := "70.5" |}
  = Some (botUserId online)
  /\ onReactionAdded storeEnv
       {| re_user := Some "UBOT"; re_item_type := "message";
          re_item_channel := "C1"; re_item_ts := "50.1";
          re_reaction := "eyes"; re_event_ts := "70.5" |} online
     = (Ok tt, online).
Proof.
  split; [reflexivity |].
  exact (onReactionAdded_ignores_own_and_foreign storeEnv
           {| re_user := Some "UBOT"; re_item_type := "message";
              re_item_channel := "C1"; re_item_ts := "50.1";
              re_reaction := "eyes"; re_event_ts := "70.5" |} online
           (or_introl eq_refl)).
Defined.

Lemma downloadFiles_provenance_witness :
  downloadFiles filesEnv "C1" "100.1" exampleFiles online
  = (Ok downloadedExample, online)
  /\ length downloadedExample <= length exampleFiles.
Proof.
  assert (H : downloadFiles filesEnv "C1" "100.1" exampleFiles online
              = (Ok downloadedExample, online)) by reflexivity.
  split; [exact H |].
  exact (proj1 (downloadFiles_provenance filesEnv "C1" "100.1" exampleFiles
                  online downloadedExample H)).
Defined.
